(** * Post-quantum hybrid key-exchange negotiation of s2n-tls

    A shallow embedding of the negotiation helpers of the TLS 1.3 PQ
    handshake test ([s2n_get_predicted_negotiated_kem_group],
    [s2n_get_predicted_negotiated_ecdhe_curve],
    [s2n_test_tls13_pq_handshake] and its table of test vectors), of the
    availability checks of the KEM preferences test and of the size macros
    of [tls/s2n_connection_serialize.h].

    Conventions.  A pointer to one of the library's global singletons
    ([&s2n_x25519_kyber_512_r3], [&s2n_ecc_curve_x25519], ...) is a
    constructor of an enumeration, so pointer comparison is equality of
    constructors; a nullable pointer is an [option].  Fields of those
    singletons whose values live in files that are not part of the
    sources at hand ([iana_id], [name]) are parameters. *)

From Stdlib Require Import List ZArith Bool String Ascii Lia.
From Stdlib Require Import Permutation.
Import ListNotations.

Local Open Scope Z_scope.

(* ===================================================================== *)
(** * KEM-group registry *)
(* ===================================================================== *)

(** The classical curves the hybrid groups are built on. *)
Inductive s2n_ecc_named_curve : Type :=
| s2n_ecc_curve_secp256r1
| s2n_ecc_curve_secp384r1
| s2n_ecc_curve_secp521r1
| s2n_ecc_curve_x25519.

(** The post-quantum KEMs the hybrid groups are built on. *)
Inductive s2n_kem : Type :=
| s2n_kyber_512_r3
| s2n_kyber_768_r3
| s2n_kyber_1024_r3
| s2n_mlkem_768
| s2n_mlkem_1024.

(** The nine hybrid groups named by the KEM preferences test. *)
Inductive s2n_kem_group : Type :=
| s2n_secp256r1_mlkem_768
| s2n_x25519_mlkem_768
| s2n_secp384r1_mlkem_1024
| s2n_x25519_kyber_512_r3
| s2n_x25519_kyber_768_r3
| s2n_secp256r1_kyber_512_r3
| s2n_secp256r1_kyber_768_r3
| s2n_secp384r1_kyber_768_r3
| s2n_secp521r1_kyber_1024_r3.

Definition s2n_ecc_named_curve_eq_dec (a b : s2n_ecc_named_curve) : {a = b} + {a <> b}.
Proof. decide equality. Defined.

Definition s2n_kem_eq_dec (a b : s2n_kem) : {a = b} + {a <> b}.
Proof. decide equality. Defined.

Definition s2n_kem_group_eq_dec (a b : s2n_kem_group) : {a = b} + {a <> b}.
Proof. decide equality. Defined.

(** Modelled from the spec: the [curve] field of each group singleton
    (§4.1, every group pairs a classical curve with a KEM); the table that
    initialises the singletons is not among the sources, the pairing is the
    one the singleton's name spells out. *)
Definition curve (g : s2n_kem_group) : s2n_ecc_named_curve :=
  match g with
  | s2n_secp256r1_mlkem_768 | s2n_secp256r1_kyber_512_r3
  | s2n_secp256r1_kyber_768_r3 => s2n_ecc_curve_secp256r1
  | s2n_secp384r1_mlkem_1024 | s2n_secp384r1_kyber_768_r3 => s2n_ecc_curve_secp384r1
  | s2n_secp521r1_kyber_1024_r3 => s2n_ecc_curve_secp521r1
  | s2n_x25519_mlkem_768 | s2n_x25519_kyber_512_r3
  | s2n_x25519_kyber_768_r3 => s2n_ecc_curve_x25519
  end.

(** Modelled from the spec: the [kem] field of each group singleton (§4.1),
    again as spelled out by the singleton's name. *)
Definition kem (g : s2n_kem_group) : s2n_kem :=
  match g with
  | s2n_secp256r1_mlkem_768 | s2n_x25519_mlkem_768 => s2n_mlkem_768
  | s2n_secp384r1_mlkem_1024 => s2n_mlkem_1024
  | s2n_x25519_kyber_512_r3 | s2n_secp256r1_kyber_512_r3 => s2n_kyber_512_r3
  | s2n_x25519_kyber_768_r3 | s2n_secp256r1_kyber_768_r3
  | s2n_secp384r1_kyber_768_r3 => s2n_kyber_768_r3
  | s2n_secp521r1_kyber_1024_r3 => s2n_kyber_1024_r3
  end.

Definition is_x25519_based (g : s2n_kem_group) : bool :=
  if s2n_ecc_named_curve_eq_dec (curve g) s2n_ecc_curve_x25519 then true else false.

Definition is_mlkem (k : s2n_kem) : bool :=
  match k with
  | s2n_mlkem_768 | s2n_mlkem_1024 => true
  | _ => false
  end.

(** The capability probes of the linked crypto provider.  Their values are
    fixed for one build of the library, so they are read from a record. *)
Record libcrypto : Type := {
  s2n_libcrypto_supports_evp_kem : bool;
  s2n_is_evp_apis_supported : bool;
  s2n_libcrypto_supports_mlkem : bool;
  s2n_pq_is_enabled : bool
}.

(** Modelled from the spec: [s2n_kem_group_is_available] (§4.1
    [is_available]); the function's body is not among the sources, only
    the assertions the KEM preferences test makes about it are. *)
Definition s2n_kem_group_is_available (lc : libcrypto) (g : s2n_kem_group) : bool :=
  s2n_libcrypto_supports_evp_kem lc
  && (if is_x25519_based g then s2n_is_evp_apis_supported lc else true)
  && (if is_mlkem (kem g) then s2n_libcrypto_supports_mlkem lc else true).

(** The availability block of the KEM preferences test, as the conjunction
    of its [EXPECT_TRUE] / [EXPECT_FALSE] lines for an availability function
    [avail] and probes [lc]. *)
Definition EXPECT_TRUE (b : bool) : bool := b.
Definition EXPECT_FALSE (b : bool) : bool := negb b.

Definition kem_preferences_test_availability
    (lc : libcrypto) (avail : s2n_kem_group -> bool) : bool :=
  if s2n_libcrypto_supports_evp_kem lc then
    EXPECT_TRUE (avail s2n_secp256r1_kyber_512_r3)
    && EXPECT_TRUE (avail s2n_secp256r1_kyber_768_r3)
    && EXPECT_TRUE (avail s2n_secp384r1_kyber_768_r3)
    && EXPECT_TRUE (avail s2n_secp521r1_kyber_1024_r3)
    && (if s2n_is_evp_apis_supported lc then
          EXPECT_TRUE (avail s2n_x25519_kyber_512_r3)
          && EXPECT_TRUE (avail s2n_x25519_kyber_768_r3)
        else
          EXPECT_FALSE (avail s2n_x25519_kyber_512_r3)
          && EXPECT_FALSE (avail s2n_x25519_kyber_768_r3))
    && (if s2n_libcrypto_supports_mlkem lc then
          EXPECT_TRUE (avail s2n_secp256r1_mlkem_768)
          && EXPECT_TRUE (avail s2n_secp384r1_mlkem_1024)
          && (if s2n_is_evp_apis_supported lc then
                EXPECT_TRUE (avail s2n_x25519_mlkem_768)
              else
                EXPECT_FALSE (avail s2n_x25519_mlkem_768))
        else true)
  else
    EXPECT_FALSE (avail s2n_secp256r1_kyber_512_r3)
    && EXPECT_FALSE (avail s2n_x25519_kyber_512_r3)
    && EXPECT_FALSE (avail s2n_x25519_kyber_768_r3)
    && EXPECT_FALSE (avail s2n_secp256r1_kyber_768_r3)
    && EXPECT_FALSE (avail s2n_secp384r1_kyber_768_r3)
    && EXPECT_FALSE (avail s2n_secp521r1_kyber_1024_r3)
    && EXPECT_FALSE (avail s2n_secp256r1_mlkem_768)
    && EXPECT_FALSE (avail s2n_x25519_mlkem_768)
    && EXPECT_FALSE (avail s2n_secp384r1_mlkem_1024).

(* ===================================================================== *)
(** * Sizes of the serialized connection *)
(* ===================================================================== *)

Section SerializedConnection.

(** Lengths declared in [tls/s2n_tls_parameters.h] and
    [tls/s2n_crypto_constants.h], which are not among the sources. *)
Variables S2N_TLS_PROTOCOL_VERSION_LEN S2N_TLS_CIPHER_SUITE_LEN
          S2N_TLS_SEQUENCE_NUM_LEN S2N_TLS_SECRET_LEN : Z.

(** Modelled from the spec: the length of a hello random (§6, "two
    32-byte randoms"); the macro itself is declared outside the sources. *)
Definition S2N_TLS_RANDOM_DATA_LEN : Z := 32.

Definition S2N_SERIALIZED_CONN_FIXED_SIZE : Z :=
  8 + S2N_TLS_PROTOCOL_VERSION_LEN + S2N_TLS_CIPHER_SUITE_LEN
  + S2N_TLS_SEQUENCE_NUM_LEN + S2N_TLS_SEQUENCE_NUM_LEN + 2.

Definition S2N_SERIALIZED_CONN_TLS12_SIZE : Z :=
  S2N_SERIALIZED_CONN_FIXED_SIZE + S2N_TLS_SECRET_LEN
  + S2N_TLS_RANDOM_DATA_LEN + S2N_TLS_RANDOM_DATA_LEN.

End SerializedConnection.

(* ===================================================================== *)
(** * Preference sets *)
(* ===================================================================== *)

(** [struct s2n_kem_preferences].  The table [tls13_kem_groups] and its
    length [tls13_kem_group_count] are one list of nullable group pointers;
    the TLS 1.2 fields [kem_count] and [kems] are [0] and [NULL] in every
    preference set of the sources and are left out. *)
Record s2n_kem_preferences : Type := {
  tls13_kem_groups : list (option s2n_kem_group);
  tls13_pq_hybrid_draft_revision : Z
}.

Definition tls13_kem_group_count (p : s2n_kem_preferences) : nat :=
  List.length (tls13_kem_groups p).

(** [struct s2n_ecc_preferences]: [ecc_curves] with its length [count]. *)
Record s2n_ecc_preferences : Type := {
  ecc_curves : list (option s2n_ecc_named_curve)
}.

Definition count (p : s2n_ecc_preferences) : nat := List.length (ecc_curves p).

(** [struct s2n_security_policy], restricted to the fields the negotiation
    reads.  [kem_preferences] is a pointer the helpers check for [NULL];
    [ecc_preferences] is dereferenced without a check. *)
Record s2n_security_policy : Type := {
  minimum_protocol_version : Z;
  kem_preferences : option s2n_kem_preferences;
  ecc_preferences : s2n_ecc_preferences
}.

(** Reading [table[0]].  A table has as many entries as its count says, so
    on an empty table the read is past the end of the array ([None]): the
    code does it without looking at the count, and what happens then is
    not defined in C (a [NULL] array faults, another one yields whatever
    lies behind it).  On any other table the read yields the first entry,
    which may be the [NULL] pointer. *)
Definition first_entry {A : Type} (table : list (option A)) : option (option A) :=
  match table with
  | [] => None
  | entry :: _ => Some entry
  end.

(** What a call of one of the prediction helpers does: it returns a
    pointer ([NULL] included), or it has read past the end of a table. *)
Inductive outcome (A : Type) : Type :=
| Returns (pointer : option A)
| OutOfBounds.

Arguments Returns {A} pointer.
Arguments OutOfBounds {A}.

Definition outcome_map {A B : Type} (f : A -> B) (o : outcome A) : outcome B :=
  match o with
  | Returns pointer => Returns (option_map f pointer)
  | OutOfBounds => OutOfBounds
  end.

(* ===================================================================== *)
(** * The predictive selection helpers of the handshake test *)
(* ===================================================================== *)

(** A loop body either returns a pointer from the enclosing function
    ([Some r], where [r] may be [NULL]) or falls through to the next
    iteration ([None]). *)
Definition returned (A : Type) : Type := option (option A).

(** First loop of [s2n_get_predicted_negotiated_kem_group]: the 1-RTT
    tier, over the server's table. *)
Fixpoint kem_group_one_rtt_loop
    (iana_id : s2n_kem_group -> Z) (is_available : s2n_kem_group -> bool)
    (client_default : s2n_kem_group)
    (server_groups : list (option s2n_kem_group)) : returned s2n_kem_group :=
  match server_groups with
  | [] => None
  | None :: _ => Some None                       (* PTR_ENSURE_REF(server_group) *)
  | Some server_group :: rest =>
      if is_available client_default && is_available server_group
         && (iana_id client_default =? iana_id server_group)
         && is_available client_default
      then Some (Some client_default)
      else kem_group_one_rtt_loop iana_id is_available client_default rest
  end.

(** Inner loop of the second tier: the client's table from index 1 on,
    against one server group. *)
Fixpoint kem_group_client_loop
    (iana_id : s2n_kem_group -> Z) (is_available : s2n_kem_group -> bool)
    (server_group : option s2n_kem_group)
    (client_groups : list (option s2n_kem_group)) : returned s2n_kem_group :=
  match client_groups with
  | [] => None
  | None :: _ => Some None                       (* PTR_ENSURE_REF(client_group) *)
  | Some client_group :: rest =>
      match server_group with
      | None => Some None                        (* PTR_ENSURE_REF(server_group) *)
      | Some sg =>
          if is_available client_group && is_available sg
             && (iana_id client_group =? iana_id sg)
             && is_available client_group
          then Some (Some client_group)
          else kem_group_client_loop iana_id is_available server_group rest
      end
  end.

(** Outer loop of the second tier: the server's table in server order. *)
Fixpoint kem_group_two_rtt_loop
    (iana_id : s2n_kem_group -> Z) (is_available : s2n_kem_group -> bool)
    (client_groups_from_1 : list (option s2n_kem_group))
    (server_groups : list (option s2n_kem_group)) : returned s2n_kem_group :=
  match server_groups with
  | [] => None
  | server_group :: rest =>
      match kem_group_client_loop iana_id is_available server_group
              client_groups_from_1 with
      | Some r => Some r
      | None => kem_group_two_rtt_loop iana_id is_available client_groups_from_1 rest
      end
  end.

Definition s2n_get_predicted_negotiated_kem_group
    (iana_id : s2n_kem_group -> Z) (is_available : s2n_kem_group -> bool)
    (client_prefs server_prefs : option s2n_kem_preferences)
  : outcome s2n_kem_group :=
  match client_prefs, server_prefs with
  | None, _ | _, None => Returns None            (* PTR_ENSURE_REF *)
  | Some client_prefs, Some server_prefs =>
      match first_entry (tls13_kem_groups client_prefs) with
      | None => OutOfBounds                      (* tls13_kem_groups[0], no entry *)
      | Some None => Returns None                (* PTR_ENSURE_REF(client_default) *)
      | Some (Some client_default) =>
          match kem_group_one_rtt_loop iana_id is_available client_default
                  (tls13_kem_groups server_prefs) with
          | Some r => Returns r
          | None =>
              match kem_group_two_rtt_loop iana_id is_available
                      (skipn 1 (tls13_kem_groups client_prefs))
                      (tls13_kem_groups server_prefs) with
              | Some r => Returns r
              | None => Returns None
              end
          end
      end
  end.

(** First loop of [s2n_get_predicted_negotiated_ecdhe_curve]. *)
Fixpoint ecdhe_curve_one_rtt_loop
    (ecc_iana_id : s2n_ecc_named_curve -> Z)
    (client_default : s2n_ecc_named_curve)
    (server_curves : list (option s2n_ecc_named_curve))
  : returned s2n_ecc_named_curve :=
  match server_curves with
  | [] => None
  | None :: _ => Some None                       (* PTR_ENSURE_REF(server_curve) *)
  | Some server_curve :: rest =>
      if ecc_iana_id server_curve =? ecc_iana_id client_default
      then Some (Some client_default)
      else ecdhe_curve_one_rtt_loop ecc_iana_id client_default rest
  end.

Fixpoint ecdhe_curve_client_loop
    (ecc_iana_id : s2n_ecc_named_curve -> Z)
    (server_curve : option s2n_ecc_named_curve)
    (client_curves : list (option s2n_ecc_named_curve))
  : returned s2n_ecc_named_curve :=
  match client_curves with
  | [] => None
  | None :: _ => Some None                       (* PTR_ENSURE_REF(client_curve) *)
  | Some client_curve :: rest =>
      match server_curve with
      | None => Some None                        (* PTR_ENSURE_REF(server_curve) *)
      | Some sc =>
          if ecc_iana_id client_curve =? ecc_iana_id sc
          then Some (Some client_curve)
          else ecdhe_curve_client_loop ecc_iana_id server_curve rest
      end
  end.

Fixpoint ecdhe_curve_two_rtt_loop
    (ecc_iana_id : s2n_ecc_named_curve -> Z)
    (client_curves_from_1 : list (option s2n_ecc_named_curve))
    (server_curves : list (option s2n_ecc_named_curve))
  : returned s2n_ecc_named_curve :=
  match server_curves with
  | [] => None
  | server_curve :: rest =>
      match ecdhe_curve_client_loop ecc_iana_id server_curve client_curves_from_1 with
      | Some r => Some r
      | None => ecdhe_curve_two_rtt_loop ecc_iana_id client_curves_from_1 rest
      end
  end.

Definition s2n_get_predicted_negotiated_ecdhe_curve
    (ecc_iana_id : s2n_ecc_named_curve -> Z)
    (client_sec_policy server_sec_policy : option s2n_security_policy)
  : outcome s2n_ecc_named_curve :=
  match client_sec_policy, server_sec_policy with
  | None, _ | _, None => Returns None            (* PTR_ENSURE_REF *)
  | Some client_sec_policy, Some server_sec_policy =>
      match first_entry (ecc_curves (ecc_preferences client_sec_policy)) with
      | None => OutOfBounds                      (* ecc_curves[0], no entry *)
      | Some None => Returns None                (* PTR_ENSURE_REF(client_default) *)
      | Some (Some client_default) =>
          match ecdhe_curve_one_rtt_loop ecc_iana_id client_default
                  (ecc_curves (ecc_preferences server_sec_policy)) with
          | Some r => Returns r
          | None =>
              match ecdhe_curve_two_rtt_loop ecc_iana_id
                      (skipn 1 (ecc_curves (ecc_preferences client_sec_policy)))
                      (ecc_curves (ecc_preferences server_sec_policy)) with
              | Some r => Returns r
              | None => Returns None
              end
          end
      end
  end.

(** The non-null, available entries of a table, in table order: the list
    "filtered by availability". *)
Fixpoint available_groups
    (is_available : s2n_kem_group -> bool)
    (table : list (option s2n_kem_group)) : list s2n_kem_group :=
  match table with
  | [] => []
  | None :: rest => available_groups is_available rest
  | Some g :: rest =>
      if is_available g then g :: available_groups is_available rest
      else available_groups is_available rest
  end.

(** A preference set holding exactly the given groups. *)
Definition kem_preferences_of (revision : Z) (groups : list s2n_kem_group)
  : s2n_kem_preferences :=
  {| tls13_kem_groups := map Some groups;
     tls13_pq_hybrid_draft_revision := revision |}.


(** The KEM-group table of a policy; a policy without KEM preferences
    has none. *)
Definition policy_kem_groups (policy : s2n_security_policy) : list (option s2n_kem_group) :=
  match kem_preferences policy with
  | Some prefs => tls13_kem_groups prefs
  | None => []
  end.

(** What a group returned by either tier satisfies: it is available, and
    an available server group carries its identifier. *)
Definition mutually_supported
    (iana_id : s2n_kem_group -> Z) (is_available : s2n_kem_group -> bool)
    (g : s2n_kem_group) (server_groups : list (option s2n_kem_group)) : Prop :=
  is_available g = true
  /\ exists s, In (Some s) server_groups /\ is_available s = true
              /\ iana_id s = iana_id g.

(* ===================================================================== *)
(** * The selection rule as the specification words it *)
(* ===================================================================== *)

(** Does some member of [l] carry the identifier of [x]? *)
Definition id_member {A : Type} (id : A -> Z) (x : A) (l : list A) : bool :=
  existsb (fun y => id y =? id x) l.

(** Modelled from the spec: the two-tier rule of §4.3 (steps 1 and 2) over
    two priority lists [C] (peer) and [S] (local) and the set [sent] of
    identifiers the peer sent a key share for; the result is the selected
    entry with [requires_hrr].  The production selection code is not among
    the sources. *)
Definition two_tier_select {A : Type} (id : A -> Z) (sent : Z -> bool)
    (C S : list A) : option (A * bool) :=
  let scan :=
    match find (fun s => id_member id s (skipn 1 C)) S with
    | Some s => Some (s, negb (sent (id s)))
    | None => None
    end in
  match C with
  | c0 :: _ => if sent (id c0) && id_member id c0 S then Some (c0, false) else scan
  | [] => scan
  end.




(* ===================================================================== *)
(** * Connections *)
(* ===================================================================== *)

Definition uint8_t : Type := Byte.byte.

(** A growable [struct s2n_stuffer], as the bytes in flight. *)
Definition s2n_stuffer : Type := list uint8_t.

Inductive s2n_mode : Type := S2N_SERVER | S2N_CLIENT.

(** Pointer to a cipher suite singleton; the driver names one of them. *)
Inductive s2n_cipher_suite : Type :=
| s2n_tls13_aes_256_gcm_sha384
| s2n_cipher_suite_at (address : Z).

Definition s2n_cipher_suite_eq_dec (a b : s2n_cipher_suite) : {a = b} + {a <> b}.
Proof. decide equality. apply Z.eq_dec. Defined.

Record s2n_kem_params : Type := {
  kem_params_kem : option s2n_kem;          (* kem_params.kem *)
  len_prefixed : bool
}.

Record s2n_ecc_evp_params : Type := {
  negotiated_curve : option s2n_ecc_named_curve
}.

Record s2n_kem_group_params : Type := {
  kem_group : option s2n_kem_group;
  kem_params : s2n_kem_params;
  ecc_params : s2n_ecc_evp_params
}.

Record s2n_kex_parameters : Type := {
  server_ecc_evp_params : s2n_ecc_evp_params;
  client_kem_group_params : s2n_kem_group_params;
  server_kem_group_params : s2n_kem_group_params
}.

(** The three secrets are byte arrays of [S2N_TLS13_SECRET_MAX_LEN]. *)
Record s2n_tls13_secrets : Type := {
  extract_secret : list uint8_t;
  client_handshake_secret : list uint8_t;
  server_handshake_secret : list uint8_t
}.

Record s2n_secrets : Type := {
  tls13 : s2n_tls13_secrets;                (* secrets.version.tls13 *)
  extract_secret_type : Z
}.

(** [struct s2n_connection]: the fields the driver reads or writes, the
    handshake's message counter, and the remainder of the structure as
    uninterpreted bytes. *)
Record s2n_connection : Type := {
  mode : s2n_mode;
  security_policy_override : option s2n_security_policy;
  actual_protocol_version : Z;
  handshake_type : Z;                       (* handshake.handshake_type *)
  message_number : Z;                       (* handshake.message_number *)
  kex_params : s2n_kex_parameters;
  cipher_suite : s2n_cipher_suite;          (* secure->cipher_suite *)
  secrets : s2n_secrets;
  remaining_fields : list uint8_t
}.

Definition set_security_policy_override
    (conn : s2n_connection) (policy : s2n_security_policy) : s2n_connection :=
  {| mode := mode conn;
     security_policy_override := Some policy;
     actual_protocol_version := actual_protocol_version conn;
     handshake_type := handshake_type conn;
     message_number := message_number conn;
     kex_params := kex_params conn;
     cipher_suite := cipher_suite conn;
     secrets := secrets conn;
     remaining_fields := remaining_fields conn |}.

(** [struct s2n_tls13_keys], of which the driver reads [size]. *)
Record s2n_tls13_keys : Type := { size : Z }.

(* ===================================================================== *)
(** * Results of fallible calls *)
(* ===================================================================== *)

Inductive s2n_error : Type :=
| S2N_ERR_NULL
| S2N_ERR_SAFETY
| S2N_ERR_T (code : Z).

(** An [int]-returning s2n function: [S2N_SUCCESS] with what it leaves in
    its out-parameters, or [S2N_FAILURE] with [s2n_errno]. *)
Inductive posix (A : Type) : Type :=
| S2N_SUCCESS (value : A)
| S2N_FAILURE (s2n_errno : s2n_error).

Arguments S2N_SUCCESS {A} value.
Arguments S2N_FAILURE {A} s2n_errno.

(** [POSIX_GUARD]: go on with the result, or return the failure. *)
Definition POSIX_GUARD {A B : Type} (call : posix A) (rest : A -> posix B) : posix B :=
  match call with
  | S2N_SUCCESS value => rest value
  | S2N_FAILURE e => S2N_FAILURE e
  end.

Declare Scope posix_scope.
Delimit Scope posix_scope with posix.

Notation "x <- c ;; k" := (POSIX_GUARD c (fun x => k))
  (at level 61, c at next level, right associativity) : posix_scope.
Notation "' pat <- c ;; k" := (POSIX_GUARD c (fun x => match x with pat => k end))
  (at level 61, pat pattern, c at next level, right associativity) : posix_scope.
Notation "c ;; k" := (POSIX_GUARD c (fun _ => k))
  (at level 61, right associativity) : posix_scope.

Definition POSIX_ENSURE (condition : bool) (e : s2n_error) : posix unit :=
  if condition then S2N_SUCCESS tt else S2N_FAILURE e.

(** [POSIX_ENSURE_REF] on the result of an allocating call. *)
Definition POSIX_ENSURE_REF {A : Type} (pointer : option A) : posix A :=
  match pointer with
  | Some object => S2N_SUCCESS object
  | None => S2N_FAILURE S2N_ERR_NULL
  end.

(** The pointer a prediction helper hands back to a caller that goes on
    with it.  After a read past the end of a table nothing is defined; the
    model lets the caller fail. *)
Definition handed_back {A : Type} (call : outcome A) : posix (option A) :=
  match call with
  | Returns pointer => S2N_SUCCESS pointer
  | OutOfBounds => S2N_FAILURE S2N_ERR_SAFETY
  end.

(** A read the caller has guarded by a check of the count. *)
Definition guarded_read {A : Type} (read : option A) : posix A :=
  match read with
  | Some entry => S2N_SUCCESS entry
  | None => S2N_FAILURE S2N_ERR_SAFETY
  end.

Definition is_null {A : Type} (pointer : option A) : bool :=
  match pointer with
  | Some _ => false
  | None => true
  end.

(** Pointer comparison. *)
Definition same_pointer {A : Type} (eq_dec : forall a b : A, {a = b} + {a <> b})
    (p q : option A) : bool :=
  match p, q with
  | None, None => true
  | Some a, Some b => if eq_dec a b then true else false
  | _, _ => false
  end.

Definition POSIX_ENSURE_EQ_Z (a b : Z) : posix unit := POSIX_ENSURE (a =? b) S2N_ERR_SAFETY.
Definition POSIX_ENSURE_NE_Z (a b : Z) : posix unit := POSIX_ENSURE (negb (a =? b)) S2N_ERR_SAFETY.
Definition POSIX_ENSURE_EQ_bool (a b : bool) : posix unit :=
  POSIX_ENSURE (Bool.eqb a b) S2N_ERR_SAFETY.
Definition POSIX_ENSURE_EQ_kem_group (a b : option s2n_kem_group) : posix unit :=
  POSIX_ENSURE (same_pointer s2n_kem_group_eq_dec a b) S2N_ERR_SAFETY.
Definition POSIX_ENSURE_EQ_kem (a b : option s2n_kem) : posix unit :=
  POSIX_ENSURE (same_pointer s2n_kem_eq_dec a b) S2N_ERR_SAFETY.
Definition POSIX_ENSURE_EQ_curve (a b : option s2n_ecc_named_curve) : posix unit :=
  POSIX_ENSURE (same_pointer s2n_ecc_named_curve_eq_dec a b) S2N_ERR_SAFETY.
Definition POSIX_ENSURE_EQ_cipher_suite (a b : s2n_cipher_suite) : posix unit :=
  POSIX_ENSURE (if s2n_cipher_suite_eq_dec a b then true else false) S2N_ERR_SAFETY.

(** [memcmp] on the first [n] bytes: negative, zero or positive.  Reading
    past the end of either object is undefined in C; the model reports it
    ([None]) and the driver counts it as a failed check. *)
Fixpoint memcmp (s1 s2 : list uint8_t) (n : nat) {struct n} : option Z :=
  match n with
  | O => Some 0
  | S n' =>
      match s1, s2 with
      | b1 :: r1, b2 :: r2 =>
          if (Byte.to_N b1 <? Byte.to_N b2)%N then
            match memcmp r1 r2 n' with Some _ => Some (-1) | None => None end
          else if (Byte.to_N b2 <? Byte.to_N b1)%N then
            match memcmp r1 r2 n' with Some _ => Some 1 | None => None end
          else memcmp r1 r2 n'
      | _, _ => None
      end
  end.

Definition POSIX_ENSURE_EQ_memcmp (expected : Z) (compared : option Z) : posix unit :=
  match compared with
  | Some r => POSIX_ENSURE_EQ_Z expected r
  | None => S2N_FAILURE S2N_ERR_SAFETY
  end.

Definition POSIX_ENSURE_NE_memcmp (unexpected : Z) (compared : option Z) : posix unit :=
  match compared with
  | Some r => POSIX_ENSURE_NE_Z unexpected r
  | None => S2N_FAILURE S2N_ERR_SAFETY
  end.

(** A C string, without its terminator. *)
Definition strlen (s : string) : Z := Z.of_nat (String.length s).

Definition bytes_of (s : string) : list uint8_t := list_byte_of_string s.

(* ===================================================================== *)
(** * The library behind the handshake driver *)
(* ===================================================================== *)

(** Configurations and certificate chains are passed through untouched. *)
Definition s2n_config : Type := list uint8_t.
Definition s2n_cert_chain_and_key : Type := list uint8_t.

(** One I/O step of the handshake on a connection, with the stuffer it
    reads from and the stuffer it writes to. *)
Definition handshake_io : Type :=
  s2n_connection -> s2n_stuffer -> s2n_stuffer ->
  posix (s2n_connection * s2n_stuffer * s2n_stuffer).

(** Everything the driver calls or names that is declared outside the
    sources: enumeration constants, the [name] fields of the singletons and
    the library functions.  The driver is modelled for any such library. *)
Record libs2n : Type := {
  S2N_TLS13 : Z;
  INITIAL : Z;
  HELLO_RETRY_REQUEST : Z;
  CLIENT_HELLO : Z;
  SERVER_HELLO : Z;
  SERVER_CHANGE_CIPHER_SPEC : Z;
  CLIENT_CHANGE_CIPHER_SPEC : Z;
  S2N_HANDSHAKE_SECRET : Z;
  S2N_TLS13_SECRET_MAX_LEN : nat;
  name : s2n_kem_group -> string;
  ecc_name : s2n_ecc_named_curve -> string;
  s2n_connection_new : s2n_mode -> option s2n_connection;
  s2n_config_new : option s2n_config;
  s2n_cert_chain_and_key_new : option s2n_cert_chain_and_key;
  s2n_read_test_pem : Z -> posix (list uint8_t);
  s2n_cert_chain_and_key_load_pem :
    s2n_cert_chain_and_key -> list uint8_t -> list uint8_t -> posix s2n_cert_chain_and_key;
  s2n_config_add_cert_chain_and_key_to_store :
    s2n_config -> s2n_cert_chain_and_key -> posix s2n_config;
  s2n_connection_set_config : s2n_connection -> s2n_config -> posix s2n_connection;
  s2n_stuffer_growable_alloc : Z -> posix s2n_stuffer;
  s2n_connection_set_io_stuffers : s2n_connection -> posix s2n_connection;
  s2n_conn_get_current_message_type : s2n_connection -> Z;
  s2n_handshake_write_io : handshake_io;
  s2n_handshake_read_io : handshake_io;
  s2n_conn_set_handshake_type : s2n_connection -> posix s2n_connection;
  s2n_handshake_type_check_tls13_flag : s2n_connection -> Z -> bool;
  s2n_tls13_client_must_use_hybrid_kem_length_prefix : option s2n_kem_preferences -> bool;
  s2n_connection_get_kem_group_name : s2n_connection -> string;
  s2n_connection_get_curve : s2n_connection -> string;
  s2n_connection_get_key_exchange_group : s2n_connection -> posix string;
  s2n_tls13_connection_keys : s2n_connection -> posix s2n_tls13_keys;
  s2n_stuffer_free : s2n_stuffer -> posix unit;
  s2n_connection_free : s2n_connection -> posix unit;
  s2n_cert_chain_and_key_free : s2n_cert_chain_and_key -> posix unit;
  s2n_config_free : s2n_config -> posix unit
}.

(** Indices of the two certificate files the driver loads. *)
Definition S2N_ECDSA_P384_PKCS1_CERT_CHAIN : Z := 0.
Definition S2N_ECDSA_P384_PKCS1_KEY : Z := 1.

(** The driver's local variables that outlive one call: both connections
    and the two stuffers that wire them together. *)
Record endpoints : Type := {
  client_conn : s2n_connection;
  server_conn : s2n_connection;
  client_to_server : s2n_stuffer;
  server_to_client : s2n_stuffer
}.

(** What is allocated besides the connections, to be freed at the end. *)
Record test_resources : Type := {
  chain_and_key : s2n_cert_chain_and_key;
  client_config : s2n_config;
  server_config : s2n_config
}.

(** An I/O call on [client_conn]: it reads [server_to_client] and writes
    [client_to_server]. *)
Definition on_client (io : handshake_io) (w : endpoints) : posix endpoints :=
  POSIX_GUARD (io (client_conn w) (server_to_client w) (client_to_server w))
    (fun r =>
       match r with
       | (conn, input, output) =>
           S2N_SUCCESS {| client_conn := conn; server_conn := server_conn w;
                          client_to_server := output; server_to_client := input |}
       end).

(** An I/O call on [server_conn]: it reads [client_to_server] and writes
    [server_to_client]. *)
Definition on_server (io : handshake_io) (w : endpoints) : posix endpoints :=
  POSIX_GUARD (io (server_conn w) (client_to_server w) (server_to_client w))
    (fun r =>
       match r with
       | (conn, input, output) =>
           S2N_SUCCESS {| client_conn := client_conn w; server_conn := conn;
                          client_to_server := input; server_to_client := output |}
       end).

Definition with_client_conn (w : endpoints) (conn : s2n_connection) : endpoints :=
  {| client_conn := conn; server_conn := server_conn w;
     client_to_server := client_to_server w; server_to_client := server_to_client w |}.

Definition with_server_conn (w : endpoints) (conn : s2n_connection) : endpoints :=
  {| client_conn := client_conn w; server_conn := conn;
     client_to_server := client_to_server w; server_to_client := server_to_client w |}.

Local Open Scope posix_scope.

(* ===================================================================== *)
(** * [s2n_test_tls13_pq_handshake] *)
(* ===================================================================== *)

(** "Set up connections": from the two [s2n_connection_new] calls to the
    assignment of the policy overrides. *)
Definition set_up_connections (lib : libs2n)
    (client_sec_policy server_sec_policy : s2n_security_policy)
  : posix (endpoints * test_resources) :=
  client_conn <- POSIX_ENSURE_REF (s2n_connection_new lib S2N_CLIENT) ;;
  server_conn <- POSIX_ENSURE_REF (s2n_connection_new lib S2N_SERVER) ;;
  client_config <- POSIX_ENSURE_REF (s2n_config_new lib) ;;
  server_config <- POSIX_ENSURE_REF (s2n_config_new lib) ;;
  chain_and_key <- POSIX_ENSURE_REF (s2n_cert_chain_and_key_new lib) ;;
  cert_chain <- s2n_read_test_pem lib S2N_ECDSA_P384_PKCS1_CERT_CHAIN ;;
  private_key <- s2n_read_test_pem lib S2N_ECDSA_P384_PKCS1_KEY ;;
  chain_and_key <- s2n_cert_chain_and_key_load_pem lib chain_and_key cert_chain private_key ;;
  client_config <- s2n_config_add_cert_chain_and_key_to_store lib client_config chain_and_key ;;
  server_config <- s2n_config_add_cert_chain_and_key_to_store lib server_config chain_and_key ;;
  client_conn <- s2n_connection_set_config lib client_conn client_config ;;
  server_conn <- s2n_connection_set_config lib server_conn server_config ;;
  client_to_server <- s2n_stuffer_growable_alloc lib 2048 ;;
  server_to_client <- s2n_stuffer_growable_alloc lib 2048 ;;
  client_conn <- s2n_connection_set_io_stuffers lib client_conn ;;
  server_conn <- s2n_connection_set_io_stuffers lib server_conn ;;
  S2N_SUCCESS
    ({| client_conn := set_security_policy_override client_conn client_sec_policy;
        server_conn := set_security_policy_override server_conn server_sec_policy;
        client_to_server := client_to_server;
        server_to_client := server_to_client |},
     {| chain_and_key := chain_and_key;
        client_config := client_config;
        server_config := server_config |}).

(** "Client sends ClientHello" and "Server reads ClientHello". *)
Definition exchange_client_hello (lib : libs2n) (w : endpoints) : posix endpoints :=
  POSIX_ENSURE_EQ_Z (s2n_conn_get_current_message_type lib (client_conn w)) (CLIENT_HELLO lib) ;;
  w <- on_client (s2n_handshake_write_io lib) w ;;
  POSIX_ENSURE_EQ_Z (actual_protocol_version (client_conn w)) (S2N_TLS13 lib) ;;
  POSIX_ENSURE_EQ_Z (actual_protocol_version (server_conn w)) 0 ;;
  POSIX_ENSURE_EQ_Z (handshake_type (client_conn w)) (INITIAL lib) ;;
  POSIX_ENSURE_EQ_Z (s2n_conn_get_current_message_type lib (server_conn w)) (CLIENT_HELLO lib) ;;
  w <- on_server (s2n_handshake_read_io lib) w ;;
  POSIX_ENSURE_EQ_Z (actual_protocol_version (server_conn w)) (S2N_TLS13 lib) ;;
  S2N_SUCCESS w.

(** The four pointers by which a connection records what was negotiated. *)
Definition ensure_negotiated_kem_group
    (expected_kem_group : s2n_kem_group) (conn : s2n_connection) : posix unit :=
  POSIX_ENSURE_EQ_kem_group (Some expected_kem_group)
    (kem_group (server_kem_group_params (kex_params conn))) ;;
  POSIX_ENSURE_EQ_kem (Some (kem expected_kem_group))
    (kem_params_kem (kem_params (server_kem_group_params (kex_params conn)))) ;;
  POSIX_ENSURE_EQ_curve (Some (curve expected_kem_group))
    (negotiated_curve (ecc_params (server_kem_group_params (kex_params conn)))) ;;
  POSIX_ENSURE_EQ_curve None
    (negotiated_curve (server_ecc_evp_params (kex_params conn))).

Definition ensure_negotiated_curve
    (expected_curve : option s2n_ecc_named_curve) (conn : s2n_connection) : posix unit :=
  POSIX_ENSURE_EQ_kem_group None
    (kem_group (server_kem_group_params (kex_params conn))) ;;
  POSIX_ENSURE_EQ_kem None
    (kem_params_kem (kem_params (server_kem_group_params (kex_params conn)))) ;;
  POSIX_ENSURE_EQ_curve None
    (negotiated_curve (ecc_params (server_kem_group_params (kex_params conn)))) ;;
  POSIX_ENSURE_EQ_curve expected_curve
    (negotiated_curve (server_ecc_evp_params (kex_params conn))).

(** "Assert that the server chose the correct group", right after the
    server has read the ClientHello. *)
Definition ensure_server_choice (lib : libs2n)
    (client_sec_policy : s2n_security_policy)
    (expected_kem_group : option s2n_kem_group)
    (expected_curve : option s2n_ecc_named_curve)
    (len_prefix_expected : bool) (w : endpoints) : posix unit :=
  match expected_kem_group with
  | Some expected =>
      POSIX_ENSURE_EQ_bool len_prefix_expected
        (len_prefixed (kem_params (client_kem_group_params (kex_params (client_conn w))))) ;;
      POSIX_ENSURE_EQ_bool len_prefix_expected
        (s2n_tls13_client_must_use_hybrid_kem_length_prefix lib
           (kem_preferences client_sec_policy)) ;;
      POSIX_ENSURE_EQ_bool
        (len_prefixed (kem_params (client_kem_group_params (kex_params (server_conn w)))))
        (len_prefixed (kem_params (client_kem_group_params (kex_params (client_conn w))))) ;;
      ensure_negotiated_kem_group expected (server_conn w)
  | None => ensure_negotiated_curve expected_curve (server_conn w)
  end.

(** The extra round trip of a HelloRetryRequest, from "Client reads HRR"
    to "Server sends ServerHello". *)
Definition hello_retry_round (lib : libs2n) (w : endpoints) : posix endpoints :=
  POSIX_ENSURE_EQ_Z (s2n_conn_get_current_message_type lib (client_conn w)) (SERVER_HELLO lib) ;;
  w <- on_client (s2n_handshake_read_io lib) w ;;
  conn <- s2n_conn_set_handshake_type lib (client_conn w) ;;
  let w := with_client_conn w conn in
  POSIX_ENSURE_NE_Z 0 (Z.land (handshake_type (client_conn w)) (HELLO_RETRY_REQUEST lib)) ;;
  POSIX_ENSURE_EQ_Z (s2n_conn_get_current_message_type lib (client_conn w))
    (CLIENT_CHANGE_CIPHER_SPEC lib) ;;
  w <- on_client (s2n_handshake_read_io lib) w ;;
  POSIX_ENSURE_EQ_Z (s2n_conn_get_current_message_type lib (client_conn w))
    (CLIENT_CHANGE_CIPHER_SPEC lib) ;;
  w <- on_client (s2n_handshake_write_io lib) w ;;
  POSIX_ENSURE_EQ_Z (s2n_conn_get_current_message_type lib (client_conn w)) (CLIENT_HELLO lib) ;;
  w <- on_client (s2n_handshake_write_io lib) w ;;
  POSIX_ENSURE_EQ_Z (s2n_conn_get_current_message_type lib (server_conn w)) (CLIENT_HELLO lib) ;;
  w <- on_server (s2n_handshake_read_io lib) w ;;
  POSIX_ENSURE_EQ_Z (s2n_conn_get_current_message_type lib (server_conn w)) (CLIENT_HELLO lib) ;;
  w <- on_server (s2n_handshake_read_io lib) w ;;
  POSIX_ENSURE_EQ_Z (s2n_conn_get_current_message_type lib (server_conn w)) (SERVER_HELLO lib) ;;
  w <- on_server (s2n_handshake_write_io lib) w ;;
  S2N_SUCCESS w.

(** "Server sends ServerHello or HRR" up to "Client reads ServerHello". *)
Definition exchange_server_hello (lib : libs2n) (hrr_expected : bool) (w : endpoints)
  : posix endpoints :=
  conn <- s2n_conn_set_handshake_type lib (server_conn w) ;;
  let w := with_server_conn w conn in
  POSIX_ENSURE_EQ_bool hrr_expected
    (s2n_handshake_type_check_tls13_flag lib (server_conn w) (HELLO_RETRY_REQUEST lib)) ;;
  w <- on_server (s2n_handshake_write_io lib) w ;;
  POSIX_ENSURE_EQ_Z (s2n_conn_get_current_message_type lib (server_conn w))
    (SERVER_CHANGE_CIPHER_SPEC lib) ;;
  w <- on_server (s2n_handshake_write_io lib) w ;;
  w <- (if hrr_expected then hello_retry_round lib w else S2N_SUCCESS w) ;;
  POSIX_ENSURE_EQ_Z (s2n_conn_get_current_message_type lib (client_conn w)) (SERVER_HELLO lib) ;;
  w <- on_client (s2n_handshake_read_io lib) w ;;
  S2N_SUCCESS w.

(** The two-line comparison of a C string with an expected name. *)
Definition ensure_same_name (expected got : string) : posix unit :=
  POSIX_ENSURE_EQ_Z (strlen expected) (strlen got) ;;
  POSIX_ENSURE_EQ_memcmp 0
    (memcmp (bytes_of expected) (bytes_of got) (Z.to_nat (strlen expected))).

(** "Assert that the correct group was negotiated", once the client has
    read the ServerHello. *)
Definition ensure_negotiated (lib : libs2n)
    (expected_kem_group : option s2n_kem_group)
    (expected_curve : option s2n_ecc_named_curve) (w : endpoints) : posix unit :=
  match expected_kem_group with
  | Some expected =>
      ensure_negotiated_kem_group expected (client_conn w) ;;
      ensure_negotiated_kem_group expected (server_conn w) ;;
      ensure_same_name (name lib expected)
        (s2n_connection_get_kem_group_name lib (server_conn w)) ;;
      ensure_same_name (name lib expected)
        (s2n_connection_get_kem_group_name lib (client_conn w)) ;;
      server_group_name <- s2n_connection_get_key_exchange_group lib (server_conn w) ;;
      client_group_name <- s2n_connection_get_key_exchange_group lib (client_conn w) ;;
      ensure_same_name (name lib expected) server_group_name ;;
      ensure_same_name (name lib expected) client_group_name
  | None =>
      ensure_negotiated_curve expected_curve (client_conn w) ;;
      ensure_negotiated_curve expected_curve (server_conn w) ;;
      expected <- POSIX_ENSURE_REF expected_curve ;;
      ensure_same_name (ecc_name lib expected)
        (s2n_connection_get_curve lib (server_conn w)) ;;
      ensure_same_name (ecc_name lib expected)
        (s2n_connection_get_curve lib (client_conn w)) ;;
      server_group_name <- s2n_connection_get_key_exchange_group lib (server_conn w) ;;
      client_group_name <- s2n_connection_get_key_exchange_group lib (client_conn w) ;;
      ensure_same_name (ecc_name lib expected) server_group_name ;;
      ensure_same_name (ecc_name lib expected) client_group_name
  end.

(** "Verify basic properties of secrets", "Verify secrets aren't just
    zero'ed memory" and "Verify client and server secrets are equal to each
    other". *)
Definition ensure_secrets (lib : libs2n) (w : endpoints) : posix unit :=
  server_secret_info <- s2n_tls13_connection_keys lib (server_conn w) ;;
  client_secret_info <- s2n_tls13_connection_keys lib (client_conn w) ;;
  POSIX_ENSURE_EQ_cipher_suite (cipher_suite (server_conn w)) (cipher_suite (client_conn w)) ;;
  (if s2n_cipher_suite_eq_dec (cipher_suite (server_conn w)) s2n_tls13_aes_256_gcm_sha384
   then POSIX_ENSURE_EQ_Z (size server_secret_info) 48 ;;
        POSIX_ENSURE_EQ_Z (size client_secret_info) 48
   else POSIX_ENSURE_EQ_Z (size server_secret_info) 32 ;;
        POSIX_ENSURE_EQ_Z (size client_secret_info) 32) ;;
  let all_zeros := repeat Byte.x00 (S2N_TLS13_SECRET_MAX_LEN lib) in
  let client_secrets := tls13 (secrets (client_conn w)) in
  let server_secrets := tls13 (secrets (server_conn w)) in
  POSIX_ENSURE_EQ_Z (size server_secret_info) (size client_secret_info) ;;
  let size := Z.to_nat (size server_secret_info mod 256) in
  POSIX_ENSURE_EQ_Z (extract_secret_type (secrets (client_conn w))) (S2N_HANDSHAKE_SECRET lib) ;;
  POSIX_ENSURE_NE_memcmp 0 (memcmp all_zeros (extract_secret client_secrets) size) ;;
  POSIX_ENSURE_NE_memcmp 0 (memcmp all_zeros (client_handshake_secret client_secrets) size) ;;
  POSIX_ENSURE_NE_memcmp 0 (memcmp all_zeros (server_handshake_secret client_secrets) size) ;;
  POSIX_ENSURE_EQ_Z (extract_secret_type (secrets (server_conn w))) (S2N_HANDSHAKE_SECRET lib) ;;
  POSIX_ENSURE_NE_memcmp 0 (memcmp all_zeros (extract_secret server_secrets) size) ;;
  POSIX_ENSURE_NE_memcmp 0 (memcmp all_zeros (client_handshake_secret server_secrets) size) ;;
  POSIX_ENSURE_NE_memcmp 0 (memcmp all_zeros (server_handshake_secret server_secrets) size) ;;
  POSIX_ENSURE_EQ_memcmp 0
    (memcmp (extract_secret server_secrets) (extract_secret client_secrets) size) ;;
  POSIX_ENSURE_EQ_memcmp 0
    (memcmp (client_handshake_secret server_secrets)
            (client_handshake_secret client_secrets) size) ;;
  POSIX_ENSURE_EQ_memcmp 0
    (memcmp (server_handshake_secret server_secrets)
            (server_handshake_secret client_secrets) size).

(** "Clean up". *)
Definition clean_up (lib : libs2n) (w : endpoints) (r : test_resources) : posix unit :=
  s2n_stuffer_free lib (client_to_server w) ;;
  s2n_stuffer_free lib (server_to_client w) ;;
  s2n_connection_free lib (client_conn w) ;;
  s2n_connection_free lib (server_conn w) ;;
  s2n_cert_chain_and_key_free lib (chain_and_key r) ;;
  s2n_config_free lib (server_config r) ;;
  s2n_config_free lib (client_config r).

(** The driver up to its last assertion.  Besides the resources to free it
    hands back the two states its assertions look at: the endpoints after
    the server has read the ClientHello and the endpoints after the client
    has read the ServerHello. *)
Definition s2n_test_tls13_pq_handshake_checks (lib : libs2n)
    (client_sec_policy server_sec_policy : s2n_security_policy)
    (expected_kem_group : option s2n_kem_group)
    (expected_curve : option s2n_ecc_named_curve)
    (hrr_expected len_prefix_expected : bool)
  : posix (endpoints * endpoints * test_resources) :=
  POSIX_ENSURE (negb (Bool.eqb (is_null expected_kem_group) (is_null expected_curve)))
    S2N_ERR_SAFETY ;;
  ' (w, resources) <- set_up_connections lib client_sec_policy server_sec_policy ;;
  after_client_hello <- exchange_client_hello lib w ;;
  ensure_server_choice lib client_sec_policy expected_kem_group expected_curve
    len_prefix_expected after_client_hello ;;
  after_server_hello <- exchange_server_hello lib hrr_expected after_client_hello ;;
  ensure_negotiated lib expected_kem_group expected_curve after_server_hello ;;
  ensure_secrets lib after_server_hello ;;
  S2N_SUCCESS (after_client_hello, after_server_hello, resources).

Definition s2n_test_tls13_pq_handshake (lib : libs2n)
    (client_sec_policy server_sec_policy : s2n_security_policy)
    (expected_kem_group : option s2n_kem_group)
    (expected_curve : option s2n_ecc_named_curve)
    (hrr_expected len_prefix_expected : bool) : posix unit :=
  ' (_, after_server_hello, resources) <-
    s2n_test_tls13_pq_handshake_checks lib client_sec_policy server_sec_policy
      expected_kem_group expected_curve hrr_expected len_prefix_expected ;;
  clean_up lib after_server_hello resources.

(** The two steps of the loop over the test vectors that precede the call
    of the driver: the expected group is dropped when it is not available
    ([s2n_kem_group_is_available] answers [false] for [NULL]), and a
    remaining group must carry the identifier of the predicted one.  The
    result is the group handed to the driver. *)
Definition null_if_unavailable (is_available : s2n_kem_group -> bool)
    (kem_group : option s2n_kem_group) : option s2n_kem_group :=
  match kem_group with
  | Some g => if is_available g then Some g else None
  | None => None
  end.

Definition ensure_predicted_kem_group
    (iana_id : s2n_kem_group -> Z) (is_available : s2n_kem_group -> bool)
    (client_policy server_policy : s2n_security_policy)
    (kem_group : option s2n_kem_group) : posix (option s2n_kem_group) :=
  let kem_group := null_if_unavailable is_available kem_group in
  match kem_group with
  | Some g =>
      predicted_kem_group <-
        handed_back
          (s2n_get_predicted_negotiated_kem_group iana_id is_available
             (kem_preferences client_policy) (kem_preferences server_policy)) ;;
      predicted_kem_group <- POSIX_ENSURE_REF predicted_kem_group ;;
      POSIX_ENSURE_EQ_Z (iana_id g) (iana_id predicted_kem_group) ;;
      S2N_SUCCESS kem_group
  | None => S2N_SUCCESS kem_group
  end.

(* ===================================================================== *)
(** * The preference sets and test vectors of the handshake test *)
(* ===================================================================== *)

Definition kyber_test_groups : list (option s2n_kem_group) :=
  [ Some s2n_x25519_kyber_512_r3;
    Some s2n_secp256r1_kyber_512_r3;
    Some s2n_secp256r1_kyber_768_r3;
    Some s2n_secp384r1_kyber_768_r3;
    Some s2n_secp521r1_kyber_1024_r3;
    Some s2n_x25519_kyber_768_r3 ].

Definition kyber_test_prefs_draft0 : s2n_kem_preferences :=
  {| tls13_kem_groups := kyber_test_groups; tls13_pq_hybrid_draft_revision := 0 |}.

Definition kyber_test_prefs_draft5 : s2n_kem_preferences :=
  {| tls13_kem_groups := kyber_test_groups; tls13_pq_hybrid_draft_revision := 5 |}.

Definition kyber768_test_kem_groups : list (option s2n_kem_group) :=
  [ Some s2n_secp384r1_kyber_768_r3; Some s2n_secp256r1_kyber_512_r3 ].

Definition kyber768_test_prefs : s2n_kem_preferences :=
  {| tls13_kem_groups := kyber768_test_kem_groups; tls13_pq_hybrid_draft_revision := 5 |}.

Definition kyber1024_test_kem_groups : list (option s2n_kem_group) :=
  [ Some s2n_secp521r1_kyber_1024_r3; Some s2n_secp256r1_kyber_512_r3 ].

Definition kyber1024_test_prefs : s2n_kem_preferences :=
  {| tls13_kem_groups := kyber1024_test_kem_groups; tls13_pq_hybrid_draft_revision := 5 |}.

Definition mlkem768_test_groups : list (option s2n_kem_group) :=
  [ Some s2n_x25519_mlkem_768; Some s2n_secp256r1_mlkem_768 ].

Definition mlkem768_test_prefs : s2n_kem_preferences :=
  {| tls13_kem_groups := mlkem768_test_groups; tls13_pq_hybrid_draft_revision := 5 |}.

Definition mlkem1024_test_groups : list (option s2n_kem_group) :=
  [ Some s2n_secp384r1_mlkem_1024 ].

Definition mlkem1024_test_prefs : s2n_kem_preferences :=
  {| tls13_kem_groups := mlkem1024_test_groups; tls13_pq_hybrid_draft_revision := 5 |}.

(** The preference set of the self-talk loop, one per group. *)
Definition singleton_test_pref (g : s2n_kem_group) : s2n_kem_preferences :=
  {| tls13_kem_groups := [Some g]; tls13_pq_hybrid_draft_revision := 5 |}.

(** The security policies the test vectors point to: those of the library
    and those the test builds itself. *)
Inductive security_policy_name : Type :=
| security_policy_pq_tls_1_3_2023_06_01
| security_policy_pq_tls_1_1_2021_05_21
| security_policy_pq_tls_1_0_2021_05_22
| security_policy_pq_tls_1_0_2021_05_23
| security_policy_pq_tls_1_0_2021_05_24
| security_policy_pq_tls_1_0_2021_05_26
| security_policy_pq_tls_1_0_2023_01_24
| security_policy_pq_tls_1_0_2020_12
| security_policy_test_all_tls13
| security_policy_test_tls13_retry
| kyber_test_policy_draft0
| kyber_test_policy_draft5
| kyber768_test_policy
| kyber1024_test_policy
| mlkem768_test_policy
| mlkem1024_test_policy
| ecc_retry_policy
| singleton_test_policy (g : s2n_kem_group).

(** The [kem_preferences] of the policies the test builds itself.
    [ecc_retry_policy] borrows those of a library policy, which like all
    library policies are declared outside the sources. *)
Definition test_kem_preferences (p : security_policy_name) : option s2n_kem_preferences :=
  match p with
  | kyber_test_policy_draft0 => Some kyber_test_prefs_draft0
  | kyber_test_policy_draft5 => Some kyber_test_prefs_draft5
  | kyber768_test_policy => Some kyber768_test_prefs
  | kyber1024_test_policy => Some kyber1024_test_prefs
  | mlkem768_test_policy => Some mlkem768_test_prefs
  | mlkem1024_test_policy => Some mlkem1024_test_prefs
  | singleton_test_policy g => Some (singleton_test_pref g)
  | _ => None
  end.

Record pq_handshake_test_vector : Type := {
  client_policy : security_policy_name;
  server_policy : security_policy_name;
  expected_kem_group : option s2n_kem_group;
  expected_curve : option s2n_ecc_named_curve;
  hrr_expected : bool;
  len_prefix_expected : bool
}.

Definition default_curve (lc : libcrypto) : s2n_ecc_named_curve :=
  if s2n_is_evp_apis_supported lc then s2n_ecc_curve_x25519 else s2n_ecc_curve_secp256r1.

Definition null_if_no_mlkem_768 (lc : libcrypto) : option s2n_kem_group :=
  if s2n_libcrypto_supports_mlkem lc then Some s2n_x25519_mlkem_768 else None.

Definition null_if_no_mlkem_1024 (lc : libcrypto) : option s2n_kem_group :=
  if s2n_libcrypto_supports_mlkem lc then Some s2n_secp384r1_mlkem_1024 else None.

Definition ec_if_no_mlkem (lc : libcrypto) : option s2n_ecc_named_curve :=
  if s2n_libcrypto_supports_mlkem lc then None else Some (default_curve lc).

Definition hybrid_vector (client server : security_policy_name) (g : s2n_kem_group)
    (hrr len_prefix : bool) : pq_handshake_test_vector :=
  {| client_policy := client; server_policy := server;
     expected_kem_group := Some g; expected_curve := None;
     hrr_expected := hrr; len_prefix_expected := len_prefix |}.

(** [test_vectors], in the order of the source. *)
Definition test_vectors (lc : libcrypto) : list pq_handshake_test_vector :=
  [ hybrid_vector security_policy_pq_tls_1_3_2023_06_01 security_policy_pq_tls_1_0_2021_05_24
      s2n_x25519_kyber_512_r3 (s2n_pq_is_enabled lc) false;
    hybrid_vector security_policy_pq_tls_1_1_2021_05_21 security_policy_pq_tls_1_1_2021_05_21
      s2n_x25519_kyber_512_r3 false true;
    hybrid_vector security_policy_pq_tls_1_0_2021_05_22 security_policy_pq_tls_1_0_2021_05_22
      s2n_x25519_kyber_512_r3 false true;
    hybrid_vector security_policy_pq_tls_1_0_2021_05_23 security_policy_pq_tls_1_0_2021_05_23
      s2n_x25519_kyber_512_r3 false true;
    hybrid_vector security_policy_pq_tls_1_0_2021_05_24 security_policy_pq_tls_1_0_2021_05_24
      s2n_x25519_kyber_512_r3 false true;
    hybrid_vector security_policy_pq_tls_1_0_2021_05_26 security_policy_pq_tls_1_0_2021_05_26
      s2n_x25519_kyber_512_r3 false true;
    hybrid_vector security_policy_pq_tls_1_0_2023_01_24 security_policy_pq_tls_1_0_2023_01_24
      s2n_x25519_kyber_512_r3 false false;
    hybrid_vector security_policy_pq_tls_1_3_2023_06_01 security_policy_pq_tls_1_3_2023_06_01
      s2n_secp256r1_kyber_768_r3 false false;
    hybrid_vector kyber1024_test_policy security_policy_pq_tls_1_3_2023_06_01
      s2n_secp521r1_kyber_1024_r3 false false;
    hybrid_vector kyber768_test_policy security_policy_pq_tls_1_3_2023_06_01
      s2n_secp384r1_kyber_768_r3 false false;
    hybrid_vector security_policy_pq_tls_1_1_2021_05_21 security_policy_pq_tls_1_3_2023_06_01
      s2n_x25519_kyber_512_r3 (negb (s2n_pq_is_enabled lc)) true;
    hybrid_vector kyber_test_policy_draft0 kyber_test_policy_draft5
      s2n_x25519_kyber_512_r3 false true;
    hybrid_vector kyber_test_policy_draft5 kyber_test_policy_draft0
      s2n_x25519_kyber_512_r3 false false;
    hybrid_vector security_policy_pq_tls_1_0_2021_05_24 security_policy_pq_tls_1_0_2023_01_24
      s2n_x25519_kyber_512_r3 false true;
    hybrid_vector security_policy_pq_tls_1_0_2023_01_24 security_policy_pq_tls_1_0_2021_05_24
      s2n_x25519_kyber_512_r3 false false;
    hybrid_vector security_policy_pq_tls_1_0_2020_12 security_policy_pq_tls_1_0_2020_12
      s2n_x25519_kyber_512_r3 false true;
    hybrid_vector security_policy_pq_tls_1_0_2020_12 kyber_test_policy_draft0
      s2n_x25519_kyber_512_r3 false true;
    hybrid_vector security_policy_pq_tls_1_0_2020_12 kyber_test_policy_draft5
      s2n_x25519_kyber_512_r3 false true;
    {| client_policy := security_policy_pq_tls_1_0_2020_12;
       server_policy := security_policy_test_all_tls13;
       expected_kem_group := None; expected_curve := Some (default_curve lc);
       hrr_expected := false; len_prefix_expected := true |};
    {| client_policy := ecc_retry_policy;
       server_policy := security_policy_test_all_tls13;
       expected_kem_group := None; expected_curve := Some (default_curve lc);
       hrr_expected := true; len_prefix_expected := true |};
    {| client_policy := security_policy_test_all_tls13;
       server_policy := security_policy_pq_tls_1_0_2020_12;
       expected_kem_group := None; expected_curve := Some (default_curve lc);
       hrr_expected := false; len_prefix_expected := true |};
    {| client_policy := security_policy_test_tls13_retry;
       server_policy := security_policy_pq_tls_1_0_2020_12;
       expected_kem_group := None; expected_curve := Some (default_curve lc);
       hrr_expected := true; len_prefix_expected := true |};
    {| client_policy := mlkem768_test_policy;
       server_policy := mlkem768_test_policy;
       expected_kem_group := null_if_no_mlkem_768 lc; expected_curve := ec_if_no_mlkem lc;
       hrr_expected := false; len_prefix_expected := false |};
    {| client_policy := mlkem1024_test_policy;
       server_policy := mlkem1024_test_policy;
       expected_kem_group := null_if_no_mlkem_1024 lc; expected_curve := ec_if_no_mlkem lc;
       hrr_expected := false; len_prefix_expected := false |} ].

(** Modelled from the spec: [ALL_SUPPORTED_KEM_GROUPS] ([all_groups()] of
    §4.1), every group the build knows about; the table is declared outside
    the sources and its order plays no role below. *)
Definition ALL_SUPPORTED_KEM_GROUPS : list (option s2n_kem_group) :=
  [ Some s2n_secp256r1_mlkem_768; Some s2n_x25519_mlkem_768;
    Some s2n_secp384r1_mlkem_1024; Some s2n_x25519_kyber_512_r3;
    Some s2n_x25519_kyber_768_r3; Some s2n_secp256r1_kyber_512_r3;
    Some s2n_secp256r1_kyber_768_r3; Some s2n_secp384r1_kyber_768_r3;
    Some s2n_secp521r1_kyber_1024_r3 ].

(** The vectors of the "self talk" loop: one per available group. *)
Definition self_talk_test_vectors (lc : libcrypto) : list pq_handshake_test_vector :=
  map (fun g => hybrid_vector (singleton_test_policy g) (singleton_test_policy g) g false false)
      (available_groups (s2n_kem_group_is_available lc) ALL_SUPPORTED_KEM_GROUPS).

(** Modelled from the spec: the wire-format decision of §4.3,
    [len_prefixed = (client.hybrid_draft_revision == 5)].  It is kept apart
    from the library function the driver calls, to be compared with what
    the test vectors expect. *)
Definition spec_len_prefixed (client : s2n_kem_preferences) : bool :=
  tls13_pq_hybrid_draft_revision client =? 5.

(* ===================================================================== *)
(** * Observability accessors *)
(* ===================================================================== *)

(** Modelled from the spec: [get_kem_group_name] (§6), the negotiated
    hybrid group's public name, or empty if none; the accessor's body is
    not among the sources. *)
Definition spec_get_kem_group_name (name : s2n_kem_group -> string)
    (conn : s2n_connection) : string :=
  match kem_group (server_kem_group_params (kex_params conn)) with
  | Some g => name g
  | None => EmptyString
  end.

(** Modelled from the spec: [get_curve] (§6), the negotiated classical
    curve's name if no hybrid group was chosen. *)
Definition spec_get_curve (ecc_name : s2n_ecc_named_curve -> string)
    (conn : s2n_connection) : string :=
  match kem_group (server_kem_group_params (kex_params conn)) with
  | Some _ => EmptyString
  | None =>
      match negotiated_curve (server_ecc_evp_params (kex_params conn)) with
      | Some c => ecc_name c
      | None => EmptyString
      end
  end.




(* ===================================================================== *)
(** * The handshake state machine *)
(* ===================================================================== *)

(** Modelled from the spec: [HandshakeState] and the transition diagram of
    §4.4 (server side), with the client side that "mirrors" it; the state
    machine itself ([tls/s2n_handshake_io.c]) is not among the sources. *)
Inductive Role : Type := Client | Server.

Inductive HandshakeState : Type :=
| EXPECT_CLIENT_HELLO
| SELECTING
| SEND_HRR
| EXPECT_CH2
| SELECTING2
| SEND_SERVER_HELLO
| SEND_CLIENT_HELLO
| EXPECT_SERVER_HELLO
| SEND_CH2
| EXPECT_SERVER_HELLO2
| DERIVE_HS_SECRETS
| FINISHING                      (* EncryptedExtensions, Certificate, Finished *)
| APPLICATION_DATA
| ABORTED.

(** What can happen to a connection between two states. *)
Inductive handshake_event : Type :=
| recv_client_hello
| selected (requires_hrr : bool)
| no_mutual_group
| message_sent
| recv_hello_retry_request
| recv_server_hello
| secrets_derived
| handshake_finished
| other_flag (bit : N)
| fatal_error.

(** Modelled from the spec: the part of [HandshakeContext] (§3) the
    state machine owns. *)
Record HandshakeContext : Type := {
  role : Role;
  state : HandshakeState;
  handshake_type_flags : Z
}.

Definition initial_context (r : Role) : HandshakeContext :=
  {| role := r;
     state := match r with Server => EXPECT_CLIENT_HELLO | Client => SEND_CLIENT_HELLO end;
     handshake_type_flags := 0 |}.

Definition goto (c : HandshakeContext) (s : HandshakeState) : HandshakeContext :=
  {| role := role c; state := s; handshake_type_flags := handshake_type_flags c |}.

Definition set_flag (c : HandshakeContext) (bit : N) : HandshakeContext :=
  {| role := role c; state := state c;
     handshake_type_flags := Z.setbit (handshake_type_flags c) (Z.of_N bit) |}.

Definition flag_is_set (c : HandshakeContext) (bit : N) : bool :=
  Z.testbit (handshake_type_flags c) (Z.of_N bit).

(** Modelled from the spec: one transition of §4.4.  [hrr] is the position
    of the [HELLO_RETRY_REQUEST] bit.  A selection that still needs a retry
    after the second ClientHello aborts (illegal parameter), as does any
    event the current state does not expect. *)
Definition handshake_step (hrr : N) (c : HandshakeContext) (e : handshake_event)
  : HandshakeContext :=
  match e with
  | other_flag bit =>
      match state c with
      | ABORTED => c
      | _ => set_flag c bit
      end
  | _ =>
      match role c, state c, e with
      | Server, EXPECT_CLIENT_HELLO, recv_client_hello => goto c SELECTING
      | Server, SELECTING, selected true => goto (set_flag c hrr) SEND_HRR
      | Server, SELECTING, selected false => goto c SEND_SERVER_HELLO
      | Server, SEND_HRR, message_sent => goto c EXPECT_CH2
      | Server, EXPECT_CH2, recv_client_hello => goto c SELECTING2
      | Server, SELECTING2, selected false => goto c SEND_SERVER_HELLO
      | Server, SEND_SERVER_HELLO, message_sent => goto c DERIVE_HS_SECRETS
      | Client, SEND_CLIENT_HELLO, message_sent => goto c EXPECT_SERVER_HELLO
      | Client, EXPECT_SERVER_HELLO, recv_hello_retry_request => goto (set_flag c hrr) SEND_CH2
      | Client, EXPECT_SERVER_HELLO, recv_server_hello => goto c DERIVE_HS_SECRETS
      | Client, SEND_CH2, message_sent => goto c EXPECT_SERVER_HELLO2
      | Client, EXPECT_SERVER_HELLO2, recv_server_hello => goto c DERIVE_HS_SECRETS
      | _, DERIVE_HS_SECRETS, secrets_derived => goto c FINISHING
      | _, FINISHING, handshake_finished => goto c APPLICATION_DATA
      | _, APPLICATION_DATA, _ => c
      | _, _, _ => goto c ABORTED
      end
  end.

Definition handshake_run (hrr : N) (c : HandshakeContext) (events : list handshake_event)
  : HandshakeContext :=
  fold_left (handshake_step hrr) events c.

(** Does this step put a HelloRetryRequest on the connection: the server
    writing it, the client accepting it? *)
Definition is_hello_retry (c : HandshakeContext) (e : handshake_event) : bool :=
  match role c, state c, e with
  | Server, SEND_HRR, message_sent => true
  | Client, EXPECT_SERVER_HELLO, recv_hello_retry_request => true
  | _, _, _ => false
  end.

(** The number of HelloRetryRequests along a run. *)
Fixpoint hello_retry_count (hrr : N) (c : HandshakeContext) (events : list handshake_event)
  : nat :=
  match events with
  | [] => O
  | e :: rest =>
      ((if is_hello_retry c e then 1 else 0)
       + hello_retry_count hrr (handshake_step hrr c e) rest)%nat
  end.

(** Can a HelloRetryRequest still occur from this context? *)
Definition may_still_retry (c : HandshakeContext) : bool :=
  match role c, state c with
  | Server, (EXPECT_CLIENT_HELLO | SELECTING | SEND_HRR) => true
  | Client, (SEND_CLIENT_HELLO | EXPECT_SERVER_HELLO) => true
  | _, _ => false
  end.

(** A server about to send its HelloRetryRequest has the flag set. *)
Definition retry_is_flagged (hrr : N) (c : HandshakeContext) : Prop :=
  role c = Server -> state c = SEND_HRR -> flag_is_set c hrr = true.

(* ===================================================================== *)
(** * What a handshake negotiates *)
(* ===================================================================== *)












(* ===================================================================== *)
(** * A loopback library *)
(* ===================================================================== *)

(** A small instance of [libs2n] on which the driver can be run.  The
    client offers the groups of its policy with a key share for the first
    one; the server selects with [s2n_get_predicted_negotiated_kem_group]
    and answers with a ServerHello, or with a HelloRetryRequest when the
    selected group is not the one of the key share; both sides derive the
    same bytes from the group.  It stands in for the real handshake
    wherever a concrete run of the driver is needed. *)
Module Loopback.

Definition group_code (g : s2n_kem_group) : uint8_t :=
  match g with
  | s2n_secp256r1_mlkem_768 => Byte.x01
  | s2n_x25519_mlkem_768 => Byte.x02
  | s2n_secp384r1_mlkem_1024 => Byte.x03
  | s2n_x25519_kyber_512_r3 => Byte.x04
  | s2n_x25519_kyber_768_r3 => Byte.x05
  | s2n_secp256r1_kyber_512_r3 => Byte.x06
  | s2n_secp256r1_kyber_768_r3 => Byte.x07
  | s2n_secp384r1_kyber_768_r3 => Byte.x08
  | s2n_secp521r1_kyber_1024_r3 => Byte.x09
  end.

Definition group_of_code (code : uint8_t) : option s2n_kem_group :=
  find (fun g => Byte.eqb (group_code g) code)
       (available_groups (fun _ => true) ALL_SUPPORTED_KEM_GROUPS).

(** An assignment of distinct identifiers to the groups. *)
Definition iana_id (g : s2n_kem_group) : Z := Z.of_N (Byte.to_N (group_code g)).

Definition group_name (g : s2n_kem_group) : string :=
  match g with
  | s2n_secp256r1_mlkem_768 => "secp256r1_mlkem_768"
  | s2n_x25519_mlkem_768 => "x25519_mlkem_768"
  | s2n_secp384r1_mlkem_1024 => "secp384r1_mlkem_1024"
  | s2n_x25519_kyber_512_r3 => "x25519_kyber_512_r3"
  | s2n_x25519_kyber_768_r3 => "x25519_kyber_768_r3"
  | s2n_secp256r1_kyber_512_r3 => "secp256r1_kyber_512_r3"
  | s2n_secp256r1_kyber_768_r3 => "secp256r1_kyber_768_r3"
  | s2n_secp384r1_kyber_768_r3 => "secp384r1_kyber_768_r3"
  | s2n_secp521r1_kyber_1024_r3 => "secp521r1_kyber_1024_r3"
  end.

Definition curve_name (c : s2n_ecc_named_curve) : string :=
  match c with
  | s2n_ecc_curve_secp256r1 => "secp256r1"
  | s2n_ecc_curve_secp384r1 => "secp384r1"
  | s2n_ecc_curve_secp521r1 => "secp521r1"
  | s2n_ecc_curve_x25519 => "x25519"
  end.

(** The constants of this library. *)
Definition TLS13 : Z := 34.
Definition RETRY_FLAG : Z := 16.
Definition MSG_CLIENT_HELLO : Z := 0.
Definition MSG_SERVER_HELLO : Z := 1.
Definition MSG_SERVER_CCS : Z := 2.
Definition MSG_CLIENT_CCS : Z := 3.
Definition MSG_HELLO_RETRY : Z := 5.
Definition MSG_OTHER : Z := 4.
Definition HANDSHAKE_SECRET : Z := 2.

(** Message tags on the wire. *)
Definition TAG_SERVER_HELLO : uint8_t := Byte.x01.
Definition TAG_HELLO_RETRY : uint8_t := Byte.x02.
Definition TAG_CCS : uint8_t := Byte.x14.

Definition no_group_params : s2n_kem_group_params :=
  {| kem_group := None;
     kem_params := {| kem_params_kem := None; len_prefixed := false |};
     ecc_params := {| negotiated_curve := None |} |}.

Definition group_params (g : s2n_kem_group) (prefixed : bool) : s2n_kem_group_params :=
  {| kem_group := Some g;
     kem_params := {| kem_params_kem := Some (kem g); len_prefixed := prefixed |};
     ecc_params := {| negotiated_curve := Some (curve g) |} |}.

Definition no_secrets : s2n_secrets :=
  {| tls13 := {| extract_secret := repeat Byte.x00 48;
                 client_handshake_secret := repeat Byte.x00 48;
                 server_handshake_secret := repeat Byte.x00 48 |};
     extract_secret_type := 0 |}.

Definition handshake_secrets (g : s2n_kem_group) : s2n_secrets :=
  {| tls13 := {| extract_secret := repeat (group_code g) 48;
                 client_handshake_secret := repeat (group_code g) 48;
                 server_handshake_secret := repeat (group_code g) 48 |};
     extract_secret_type := HANDSHAKE_SECRET |}.

Definition connection_new (m : s2n_mode) : option s2n_connection :=
  Some {| mode := m;
          security_policy_override := None;
          actual_protocol_version := 0;
          handshake_type := 0;
          message_number := 0;
          kex_params := {| server_ecc_evp_params := {| negotiated_curve := None |};
                           client_kem_group_params := no_group_params;
                           server_kem_group_params := no_group_params |};
          cipher_suite := s2n_tls13_aes_256_gcm_sha384;
          secrets := no_secrets;
          remaining_fields := [] |}.

(** The connection after one more message: the key share, the selected
    group, the secrets (once [keyed]) and whether a retry is pending. *)
Definition advance (conn : s2n_connection) (share : s2n_kem_group_params)
    (selected : option s2n_kem_group) (keyed retry_pending : bool) : s2n_connection :=
  {| mode := mode conn;
     security_policy_override := security_policy_override conn;
     actual_protocol_version := TLS13;
     handshake_type := handshake_type conn;
     message_number := message_number conn + 1;
     kex_params :=
       {| server_ecc_evp_params := {| negotiated_curve := None |};
          client_kem_group_params := share;
          server_kem_group_params :=
            match selected with
            | Some g => group_params g false
            | None => no_group_params
            end |};
     cipher_suite := cipher_suite conn;
     secrets :=
       match selected with
       | Some g => if keyed then handshake_secrets g else secrets conn
       | None => secrets conn
       end;
     remaining_fields := if retry_pending then [Byte.x01] else [] |}.

(** One more message, nothing else changes. *)
Definition next_message (conn : s2n_connection) : s2n_connection :=
  {| mode := mode conn;
     security_policy_override := security_policy_override conn;
     actual_protocol_version := actual_protocol_version conn;
     handshake_type := handshake_type conn;
     message_number := message_number conn + 1;
     kex_params := kex_params conn;
     cipher_suite := cipher_suite conn;
     secrets := secrets conn;
     remaining_fields := remaining_fields conn |}.

(** A pending retry becomes the flag of the handshake type. *)
Definition conn_set_handshake_type (conn : s2n_connection) : posix s2n_connection :=
  S2N_SUCCESS
    {| mode := mode conn;
       security_policy_override := security_policy_override conn;
       actual_protocol_version := actual_protocol_version conn;
       handshake_type :=
         match remaining_fields conn with
         | [] => handshake_type conn
         | _ => Z.lor (handshake_type conn) RETRY_FLAG
         end;
       message_number := message_number conn;
       kex_params := kex_params conn;
       cipher_suite := cipher_suite conn;
       secrets := secrets conn;
       remaining_fields := [] |}.

Definition retrying (conn : s2n_connection) : bool :=
  negb (Z.land (handshake_type conn) RETRY_FLAG =? 0).

Definition must_use_length_prefix (prefs : option s2n_kem_preferences) : bool :=
  match prefs with
  | Some p => tls13_pq_hybrid_draft_revision p =? 0
  | None => false
  end.

Definition own_kem_preferences (conn : s2n_connection) : option s2n_kem_preferences :=
  match security_policy_override conn with
  | Some policy => kem_preferences policy
  | None => None
  end.

Definition unexpected {A : Type} : posix A := S2N_FAILURE (S2N_ERR_T 0).

(** A ClientHello on the wire: the length-prefix flag, the group of the
    key share, the offered groups, and a zero byte. *)
Definition client_hello (prefixed : bool) (share : s2n_kem_group)
    (offered : list (option s2n_kem_group)) : list uint8_t :=
  (if prefixed then Byte.x01 else Byte.x00) :: group_code share
  :: map group_code (available_groups (fun _ => true) offered) ++ [Byte.x00].

Fixpoint offered_groups (wire : list uint8_t)
  : option (list (option s2n_kem_group) * list uint8_t) :=
  match wire with
  | [] => None
  | code :: rest =>
      if Byte.eqb code Byte.x00 then Some ([], rest)
      else match group_of_code code, offered_groups rest with
           | Some g, Some (groups, rest') => Some (Some g :: groups, rest')
           | _, _ => None
           end
  end.

Definition handshake_write_io : handshake_io :=
  fun conn input output =>
    match mode conn, message_number conn with
    | S2N_CLIENT, 0 =>
        match own_kem_preferences conn with
        | Some prefs =>
            match first_entry (tls13_kem_groups prefs) with
            | Some (Some g) =>
                let prefixed := must_use_length_prefix (Some prefs) in
                S2N_SUCCESS
                  (advance conn (group_params g prefixed) None false false, input,
                   output ++ client_hello prefixed g (tls13_kem_groups prefs))
            | _ => unexpected
            end
        | None => unexpected
        end
    | S2N_CLIENT, 3 =>
        if retrying conn then S2N_SUCCESS (next_message conn, input, output ++ [TAG_CCS])
        else unexpected
    | S2N_CLIENT, 4 =>
        match retrying conn, own_kem_preferences conn,
              kem_group (client_kem_group_params (kex_params conn)) with
        | true, Some prefs, Some g =>
            S2N_SUCCESS
              (next_message conn, input,
               output ++ client_hello (must_use_length_prefix (Some prefs)) g
                           (tls13_kem_groups prefs))
        | _, _, _ => unexpected
        end
    | S2N_SERVER, 1 | S2N_SERVER, 5 =>
        match kem_group (server_kem_group_params (kex_params conn)) with
        | Some g =>
            let tag := if (message_number conn =? 1) && retrying conn
                       then TAG_HELLO_RETRY else TAG_SERVER_HELLO in
            S2N_SUCCESS (next_message conn, input, output ++ [tag; group_code g])
        | None => unexpected
        end
    | S2N_SERVER, 2 => S2N_SUCCESS (next_message conn, input, output ++ [TAG_CCS])
    | _, _ => unexpected
    end.

(** The server's answer to a ClientHello: the predicted group, keyed at
    once when it is the group of the key share, else left for a retry. *)
Definition read_client_hello (conn : s2n_connection) (input output : s2n_stuffer)
  : posix (s2n_connection * s2n_stuffer * s2n_stuffer) :=
  match input with
  | prefixed :: code :: wire =>
      match group_of_code code, offered_groups wire with
      | Some share, Some (offered, rest) =>
          match s2n_get_predicted_negotiated_kem_group iana_id (fun _ => true)
                  (Some {| tls13_kem_groups := offered;
                           tls13_pq_hybrid_draft_revision := 0 |})
                  (own_kem_preferences conn) with
          | Returns (Some g) =>
              let same := if s2n_kem_group_eq_dec g share then true else false in
              if negb same && retrying conn then unexpected
              else S2N_SUCCESS
                     (advance conn (group_params share (Byte.eqb prefixed Byte.x01))
                        (Some g) same (negb same),
                      rest, output)
          | _ => unexpected
          end
      | _, _ => unexpected
      end
  | _ => unexpected
  end.

Definition handshake_read_io : handshake_io :=
  fun conn input output =>
    match mode conn, message_number conn with
    | S2N_SERVER, 0 => read_client_hello conn input output
    | S2N_SERVER, 4 =>
        if retrying conn then read_client_hello conn input output else unexpected
    | S2N_SERVER, 3 | S2N_CLIENT, 2 =>
        match retrying conn, input with
        | true, tag :: rest =>
            if Byte.eqb tag TAG_CCS then S2N_SUCCESS (next_message conn, rest, output)
            else unexpected
        | _, _ => unexpected
        end
    | S2N_CLIENT, 1 | S2N_CLIENT, 5 =>
        match input with
        | tag :: code :: rest =>
            match group_of_code code with
            | Some g =>
                let share := client_kem_group_params (kex_params conn) in
                if Byte.eqb tag TAG_SERVER_HELLO then
                  if same_pointer s2n_kem_group_eq_dec (Some g) (kem_group share)
                  then S2N_SUCCESS (advance conn share (Some g) true false, rest, output)
                  else unexpected
                else if Byte.eqb tag TAG_HELLO_RETRY && (message_number conn =? 1) then
                  S2N_SUCCESS
                    (advance conn (group_params g (len_prefixed (kem_params share)))
                       None false true,
                     rest, output)
                else unexpected
            | None => unexpected
            end
        | _ => unexpected
        end
    | _, _ => unexpected
    end.

Definition current_message_type (conn : s2n_connection) : Z :=
  match mode conn, message_number conn, retrying conn with
  | _, 0, _ => MSG_CLIENT_HELLO
  | S2N_CLIENT, 1, _ => MSG_SERVER_HELLO
  | S2N_SERVER, 1, false => MSG_SERVER_HELLO
  | S2N_SERVER, 1, true => MSG_HELLO_RETRY
  | S2N_SERVER, 2, _ => MSG_SERVER_CCS
  | S2N_CLIENT, 2, true | S2N_CLIENT, 3, true => MSG_CLIENT_CCS
  | S2N_SERVER, 3, true | _, 4, true => MSG_CLIENT_HELLO
  | _, 5, true => MSG_SERVER_HELLO
  | _, _, _ => MSG_OTHER
  end.

Definition key_exchange_group (conn : s2n_connection) : posix string :=
  match kem_group (server_kem_group_params (kex_params conn)) with
  | Some g => S2N_SUCCESS (group_name g)
  | None =>
      match negotiated_curve (server_ecc_evp_params (kex_params conn)) with
      | Some c => S2N_SUCCESS (curve_name c)
      | None => unexpected
      end
  end.

Definition library : libs2n :=
  {| S2N_TLS13 := TLS13;
     INITIAL := 0;
     HELLO_RETRY_REQUEST := RETRY_FLAG;
     CLIENT_HELLO := MSG_CLIENT_HELLO;
     SERVER_HELLO := MSG_SERVER_HELLO;
     SERVER_CHANGE_CIPHER_SPEC := MSG_SERVER_CCS;
     CLIENT_CHANGE_CIPHER_SPEC := MSG_CLIENT_CCS;
     S2N_HANDSHAKE_SECRET := HANDSHAKE_SECRET;
     S2N_TLS13_SECRET_MAX_LEN := 48;
     name := group_name;
     ecc_name := curve_name;
     s2n_connection_new := connection_new;
     s2n_config_new := Some [];
     s2n_cert_chain_and_key_new := Some [];
     s2n_read_test_pem := fun _ => S2N_SUCCESS [];
     s2n_cert_chain_and_key_load_pem := fun chain _ _ => S2N_SUCCESS chain;
     s2n_config_add_cert_chain_and_key_to_store := fun config _ => S2N_SUCCESS config;
     s2n_connection_set_config := fun conn _ => S2N_SUCCESS conn;
     s2n_stuffer_growable_alloc := fun _ => S2N_SUCCESS [];
     s2n_connection_set_io_stuffers := fun conn => S2N_SUCCESS conn;
     s2n_conn_get_current_message_type := current_message_type;
     s2n_handshake_write_io := handshake_write_io;
     s2n_handshake_read_io := handshake_read_io;
     s2n_conn_set_handshake_type := conn_set_handshake_type;
     s2n_handshake_type_check_tls13_flag :=
       fun conn flag => negb (Z.land (handshake_type conn) flag =? 0);
     s2n_tls13_client_must_use_hybrid_kem_length_prefix := must_use_length_prefix;
     s2n_connection_get_kem_group_name := spec_get_kem_group_name group_name;
     s2n_connection_get_curve := spec_get_curve curve_name;
     s2n_connection_get_key_exchange_group := key_exchange_group;
     s2n_tls13_connection_keys := fun _ => S2N_SUCCESS {| size := 48 |};
     s2n_stuffer_free := fun _ => S2N_SUCCESS tt;
     s2n_connection_free := fun _ => S2N_SUCCESS tt;
     s2n_cert_chain_and_key_free := fun _ => S2N_SUCCESS tt;
     s2n_config_free := fun _ => S2N_SUCCESS tt |}.

(** A policy with the given KEM preferences and no curves. *)
Definition policy (prefs : s2n_kem_preferences) : s2n_security_policy :=
  {| minimum_protocol_version := 34;
     kem_preferences := Some prefs;
     ecc_preferences := {| ecc_curves := [] |} |}.

(** An assignment of identifiers to the curves. *)
Definition ecc_iana_id (c : s2n_ecc_named_curve) : Z :=
  match c with
  | s2n_ecc_curve_secp256r1 => 23
  | s2n_ecc_curve_secp384r1 => 24
  | s2n_ecc_curve_secp521r1 => 25
  | s2n_ecc_curve_x25519 => 29
  end.

(** A provider with the generic KEM interface but neither x25519 nor
    ML-KEM, and one that offers everything. *)
Definition older_provider : libcrypto :=
  {| s2n_libcrypto_supports_evp_kem := true;
     s2n_is_evp_apis_supported := false;
     s2n_libcrypto_supports_mlkem := false;
     s2n_pq_is_enabled := true |}.

Definition full_provider : libcrypto :=
  {| s2n_libcrypto_supports_evp_kem := true;
     s2n_is_evp_apis_supported := true;
     s2n_libcrypto_supports_mlkem := true;
     s2n_pq_is_enabled := true |}.

(** The key shares of a ClientHello as the client of the handshake test
    writes it: one share, for the first group of its filtered list. *)
Definition first_share (C : list s2n_kem_group) (id : Z) : bool :=
  match C with
  | c0 :: _ => id =? iana_id c0
  | [] => false
  end.

(** The key shares of a ClientHello that carries one share, for [g]. *)
Definition only_share (g : s2n_kem_group) (id : Z) : bool := id =? iana_id g.

End Loopback.

(* ===================================================================== *)
(** * The two loops of a prediction as functions of the identifiers *)
(* ===================================================================== *)

(** What the second pair of loops computes on tables without [NULL]
    entries: the first entry of [S], in the order of [S], whose identifier
    an entry of [rest] carries is answered by the first such entry of
    [rest]. *)
Definition server_order_choice {A : Type} (id : A -> Z) (rest S : list A) : option A :=
  match find (fun s => id_member id s rest) S with
  | Some s => find (fun c => id c =? id s) rest
  | None => None
  end.

(** Both loops together: the first entry of [C] wins when [S] lists its
    identifier. *)
Definition two_tier_rule {A : Type} (id : A -> Z) (C S : list A) : option A :=
  match C with
  | [] => None
  | c0 :: rest => if id_member id c0 S then Some c0 else server_order_choice id rest S
  end.

(* ===================================================================== *)
(** * What a connection records of the key exchange *)
(* ===================================================================== *)

(** The four pointers the driver compares with its expectations, in the
    order of its assertions: the KEM group, its KEM, its curve, and the
    curve of a classical exchange. *)
Definition negotiated_pointers (conn : s2n_connection)
  : option s2n_kem_group * option s2n_kem * option s2n_ecc_named_curve
    * option s2n_ecc_named_curve :=
  (kem_group (server_kem_group_params (kex_params conn)),
   kem_params_kem (kem_params (server_kem_group_params (kex_params conn))),
   negotiated_curve (ecc_params (server_kem_group_params (kex_params conn))),
   negotiated_curve (server_ecc_evp_params (kex_params conn))).

(* ===================================================================== *)
(** * The check of the predicted curve in the loop over the vectors *)
(* ===================================================================== *)

(** The block of the loop over the test vectors that runs when PQ is
    disabled: it replaces the curve of the vector by [secp256r1] or by the
    client's first curve and compares the identifier of the outcome with
    the one of the predicted curve.  The result is the curve handed to the
    driver.  [s2n_ecc_preferences_includes_curve] and
    [s2n_security_policy_supports_tls13] are declared outside the sources
    and are parameters.  A failing [EXPECT] ends the test, and reading
    [iana_id] through a [NULL] pointer is undefined in C: the model fails
    in both cases.  Entry 0 of the client's table is read after the check
    of its count. *)
Definition ensure_predicted_curve
    (ecc_iana_id : s2n_ecc_named_curve -> Z)
    (s2n_ecc_preferences_includes_curve : s2n_ecc_preferences -> Z -> bool)
    (s2n_security_policy_supports_tls13 : s2n_security_policy -> bool)
    (lc : libcrypto)
    (client_policy server_policy : s2n_security_policy)
    (curve : option s2n_ecc_named_curve) : posix (option s2n_ecc_named_curve) :=
  if s2n_pq_is_enabled lc then S2N_SUCCESS curve
  else
    POSIX_ENSURE (EXPECT_TRUE (0 <? Z.of_nat (count (ecc_preferences client_policy))))
      S2N_ERR_SAFETY ;;
    client_default <- guarded_read (first_entry (ecc_curves (ecc_preferences client_policy))) ;;
    predicted_curve <-
      handed_back
        (s2n_get_predicted_negotiated_ecdhe_curve ecc_iana_id
           (Some client_policy) (Some server_policy)) ;;
    curve <-
      (if negb (s2n_ecc_preferences_includes_curve (ecc_preferences client_policy)
                  (ecc_iana_id (default_curve lc)))
          || negb (s2n_ecc_preferences_includes_curve (ecc_preferences server_policy)
                     (ecc_iana_id (default_curve lc)))
       then
         POSIX_ENSURE
           (EXPECT_TRUE (s2n_ecc_preferences_includes_curve (ecc_preferences client_policy)
                           (ecc_iana_id s2n_ecc_curve_secp256r1))) S2N_ERR_SAFETY ;;
         POSIX_ENSURE
           (EXPECT_TRUE (s2n_ecc_preferences_includes_curve (ecc_preferences server_policy)
                           (ecc_iana_id s2n_ecc_curve_secp256r1))) S2N_ERR_SAFETY ;;
         S2N_SUCCESS (Some s2n_ecc_curve_secp256r1)
       else S2N_SUCCESS curve) ;;
    curve <-
      (if s2n_security_policy_supports_tls13 client_policy
          && s2n_security_policy_supports_tls13 server_policy
       then
         default <- POSIX_ENSURE_REF client_default ;;
         if s2n_ecc_preferences_includes_curve (ecc_preferences server_policy)
              (ecc_iana_id default)
         then S2N_SUCCESS client_default
         else S2N_SUCCESS curve
       else S2N_SUCCESS curve) ;;
    expected <- POSIX_ENSURE_REF curve ;;
    predicted <- POSIX_ENSURE_REF predicted_curve ;;
    POSIX_ENSURE (EXPECT_TRUE (ecc_iana_id expected =? ecc_iana_id predicted))
      S2N_ERR_SAFETY ;;
    S2N_SUCCESS curve.

Local Close Scope posix_scope.

(* ===================================================================== *)
(** * Properties of the availability predicate and of the size macros *)
(* ===================================================================== *)

Lemma is_x25519_based_curve (g : s2n_kem_group) :
  is_x25519_based g = true <-> curve g = s2n_ecc_curve_x25519.
Proof.
  unfold is_x25519_based.
  destruct (s2n_ecc_named_curve_eq_dec (curve g) s2n_ecc_curve_x25519); split;
    congruence.
Qed.

(** The availability assertions of the KEM preferences test hold of the
    modelled predicate, whatever the crypto provider offers. *)
Lemma kem_preferences_test_availability_passes (lc : libcrypto) :
  kem_preferences_test_availability lc (s2n_kem_group_is_available lc) = true.
Proof.
  destruct lc as [[] [] [] ?]; reflexivity.
Qed.

(** Conversely the test pins the predicate down: a function that passes
    it agrees with the modelled predicate on every group, except on the
    ML-KEM groups of a provider with the generic KEM interface but without
    ML-KEM, about which the test asserts nothing. *)
Lemma kem_preferences_test_availability_determines
    (lc : libcrypto) (avail : s2n_kem_group -> bool) (g : s2n_kem_group) :
  kem_preferences_test_availability lc avail = true ->
  is_mlkem (kem g) && s2n_libcrypto_supports_evp_kem lc
    && negb (s2n_libcrypto_supports_mlkem lc) = false ->
  avail g = s2n_kem_group_is_available lc g.
Proof.
  unfold kem_preferences_test_availability, s2n_kem_group_is_available,
    EXPECT_TRUE, EXPECT_FALSE.
  destruct lc as [[] [] [] ?]; cbn [s2n_libcrypto_supports_evp_kem
    s2n_is_evp_apis_supported s2n_libcrypto_supports_mlkem];
    intros Htest Hcorner;
    repeat rewrite andb_true_iff in Htest;
    repeat rewrite negb_true_iff in Htest;
    destruct g; cbn in Hcorner |- *; intuition congruence.
Qed.

(** C8. For every KEM group [g], [s2n_kem_group_is_available] answers
    [true] exactly when the crypto provider exposes the generic KEM
    interface, and the x25519 primitive if [g] is built on x25519, and
    ML-KEM if the KEM of [g] is an ML-KEM variant. *)
Theorem kem_group_is_available_iff (lc : libcrypto) (g : s2n_kem_group) :
  s2n_kem_group_is_available lc g = true <->
  s2n_libcrypto_supports_evp_kem lc = true
  /\ (curve g = s2n_ecc_curve_x25519 -> s2n_is_evp_apis_supported lc = true)
  /\ (is_mlkem (kem g) = true -> s2n_libcrypto_supports_mlkem lc = true).
Proof.
  unfold s2n_kem_group_is_available.
  rewrite !andb_true_iff, <- is_x25519_based_curve.
  destruct (is_x25519_based g), (is_mlkem (kem g)); intuition congruence.
Qed.

(** C9. The fixed size of a serialized connection is 8 bytes, the protocol
    version, the cipher suite, two sequence numbers and 2 more bytes; the
    TLS 1.2 size adds to it the master secret and two randoms of 32 bytes
    each, and nothing else. *)
Theorem serialized_conn_sizes
    (S2N_TLS_PROTOCOL_VERSION_LEN S2N_TLS_CIPHER_SUITE_LEN
     S2N_TLS_SEQUENCE_NUM_LEN S2N_TLS_SECRET_LEN : Z) :
  S2N_SERIALIZED_CONN_FIXED_SIZE S2N_TLS_PROTOCOL_VERSION_LEN S2N_TLS_CIPHER_SUITE_LEN
    S2N_TLS_SEQUENCE_NUM_LEN
  = 8 + S2N_TLS_PROTOCOL_VERSION_LEN + S2N_TLS_CIPHER_SUITE_LEN
    + 2 * S2N_TLS_SEQUENCE_NUM_LEN + 2
  /\ S2N_SERIALIZED_CONN_TLS12_SIZE S2N_TLS_PROTOCOL_VERSION_LEN S2N_TLS_CIPHER_SUITE_LEN
       S2N_TLS_SEQUENCE_NUM_LEN S2N_TLS_SECRET_LEN
     = S2N_SERIALIZED_CONN_FIXED_SIZE S2N_TLS_PROTOCOL_VERSION_LEN S2N_TLS_CIPHER_SUITE_LEN
         S2N_TLS_SEQUENCE_NUM_LEN
       + S2N_TLS_SECRET_LEN + 2 * 32.
Proof.
  unfold S2N_SERIALIZED_CONN_TLS12_SIZE, S2N_SERIALIZED_CONN_FIXED_SIZE,
    S2N_TLS_RANDOM_DATA_LEN.
  split; lia.
Qed.

(* ===================================================================== *)
(** * Properties of the predicted KEM group *)
(* ===================================================================== *)

(** ** Lists *)

Lemma In_skipn {A : Type} (n : nat) (x : A) (l : list A) :
  In x (skipn n l) -> In x l.
Proof.
  revert l. induction n as [|n IH]; intros [|y l]; cbn; auto.
Qed.

Lemma available_groups_In (is_available : s2n_kem_group -> bool) g table :
  In g (available_groups is_available table)
  <-> In (Some g) table /\ is_available g = true.
Proof.
  induction table as [|[e|] rest IH]; cbn.
  - tauto.
  - destruct (is_available e) eqn:He; cbn; rewrite IH; split.
    + intros [-> | [H1 H2]]; auto.
    + intros [[[= ->] | H1] H2]; auto.
    + intros [H1 H2]; auto.
    + intros [[[= ->] | H1] H2]; [congruence | auto].
  - rewrite IH. split; [intros [H1 H2]; auto | intros [[H|H] H2]; [discriminate | auto]].
Qed.


Lemma existsb_find {A : Type} (p : A -> bool) (l : list A) :
  existsb p l = true -> exists x, find p l = Some x.
Proof.
  induction l as [|a l IH]; cbn; [discriminate|].
  destruct (p a); [eauto | exact IH].
Qed.

Lemma find_existsb {A : Type} (p : A -> bool) (l : list A) x :
  find p l = Some x -> existsb p l = true.
Proof.
  intros H. apply find_some in H. apply existsb_exists. exists x. exact H.
Qed.

Section PredictedKemGroup.

Variable iana_id : s2n_kem_group -> Z.
Variable is_available : s2n_kem_group -> bool.

#[local] Abbreviation predicted :=
  (s2n_get_predicted_negotiated_kem_group iana_id is_available).
#[local] Abbreviation one_rtt_loop := (kem_group_one_rtt_loop iana_id is_available).
#[local] Abbreviation client_loop := (kem_group_client_loop iana_id is_available).
#[local] Abbreviation two_rtt_loop := (kem_group_two_rtt_loop iana_id is_available).
#[local] Abbreviation supported := (mutually_supported iana_id is_available).

Lemma one_rtt_loop_sound client_default server_groups g :
  one_rtt_loop client_default server_groups = Some (Some g) ->
  g = client_default /\ supported g server_groups.
Proof.
  induction server_groups as [|[s|] rest IH]; cbn; try discriminate.
  destruct (is_available client_default && is_available s
            && (iana_id client_default =? iana_id s)
            && is_available client_default) eqn:Hcond.
  - intros [= <-]. rewrite !andb_true_iff, Z.eqb_eq in Hcond.
    destruct Hcond as [[[Hc Hs] Hid] _].
    split; [reflexivity|]. split; [exact Hc|].
    exists s. repeat split; [now left | exact Hs | now symmetry].
  - intros H. destruct (IH H) as [-> [Hav (s' & Hin & Hs' & Hid)]].
    split; [reflexivity|]. split; [exact Hav|].
    exists s'. repeat split; [now right | exact Hs' | exact Hid].
Qed.

Lemma client_loop_sound server_group client_groups g :
  client_loop server_group client_groups = Some (Some g) ->
  In (Some g) client_groups
  /\ is_available g = true
  /\ exists s, server_group = Some s /\ is_available s = true /\ iana_id s = iana_id g.
Proof.
  induction client_groups as [|[c|] rest IH]; cbn; try discriminate.
  destruct server_group as [s|]; [|discriminate].
  destruct (is_available c && is_available s && (iana_id c =? iana_id s)
            && is_available c) eqn:Hcond.
  - intros [= <-]. rewrite !andb_true_iff, Z.eqb_eq in Hcond.
    destruct Hcond as [[[Hc Hs] Hid] _].
    split; [now left|]. split; [exact Hc|].
    exists s. repeat split; [exact Hs | now symmetry].
  - intros H. destruct (IH H) as (Hin & Hav & Hs).
    split; [now right|]. split; [exact Hav | exact Hs].
Qed.

Lemma two_rtt_loop_sound client_groups server_groups g :
  two_rtt_loop client_groups server_groups = Some (Some g) ->
  In (Some g) client_groups /\ supported g server_groups.
Proof.
  induction server_groups as [|sg rest IH]; cbn; try discriminate.
  destruct (client_loop sg client_groups) as [r|] eqn:Hinner.
  - intros [= ->].
    destruct (client_loop_sound _ _ _ Hinner) as (Hin & Hav & s & -> & Hs & Hid).
    split; [exact Hin|]. split; [exact Hav|].
    exists s. repeat split; [now left | exact Hs | exact Hid].
  - intros H. destruct (IH H) as (Hin & Hav & s & Hs & Hsav & Hid).
    split; [exact Hin|]. split; [exact Hav|].
    exists s. repeat split; [now right | exact Hsav | exact Hid].
Qed.

(** A returned group is an entry of the client's table and is mutually
    supported. *)
Lemma predicted_sound (client_prefs server_prefs : s2n_kem_preferences) (u : s2n_kem_group) :
  predicted (Some client_prefs) (Some server_prefs) = Returns (Some u) ->
  In (Some u) (tls13_kem_groups client_prefs)
  /\ supported u (tls13_kem_groups server_prefs).
Proof.
  unfold s2n_get_predicted_negotiated_kem_group.
  destruct (first_entry (tls13_kem_groups client_prefs)) as [[client_default|]|] eqn:Hfirst;
    try discriminate.
  assert (Hdefault : In (Some client_default) (tls13_kem_groups client_prefs)).
  { destruct (tls13_kem_groups client_prefs) as [|e l]; [discriminate|].
    cbn in Hfirst. injection Hfirst as ->. now left. }
  destruct (one_rtt_loop client_default (tls13_kem_groups server_prefs)) as [r|] eqn:H1.
  - intros [= ->]. destruct (one_rtt_loop_sound _ _ _ H1) as [-> Hm]. auto.
  - destruct (two_rtt_loop (skipn 1 (tls13_kem_groups client_prefs))
                (tls13_kem_groups server_prefs)) as [r|] eqn:H2; [|discriminate].
    intros [= ->]. destruct (two_rtt_loop_sound _ _ _ H2) as [Hin Hm].
    split; [eapply In_skipn; exact Hin | exact Hm].
Qed.

(** C10. Whenever the prediction returns a group, the group passes the
    availability predicate, it is an entry of the client's table, and an
    available entry of the server's table carries its identifier; so a
    group that is not available is never returned, whatever it matches. *)
Theorem predicted_kem_group_is_mutually_available
    (client_prefs server_prefs : s2n_kem_preferences) (g : s2n_kem_group) :
  predicted (Some client_prefs) (Some server_prefs) = Returns (Some g) ->
  is_available g = true
  /\ In (Some g) (tls13_kem_groups client_prefs)
  /\ (exists s, In (Some s) (tls13_kem_groups server_prefs)
                /\ is_available s = true /\ iana_id s = iana_id g)
  /\ (forall u, is_available u = false ->
                predicted (Some client_prefs) (Some server_prefs) <> Returns (Some u)).
Proof.
  intros Hg. destruct (predicted_sound _ _ _ Hg) as (Hin & Hav & Hs).
  repeat split; auto.
  intros u Hu Hret. destruct (predicted_sound _ _ _ Hret) as (_ & Hav' & _).
  congruence.
Qed.


(** ** The prediction on tables filtered by availability *)

Lemma one_rtt_loop_filtered client_default S :
  is_available client_default = true ->
  Forall (fun g => is_available g = true) S ->
  one_rtt_loop client_default (map Some S)
  = if id_member iana_id client_default S then Some (Some client_default) else None.
Proof.
  intros Hc HS. induction HS as [|s S Hs _ IH]; cbn; [reflexivity|].
  rewrite Hc, Hs, IH, (Z.eqb_sym (iana_id s)). cbn. rewrite andb_true_r.
  unfold id_member.
  now destruct (iana_id client_default =? iana_id s).
Qed.

Lemma client_loop_filtered s client_groups :
  is_available s = true ->
  Forall (fun g => is_available g = true) client_groups ->
  client_loop (Some s) (map Some client_groups)
  = option_map Some (find (fun c => iana_id c =? iana_id s) client_groups).
Proof.
  intros Hs Hcl. induction Hcl as [|c cl Hc _ IH]; cbn; [reflexivity|].
  rewrite Hc, Hs, IH. cbn. rewrite andb_true_r.
  now destruct (iana_id c =? iana_id s).
Qed.

Lemma two_rtt_loop_filtered client_groups S :
  Forall (fun g => is_available g = true) client_groups ->
  Forall (fun g => is_available g = true) S ->
  two_rtt_loop (map Some client_groups) (map Some S)
  = match find (fun s => id_member iana_id s client_groups) S with
    | Some s => option_map Some (find (fun c => iana_id c =? iana_id s) client_groups)
    | None => None
    end.
Proof.
  intros Hcl HS. induction HS as [|s S Hs _ IH]; cbn; [reflexivity|].
  rewrite (client_loop_filtered s client_groups Hs Hcl), IH.
  unfold id_member.
  destruct (existsb (fun y => iana_id y =? iana_id s) client_groups) eqn:Hex.
  - destruct (existsb_find _ _ Hex) as [c Hfind]. rewrite Hfind. reflexivity.
  - destruct (find (fun c => iana_id c =? iana_id s) client_groups) as [c|] eqn:Hfind;
      [|reflexivity].
    apply find_existsb in Hfind. congruence.
Qed.

(** On tables that hold available groups only, the prediction is the
    two-tier rule: the client's first group if the server lists its
    identifier, else the client group (from index 1 on) that matches the
    first server group to have a match.  An empty client table has no
    entry 0 to read. *)
Lemma predicted_filtered (r1 r2 : Z) (C S : list s2n_kem_group) :
  Forall (fun g => is_available g = true) C ->
  Forall (fun g => is_available g = true) S ->
  predicted (Some (kem_preferences_of r1 C)) (Some (kem_preferences_of r2 S))
  = match C with
    | [] => OutOfBounds
    | c0 :: rest =>
        Returns
          (if id_member iana_id c0 S then Some c0
           else match find (fun s => id_member iana_id s rest) S with
                | Some s => find (fun c => iana_id c =? iana_id s) rest
                | None => None
                end)
    end.
Proof.
  intros HC HS. unfold s2n_get_predicted_negotiated_kem_group, kem_preferences_of.
  cbn [tls13_kem_groups].
  destruct C as [|c0 rest]; [reflexivity|]. cbn [map first_entry skipn].
  inversion HC as [|? ? Hc0 Hrest]; subst.
  rewrite (one_rtt_loop_filtered c0 S Hc0 HS).
  destruct (id_member iana_id c0 S); [reflexivity|].
  rewrite (two_rtt_loop_filtered rest S Hrest HS).
  destruct (find (fun s => id_member iana_id s rest) S) as [s|]; [|reflexivity].
  now destruct (find (fun c => iana_id c =? iana_id s) rest).
Qed.

(** ** The prediction on tables as they are *)

Lemma one_rtt_loop_unfiltered client_default T :
  ~ In None T ->
  one_rtt_loop client_default T
  = if is_available client_default
       && id_member iana_id client_default (available_groups is_available T)
    then Some (Some client_default) else None.
Proof.
  induction T as [|[s|] T IH]; cbn; intros Hnull.
  - now rewrite andb_false_r.
  - rewrite IH by (intros H; apply Hnull; now right).
    destruct (is_available client_default); cbn; [|reflexivity].
    destruct (is_available s); cbn; [|reflexivity].
    rewrite andb_true_r, (Z.eqb_sym (iana_id s)).
    now destruct (iana_id client_default =? iana_id s).
  - exfalso. apply Hnull. now left.
Qed.

Lemma client_loop_unfiltered s T :
  ~ In None T ->
  client_loop (Some s) T
  = if is_available s
    then option_map Some
           (find (fun c => iana_id c =? iana_id s) (available_groups is_available T))
    else None.
Proof.
  induction T as [|[c|] T IH]; cbn; intros Hnull.
  - now destruct (is_available s).
  - rewrite IH by (intros H; apply Hnull; now right).
    destruct (is_available s); cbn; [|now rewrite andb_false_r].
    destruct (is_available c); cbn; [|reflexivity].
    rewrite andb_true_r. now destruct (iana_id c =? iana_id s).
  - exfalso. apply Hnull. now left.
Qed.

Lemma two_rtt_loop_unfiltered Tc Ts :
  ~ In None Tc -> ~ In None Ts ->
  two_rtt_loop Tc Ts
  = match find (fun s => id_member iana_id s (available_groups is_available Tc))
            (available_groups is_available Ts) with
    | Some s =>
        option_map Some
          (find (fun c => iana_id c =? iana_id s) (available_groups is_available Tc))
    | None => None
    end.
Proof.
  intros Hc. induction Ts as [|[s|] Ts IH]; cbn; intros Hnull.
  - reflexivity.
  - rewrite (client_loop_unfiltered s Tc Hc), IH by (intros H; apply Hnull; now right).
    destruct (is_available s); cbn; [|reflexivity].
    unfold id_member.
    destruct (existsb (fun y => iana_id y =? iana_id s) (available_groups is_available Tc))
      eqn:Hex.
    + destruct (existsb_find _ _ Hex) as [c Hfind]. rewrite Hfind. reflexivity.
    + destruct (find (fun c => iana_id c =? iana_id s) (available_groups is_available Tc))
        as [c|] eqn:Hfind; [|reflexivity].
      apply find_existsb in Hfind. congruence.
  - exfalso. apply Hnull. now left.
Qed.


(** The first loop returns the client's first group at the first
    available server entry that carries its identifier, when that group is
    available and no [NULL] entry comes before; what follows the entry is
    not looked at. *)
Lemma one_rtt_loop_match (c0 s : s2n_kem_group) (before : list s2n_kem_group)
    (after : list (option s2n_kem_group)) :
  is_available c0 = true ->
  is_available s = true ->
  iana_id s = iana_id c0 ->
  one_rtt_loop c0 (map Some before ++ Some s :: after) = Some (Some c0).
Proof.
  intros Hc0 Hs Hid. induction before as [|b before IH]; cbn.
  - now rewrite Hc0, Hs, Hid, Z.eqb_refl.
  - rewrite IH.
    now destruct (is_available c0 && is_available b && (iana_id c0 =? iana_id b)
                  && is_available c0).
Qed.

(** C2, amended. If the first entry [c0] of the client's table is
    available, the peer sent a key share for it, and an available entry of
    the server's table carries its identifier with no [NULL] entry before
    it, then the prediction returns [c0], wherever the server ranks it.
    [c0] is then the first group of the client's list filtered by
    availability, the filtered server list has its identifier, and the
    selection rule selects [c0] and requires no HelloRetryRequest. *)
Theorem one_rtt_selects_client_first_entry
    (sent : Z -> bool) (client_prefs server_prefs : s2n_kem_preferences)
    (c0 s : s2n_kem_group) (before : list s2n_kem_group)
    (after : list (option s2n_kem_group)) :
  let C := available_groups is_available (tls13_kem_groups client_prefs) in
  let S := available_groups is_available (tls13_kem_groups server_prefs) in
  first_entry (tls13_kem_groups client_prefs) = Some (Some c0) ->
  is_available c0 = true ->
  sent (iana_id c0) = true ->
  tls13_kem_groups server_prefs = map Some before ++ Some s :: after ->
  is_available s = true ->
  iana_id s = iana_id c0 ->
  predicted (Some client_prefs) (Some server_prefs) = Returns (Some c0)
  /\ hd_error C = Some c0
  /\ id_member iana_id c0 S = true
  /\ two_tier_select iana_id sent C S = Some (c0, false).
Proof.
  intros C S Hfirst Hc0 Hsent Hserver Hs Hid.
  assert (HC : hd_error C = Some c0).
  { subst C. destruct (tls13_kem_groups client_prefs) as [|e table]; [discriminate|].
    cbn in Hfirst. injection Hfirst as ->. cbn. now rewrite Hc0. }
  assert (HS : id_member iana_id c0 S = true).
  { apply existsb_exists. exists s. split; [|now apply Z.eqb_eq].
    apply available_groups_In. split; [|exact Hs].
    rewrite Hserver. apply in_or_app. right. now left. }
  split; [|split; [exact HC | split; [exact HS|]]].
  - unfold s2n_get_predicted_negotiated_kem_group.
    now rewrite Hfirst, Hserver, (one_rtt_loop_match c0 s before after Hc0 Hs Hid).
  - unfold two_tier_select. fold C S.
    destruct C as [|c rest]; [discriminate|]. injection HC as ->.
    now rewrite Hsent, HS.
Qed.

(** The same on a server table without [NULL] entries: an available
    server group with the identifier of the client's available first entry
    makes the prediction return that entry. *)
Lemma predicted_client_default
    (client_prefs server_prefs : s2n_kem_preferences) (c0 s : s2n_kem_group) :
  first_entry (tls13_kem_groups client_prefs) = Some (Some c0) ->
  is_available c0 = true ->
  ~ In None (tls13_kem_groups server_prefs) ->
  In (Some s) (tls13_kem_groups server_prefs) ->
  is_available s = true ->
  iana_id s = iana_id c0 ->
  predicted (Some client_prefs) (Some server_prefs) = Returns (Some c0).
Proof.
  intros Hfirst Hc0 Hnull Hin Hs Hid.
  unfold s2n_get_predicted_negotiated_kem_group. rewrite Hfirst.
  assert (Hloop : one_rtt_loop c0 (tls13_kem_groups server_prefs) = Some (Some c0)).
  { induction (tls13_kem_groups server_prefs) as [|[e|] l IH]; cbn.
    - contradiction.
    - destruct Hin as [[= ->] | Hin].
      + rewrite Hc0, Hs, Hid, Z.eqb_refl. reflexivity.
      + destruct (is_available c0 && is_available e && (iana_id c0 =? iana_id e)
                  && is_available c0); [reflexivity|].
        apply IH; [|exact Hin]. intros Hn. apply Hnull. now right.
    - exfalso. apply Hnull. now left. }
  now rewrite Hloop.
Qed.


End PredictedKemGroup.

(* ===================================================================== *)
(** * Properties of the predicted curve and the fall-through *)
(* ===================================================================== *)



Section PredictedCurve.

Variable ecc_iana_id : s2n_ecc_named_curve -> Z.

#[local] Abbreviation predicted_curve :=
  (s2n_get_predicted_negotiated_ecdhe_curve ecc_iana_id).

Lemma ecdhe_one_rtt_loop_sound client_default server_curves c :
  ecdhe_curve_one_rtt_loop ecc_iana_id client_default server_curves = Some (Some c) ->
  c = client_default
  /\ exists s, In (Some s) server_curves /\ ecc_iana_id s = ecc_iana_id c.
Proof.
  induction server_curves as [|[s|] rest IH]; cbn; try discriminate.
  destruct (ecc_iana_id s =? ecc_iana_id client_default) eqn:Hid.
  - intros [= <-]. apply Z.eqb_eq in Hid. split; [reflexivity|].
    exists s. split; [now left | exact Hid].
  - intros H. destruct (IH H) as [-> (s' & Hin & Hs')]. split; [reflexivity|].
    exists s'. split; [now right | exact Hs'].
Qed.

Lemma ecdhe_client_loop_sound server_curve client_curves c :
  ecdhe_curve_client_loop ecc_iana_id server_curve client_curves = Some (Some c) ->
  In (Some c) client_curves
  /\ exists s, server_curve = Some s /\ ecc_iana_id s = ecc_iana_id c.
Proof.
  induction client_curves as [|[x|] rest IH]; cbn; try discriminate.
  destruct server_curve as [s|]; [|discriminate].
  destruct (ecc_iana_id x =? ecc_iana_id s) eqn:Hid.
  - intros [= <-]. apply Z.eqb_eq in Hid. split; [now left|].
    exists s. split; [reflexivity | now symmetry].
  - intros H. destruct (IH H) as (Hin & Hs). split; [now right | exact Hs].
Qed.

Lemma ecdhe_two_rtt_loop_sound client_curves server_curves c :
  ecdhe_curve_two_rtt_loop ecc_iana_id client_curves server_curves = Some (Some c) ->
  In (Some c) client_curves
  /\ exists s, In (Some s) server_curves /\ ecc_iana_id s = ecc_iana_id c.
Proof.
  induction server_curves as [|sc rest IH]; cbn; try discriminate.
  destruct (ecdhe_curve_client_loop ecc_iana_id sc client_curves) as [r|] eqn:Hinner.
  - intros [= ->].
    destruct (ecdhe_client_loop_sound _ _ _ Hinner) as (Hin & s & -> & Hid).
    split; [exact Hin|]. exists s. split; [now left | exact Hid].
  - intros H. destruct (IH H) as (Hin & s & Hs & Hid).
    split; [exact Hin|]. exists s. split; [now right | exact Hid].
Qed.

(** A returned curve is an entry of the client's table, and an entry of
    the server's table carries its identifier. *)
Lemma predicted_curve_sound (client_sec_policy server_sec_policy : s2n_security_policy) c :
  predicted_curve (Some client_sec_policy) (Some server_sec_policy) = Returns (Some c) ->
  In (Some c) (ecc_curves (ecc_preferences client_sec_policy))
  /\ exists s, In (Some s) (ecc_curves (ecc_preferences server_sec_policy))
              /\ ecc_iana_id s = ecc_iana_id c.
Proof.
  unfold s2n_get_predicted_negotiated_ecdhe_curve.
  set (client_curves := ecc_curves (ecc_preferences client_sec_policy)).
  set (server_curves := ecc_curves (ecc_preferences server_sec_policy)).
  destruct (first_entry client_curves) as [[client_default|]|] eqn:Hfirst;
    try discriminate.
  assert (Hdefault : In (Some client_default) client_curves).
  { destruct client_curves as [|e l]; [discriminate|].
    cbn in Hfirst. injection Hfirst as ->. now left. }
  destruct (ecdhe_curve_one_rtt_loop ecc_iana_id client_default server_curves)
    as [r|] eqn:H1.
  - intros [= ->]. destruct (ecdhe_one_rtt_loop_sound _ _ _ H1) as [-> Hs]. auto.
  - destruct (ecdhe_curve_two_rtt_loop ecc_iana_id (skipn 1 client_curves) server_curves)
      as [r|] eqn:H2; [|discriminate].
    intros [= ->]. destruct (ecdhe_two_rtt_loop_sound _ _ _ H2) as [Hin Hs].
    split; [eapply In_skipn; exact Hin | exact Hs].
Qed.

Lemma ecdhe_one_rtt_loop_listed client_default S :
  ecdhe_curve_one_rtt_loop ecc_iana_id client_default (map Some S)
  = if id_member ecc_iana_id client_default S then Some (Some client_default) else None.
Proof.
  induction S as [|s S IH]; cbn; [reflexivity|].
  rewrite IH. unfold id_member. now destruct (ecc_iana_id s =? ecc_iana_id client_default).
Qed.

Lemma ecdhe_client_loop_listed s client_curves :
  ecdhe_curve_client_loop ecc_iana_id (Some s) (map Some client_curves)
  = option_map Some (find (fun c => ecc_iana_id c =? ecc_iana_id s) client_curves).
Proof.
  induction client_curves as [|c cl IH]; cbn; [reflexivity|].
  rewrite IH. now destruct (ecc_iana_id c =? ecc_iana_id s).
Qed.

Lemma ecdhe_two_rtt_loop_listed client_curves S :
  ecdhe_curve_two_rtt_loop ecc_iana_id (map Some client_curves) (map Some S)
  = match find (fun s => id_member ecc_iana_id s client_curves) S with
    | Some s => option_map Some (find (fun c => ecc_iana_id c =? ecc_iana_id s) client_curves)
    | None => None
    end.
Proof.
  induction S as [|s S IH]; cbn; [reflexivity|].
  rewrite ecdhe_client_loop_listed, IH. unfold id_member.
  destruct (existsb (fun y => ecc_iana_id y =? ecc_iana_id s) client_curves) eqn:Hex.
  - destruct (existsb_find _ _ Hex) as [c Hfind]. rewrite Hfind. reflexivity.
  - destruct (find (fun c => ecc_iana_id c =? ecc_iana_id s) client_curves) as [c|] eqn:Hfind;
      [|reflexivity].
    apply find_existsb in Hfind. congruence.
Qed.

(** On tables without [NULL] entries the curve prediction is the two-tier
    rule, the one [predicted_filtered] states for the KEM groups. *)
Lemma predicted_curve_listed (client_sec_policy server_sec_policy : s2n_security_policy)
    (C S : list s2n_ecc_named_curve) :
  ecc_curves (ecc_preferences client_sec_policy) = map Some C ->
  ecc_curves (ecc_preferences server_sec_policy) = map Some S ->
  predicted_curve (Some client_sec_policy) (Some server_sec_policy)
  = match C with
    | [] => OutOfBounds
    | c0 :: rest =>
        Returns
          (if id_member ecc_iana_id c0 S then Some c0
           else match find (fun s => id_member ecc_iana_id s rest) S with
                | Some s => find (fun c => ecc_iana_id c =? ecc_iana_id s) rest
                | None => None
                end)
    end.
Proof.
  intros HC HS. unfold s2n_get_predicted_negotiated_ecdhe_curve. rewrite HC, HS.
  destruct C as [|c0 rest]; [reflexivity|]. cbn [map first_entry skipn].
  rewrite ecdhe_one_rtt_loop_listed.
  destruct (id_member ecc_iana_id c0 S); [reflexivity|].
  rewrite ecdhe_two_rtt_loop_listed.
  destruct (find (fun s => id_member ecc_iana_id s rest) S) as [s|]; [|reflexivity].
  now destruct (find (fun c => ecc_iana_id c =? ecc_iana_id s) rest).
Qed.

End PredictedCurve.


(* ===================================================================== *)
(** * The predictions on the preference sets of the test *)
(* ===================================================================== *)

(** The draft-0 Kyber preferences against the Kyber-768 preferences, on a
    provider without x25519. *)
Lemma predicted_kem_group_is_mutually_available_witness :
  s2n_get_predicted_negotiated_kem_group Loopback.iana_id
    (s2n_kem_group_is_available Loopback.older_provider)
    (Some kyber_test_prefs_draft0) (Some kyber768_test_prefs)
  = Returns (Some s2n_secp384r1_kyber_768_r3)
  /\ s2n_kem_group_is_available Loopback.older_provider s2n_secp384r1_kyber_768_r3 = true
  /\ In (Some s2n_secp384r1_kyber_768_r3) (tls13_kem_groups kyber_test_prefs_draft0).
Proof.
  assert (H : s2n_get_predicted_negotiated_kem_group Loopback.iana_id
                (s2n_kem_group_is_available Loopback.older_provider)
                (Some kyber_test_prefs_draft0) (Some kyber768_test_prefs)
              = Returns (Some s2n_secp384r1_kyber_768_r3)) by reflexivity.
  split; [exact H|].
  destruct (predicted_kem_group_is_mutually_available _ _ _ _ _ H) as (Hav & Hin & _).
  split; [exact Hav | exact Hin].
Defined.

(** On the same two preference sets the claim fails as it is stated.  The
    client's first entry (an x25519 group) is not available on this
    provider, so the first group of the client's filtered list is
    [s2n_secp256r1_kyber_512_r3]; the filtered server list has it and the
    selection rule selects it without a retry.  The first loop cannot
    return the unavailable entry 0, and the second pair of loops follows
    the server's order: the prediction is [s2n_secp384r1_kyber_768_r3]. *)
Lemma one_rtt_selects_client_first_group_counterexample :
  let is_available := s2n_kem_group_is_available Loopback.older_provider in
  let C := available_groups is_available (tls13_kem_groups kyber_test_prefs_draft0) in
  let S := available_groups is_available (tls13_kem_groups kyber768_test_prefs) in
  hd_error C = Some s2n_secp256r1_kyber_512_r3
  /\ Loopback.only_share s2n_secp256r1_kyber_512_r3
       (Loopback.iana_id s2n_secp256r1_kyber_512_r3) = true
  /\ id_member Loopback.iana_id s2n_secp256r1_kyber_512_r3 S = true
  /\ two_tier_select Loopback.iana_id (Loopback.only_share s2n_secp256r1_kyber_512_r3) C S
     = Some (s2n_secp256r1_kyber_512_r3, false)
  /\ s2n_get_predicted_negotiated_kem_group Loopback.iana_id is_available
       (Some kyber_test_prefs_draft0) (Some kyber768_test_prefs)
     = Returns (Some s2n_secp384r1_kyber_768_r3)
  /\ s2n_get_predicted_negotiated_kem_group Loopback.iana_id is_available
       (Some kyber_test_prefs_draft0) (Some kyber768_test_prefs)
     <> Returns (Some s2n_secp256r1_kyber_512_r3).
Proof.
  repeat split; try reflexivity. vm_compute. discriminate.
Qed.

(** The Kyber-1024 preferences against the Kyber test preferences: the
    server ranks the client's first group fifth and still negotiates it in
    one round trip. *)
Lemma one_rtt_selects_client_first_entry_witness :
  first_entry (tls13_kem_groups kyber1024_test_prefs) = Some (Some s2n_secp521r1_kyber_1024_r3)
  /\ s2n_get_predicted_negotiated_kem_group Loopback.iana_id
       (s2n_kem_group_is_available Loopback.full_provider)
       (Some kyber1024_test_prefs) (Some kyber_test_prefs_draft0)
     = Returns (Some s2n_secp521r1_kyber_1024_r3)
  /\ two_tier_select Loopback.iana_id (Loopback.only_share s2n_secp521r1_kyber_1024_r3)
       (available_groups (s2n_kem_group_is_available Loopback.full_provider)
          (tls13_kem_groups kyber1024_test_prefs))
       (available_groups (s2n_kem_group_is_available Loopback.full_provider)
          (tls13_kem_groups kyber_test_prefs_draft0))
     = Some (s2n_secp521r1_kyber_1024_r3, false).
Proof.
  split; [reflexivity|].
  destruct (one_rtt_selects_client_first_entry Loopback.iana_id
              (s2n_kem_group_is_available Loopback.full_provider)
              (Loopback.only_share s2n_secp521r1_kyber_1024_r3)
              kyber1024_test_prefs kyber_test_prefs_draft0
              s2n_secp521r1_kyber_1024_r3 s2n_secp521r1_kyber_1024_r3
              [ s2n_x25519_kyber_512_r3; s2n_secp256r1_kyber_512_r3;
                s2n_secp256r1_kyber_768_r3; s2n_secp384r1_kyber_768_r3 ]
              [ Some s2n_x25519_kyber_768_r3 ]
              eq_refl eq_refl eq_refl eq_refl eq_refl eq_refl)
    as (Hpredicted & _ & _ & Hrule).
  split; [exact Hpredicted | exact Hrule].
Defined.




(** The vectors whose two policies the test builds itself agree with the
    prediction and with the selection rule, in the expected group and in
    the expected HelloRetryRequest, on every provider that has the generic
    KEM interface and x25519 (with or without ML-KEM). *)
Lemma visible_vectors_follow_the_rule (lc : libcrypto) (v : pq_handshake_test_vector)
    (cp sp : s2n_kem_preferences) :
  s2n_libcrypto_supports_evp_kem lc = true ->
  s2n_is_evp_apis_supported lc = true ->
  In v (test_vectors lc ++ self_talk_test_vectors lc) ->
  test_kem_preferences (client_policy v) = Some cp ->
  test_kem_preferences (server_policy v) = Some sp ->
  let C := available_groups (s2n_kem_group_is_available lc) (tls13_kem_groups cp) in
  let S := available_groups (s2n_kem_group_is_available lc) (tls13_kem_groups sp) in
  s2n_get_predicted_negotiated_kem_group Loopback.iana_id (s2n_kem_group_is_available lc)
    (Some cp) (Some sp) = Returns (expected_kem_group v)
  /\ two_tier_select Loopback.iana_id (Loopback.first_share C) C S
     = option_map (fun g => (g, hrr_expected v)) (expected_kem_group v).
Proof.
  destruct lc as [[] [] mlkem pq]; cbn [s2n_libcrypto_supports_evp_kem
    s2n_is_evp_apis_supported]; try discriminate.
  intros _ _ Hin. apply in_app_or in Hin. destruct Hin as [Hin | Hin].
  - cbn in Hin.
    repeat (destruct Hin as [<- | Hin];
            [cbn; intros Hc Hs; try discriminate;
             injection Hc as <-; injection Hs as <-;
             destruct mlkem; vm_compute; split; reflexivity|]).
    contradiction.
  - apply in_map_iff in Hin. destruct Hin as (g & <- & Hg).
    apply available_groups_In in Hg. destruct Hg as [_ Hav].
    cbn. intros [= <-] [= <-].
    destruct mlkem, g; try discriminate Hav; vm_compute; split; reflexivity.
Qed.

(* ===================================================================== *)
(** * Reasoning about fallible calls *)
(* ===================================================================== *)

Lemma POSIX_GUARD_success {A B : Type} (call : posix A) (rest : A -> posix B) (v : B) :
  POSIX_GUARD call rest = S2N_SUCCESS v ->
  exists x, call = S2N_SUCCESS x /\ rest x = S2N_SUCCESS v.
Proof.
  destruct call as [x|e]; cbn; [eauto | discriminate].
Qed.

Lemma POSIX_ENSURE_success (condition : bool) (e : s2n_error) (u : unit) :
  POSIX_ENSURE condition e = S2N_SUCCESS u -> condition = true.
Proof.
  now destruct condition.
Qed.

Lemma POSIX_ENSURE_REF_success {A : Type} (pointer : option A) (x : A) :
  POSIX_ENSURE_REF pointer = S2N_SUCCESS x -> pointer = Some x.
Proof.
  destruct pointer; cbn; congruence.
Qed.

Lemma same_pointer_eq {A : Type} (eq_dec : forall a b : A, {a = b} + {a <> b})
    (p q : option A) :
  same_pointer eq_dec p q = true -> p = q.
Proof.
  destruct p as [a|], q as [b|]; cbn; try congruence.
  destruct (eq_dec a b); congruence.
Qed.

(** Split a successful sequence of guarded calls into its steps. *)
Ltac posix_inversion :=
  repeat match goal with
         | H : POSIX_GUARD _ _ = S2N_SUCCESS _ |- _ =>
             let x := fresh "x" in
             let Hx := fresh "Hx" in
             apply POSIX_GUARD_success in H; destruct H as (x & Hx & H); cbv beta in H
         | H : POSIX_ENSURE_EQ_Z _ _ = S2N_SUCCESS _ |- _ =>
             apply POSIX_ENSURE_success, Z.eqb_eq in H
         | H : POSIX_ENSURE_NE_Z _ _ = S2N_SUCCESS _ |- _ =>
             apply POSIX_ENSURE_success, negb_true_iff, Z.eqb_neq in H
         | H : POSIX_ENSURE_EQ_bool _ _ = S2N_SUCCESS _ |- _ =>
             apply POSIX_ENSURE_success, Bool.eqb_prop in H
         | H : POSIX_ENSURE_EQ_kem_group _ _ = S2N_SUCCESS _ |- _ =>
             apply POSIX_ENSURE_success, same_pointer_eq in H
         | H : POSIX_ENSURE_EQ_kem _ _ = S2N_SUCCESS _ |- _ =>
             apply POSIX_ENSURE_success, same_pointer_eq in H
         | H : POSIX_ENSURE_EQ_curve _ _ = S2N_SUCCESS _ |- _ =>
             apply POSIX_ENSURE_success, same_pointer_eq in H
         | H : POSIX_ENSURE_REF _ = S2N_SUCCESS _ |- _ =>
             apply POSIX_ENSURE_REF_success in H
         | H : POSIX_ENSURE _ _ = S2N_SUCCESS _ |- _ =>
             apply POSIX_ENSURE_success in H
         end.

(** ** [memcmp] *)

Lemma to_N_inj (a b : uint8_t) : Byte.to_N a = Byte.to_N b -> a = b.
Proof.
  intros H. apply (f_equal Byte.of_N) in H. rewrite !Byte.of_to_N in H. congruence.
Qed.

Lemma memcmp_defined (s1 s2 : list uint8_t) (n : nat) (r : Z) :
  memcmp s1 s2 n = Some r ->
  (n <= List.length s1)%nat /\ (n <= List.length s2)%nat.
Proof.
  revert s1 s2 r. induction n as [|n IH]; intros s1 s2 r; cbn; [lia|].
  destruct s1 as [|b1 r1], s2 as [|b2 r2]; try discriminate.
  intros H. cbn in H.
  assert (Hrec : exists r', memcmp r1 r2 n = Some r').
  { destruct (Byte.to_N b1 <? Byte.to_N b2)%N;
      [|destruct (Byte.to_N b2 <? Byte.to_N b1)%N];
      destruct (memcmp r1 r2 n) as [r'|]; try discriminate; eauto. }
  destruct Hrec as [r' Hr']. destruct (IH _ _ _ Hr'). cbn. lia.
Qed.

Lemma memcmp_zero (s1 s2 : list uint8_t) (n : nat) (r : Z) :
  memcmp s1 s2 n = Some r ->
  (r = 0 <-> firstn n s1 = firstn n s2).
Proof.
  revert s1 s2 r. induction n as [|n IH]; intros s1 s2 r; cbn.
  - intros [= <-]. tauto.
  - destruct s1 as [|b1 r1], s2 as [|b2 r2]; try discriminate. cbn.
    destruct (Byte.to_N b1 <? Byte.to_N b2)%N eqn:Hlt.
    { destruct (memcmp r1 r2 n); [|discriminate]. intros [= <-].
      apply N.ltb_lt in Hlt. split; [discriminate|]. intros [= -> _]. lia. }
    destruct (Byte.to_N b2 <? Byte.to_N b1)%N eqn:Hgt.
    { destruct (memcmp r1 r2 n); [|discriminate]. intros [= <-].
      apply N.ltb_lt in Hgt. split; [discriminate|]. intros [= -> _]. lia. }
    apply N.ltb_ge in Hlt, Hgt.
    assert (b1 = b2) as -> by (apply to_N_inj; lia).
    intros H. rewrite (IH _ _ _ H). split; [congruence | now intros [= ->]].
Qed.

Lemma POSIX_ENSURE_EQ_memcmp_success (s1 s2 : list uint8_t) (n : nat) (u : unit) :
  POSIX_ENSURE_EQ_memcmp 0 (memcmp s1 s2 n) = S2N_SUCCESS u ->
  firstn n s1 = firstn n s2 /\ (n <= List.length s1)%nat /\ (n <= List.length s2)%nat.
Proof.
  unfold POSIX_ENSURE_EQ_memcmp.
  destruct (memcmp s1 s2 n) as [r|] eqn:Hr; [|discriminate].
  intros H. posix_inversion. subst r.
  split; [now apply (memcmp_zero _ _ _ _ Hr) | now apply (memcmp_defined _ _ _ _ Hr)].
Qed.

Lemma POSIX_ENSURE_NE_memcmp_zeros (m n : nat) (s : list uint8_t) (u : unit) :
  POSIX_ENSURE_NE_memcmp 0 (memcmp (repeat Byte.x00 m) s n) = S2N_SUCCESS u ->
  firstn n s <> repeat Byte.x00 n /\ (n <= List.length s)%nat.
Proof.
  unfold POSIX_ENSURE_NE_memcmp.
  destruct (memcmp (repeat Byte.x00 m) s n) as [r|] eqn:Hr; [|discriminate].
  intros H. posix_inversion.
  destruct (memcmp_defined _ _ _ _ Hr) as [Hm Hs]. rewrite repeat_length in Hm.
  split; [|exact Hs]. intros Hzero. apply H. symmetry.
  apply (memcmp_zero _ _ _ _ Hr). rewrite Hzero.
  replace m with (n + (m - n))%nat by lia.
  now rewrite repeat_app, firstn_app, repeat_length, Nat.sub_diag, firstn_0, app_nil_r,
    firstn_all2 by (rewrite repeat_length; lia).
Qed.

Lemma ensure_same_name_success (expected got : string) (u : unit) :
  ensure_same_name expected got = S2N_SUCCESS u -> got = expected.
Proof.
  unfold ensure_same_name. intros H. posix_inversion.
  apply POSIX_ENSURE_EQ_memcmp_success in H. destruct H as (Hfirst & _ & _).
  unfold strlen in *. rewrite Nat2Z.id in Hfirst. apply Nat2Z.inj in Hx.
  unfold bytes_of in Hfirst.
  assert (Hlen : forall s, List.length (list_byte_of_string s) = String.length s).
  { intros s. unfold list_byte_of_string. rewrite length_map.
    induction s; cbn; congruence. }
  rewrite firstn_all2 in Hfirst by (rewrite Hlen; lia).
  rewrite firstn_all2 in Hfirst by (rewrite Hlen; lia).
  apply (f_equal string_of_list_byte) in Hfirst.
  rewrite !string_of_list_byte_of_string in Hfirst. congruence.
Qed.

(** ** The check of the predicted group in the loop over the vectors *)

(** A group that survives the check is available and carries the
    identifier of the predicted group. *)
Lemma ensure_predicted_kem_group_success
    (iana_id : s2n_kem_group -> Z) (is_available : s2n_kem_group -> bool)
    (client_policy server_policy : s2n_security_policy)
    (kem_group : option s2n_kem_group) (g : s2n_kem_group) :
  ensure_predicted_kem_group iana_id is_available client_policy server_policy kem_group
  = S2N_SUCCESS (Some g) ->
  kem_group = Some g
  /\ is_available g = true
  /\ exists predicted_kem_group,
       s2n_get_predicted_negotiated_kem_group iana_id is_available
         (kem_preferences client_policy) (kem_preferences server_policy)
       = Returns (Some predicted_kem_group)
       /\ iana_id predicted_kem_group = iana_id g.
Proof.
  unfold ensure_predicted_kem_group, null_if_unavailable, handed_back.
  destruct kem_group as [g'|]; [|discriminate].
  destruct (is_available g') eqn:Hav; [|discriminate].
  destruct (s2n_get_predicted_negotiated_kem_group iana_id is_available
              (kem_preferences client_policy) (kem_preferences server_policy))
    as [[p|]|]; try discriminate.
  cbn [POSIX_GUARD POSIX_ENSURE_REF]. intros H. posix_inversion. injection H as <-.
  repeat split; [exact Hav|]. exists p. split; [reflexivity | now symmetry].
Qed.

(* ===================================================================== *)
(** * What a successful run of the driver establishes *)
(* ===================================================================== *)

Section Driver.

Variable lib : libs2n.
Variables client_sec_policy server_sec_policy : s2n_security_policy.
Variable expected_kem_group : option s2n_kem_group.
Variable expected_curve : option s2n_ecc_named_curve.
Variables hrr_expected len_prefix_expected : bool.

#[local] Abbreviation checks :=
  (s2n_test_tls13_pq_handshake_checks lib client_sec_policy server_sec_policy
     expected_kem_group expected_curve hrr_expected len_prefix_expected).
#[local] Abbreviation driver :=
  (s2n_test_tls13_pq_handshake lib client_sec_policy server_sec_policy
     expected_kem_group expected_curve hrr_expected len_prefix_expected).

(** The driver succeeds only if every assertion passed. *)
Lemma driver_success :
  driver = S2N_SUCCESS tt ->
  exists after_client_hello after_server_hello resources,
    checks = S2N_SUCCESS (after_client_hello, after_server_hello, resources).
Proof.
  unfold s2n_test_tls13_pq_handshake. intros H.
  apply POSIX_GUARD_success in H. destruct H as ([[w1 w2] r] & H & _). eauto.
Qed.

(** The assertions, one by one. *)
Lemma checks_success after_client_hello after_server_hello resources :
  checks = S2N_SUCCESS (after_client_hello, after_server_hello, resources) ->
  is_null expected_kem_group <> is_null expected_curve
  /\ ensure_server_choice lib client_sec_policy expected_kem_group expected_curve
       len_prefix_expected after_client_hello = S2N_SUCCESS tt
  /\ exchange_server_hello lib hrr_expected after_client_hello
     = S2N_SUCCESS after_server_hello
  /\ ensure_negotiated lib expected_kem_group expected_curve after_server_hello
     = S2N_SUCCESS tt
  /\ ensure_secrets lib after_server_hello = S2N_SUCCESS tt.
Proof.
  unfold s2n_test_tls13_pq_handshake_checks. intros H.
  apply POSIX_GUARD_success in H. destruct H as (u0 & Hxor & H).
  apply POSIX_GUARD_success in H. destruct H as ([w0 r0] & Hsetup & H).
  apply POSIX_GUARD_success in H. destruct H as (w1 & Hhello & H).
  apply POSIX_GUARD_success in H. destruct H as ([] & Hchoice & H).
  apply POSIX_GUARD_success in H. destruct H as (w2 & Hserver & H).
  apply POSIX_GUARD_success in H. destruct H as ([] & Hnegotiated & H).
  apply POSIX_GUARD_success in H. destruct H as ([] & Hsecrets & H).
  injection H as <- <- <-.
  apply POSIX_ENSURE_success, negb_true_iff in Hxor.
  repeat split; try assumption.
  intros Heq. rewrite Heq, Bool.eqb_reflx in Hxor. discriminate.
Qed.

Lemma ensure_negotiated_kem_group_success g conn :
  ensure_negotiated_kem_group g conn = S2N_SUCCESS tt ->
  kem_group (server_kem_group_params (kex_params conn)) = Some g
  /\ kem_params_kem (kem_params (server_kem_group_params (kex_params conn))) = Some (kem g)
  /\ negotiated_curve (ecc_params (server_kem_group_params (kex_params conn)))
     = Some (curve g)
  /\ negotiated_curve (server_ecc_evp_params (kex_params conn)) = None.
Proof.
  unfold ensure_negotiated_kem_group. intros H. posix_inversion. auto.
Qed.

Lemma ensure_negotiated_curve_success c conn :
  ensure_negotiated_curve c conn = S2N_SUCCESS tt ->
  kem_group (server_kem_group_params (kex_params conn)) = None
  /\ kem_params_kem (kem_params (server_kem_group_params (kex_params conn))) = None
  /\ negotiated_curve (ecc_params (server_kem_group_params (kex_params conn))) = None
  /\ negotiated_curve (server_ecc_evp_params (kex_params conn)) = c.
Proof.
  unfold ensure_negotiated_curve. intros H. posix_inversion. auto.
Qed.


(** X17. In a run the driver reports successful, the states of client and
    server after the ServerHello hold, over the [n] bytes of a secret ([n]
    is 32 or 48, by the cipher suite), the same [extract_secret], the same
    [client_handshake_secret] and the same [server_handshake_secret], and
    none of the three is all zero: what the driver's [memcmp] calls compare
    is the first [n] bytes of the 48-byte buffers. *)
Theorem successful_handshake_secrets_agree_and_are_not_zero :
  s2n_test_tls13_pq_handshake lib client_sec_policy server_sec_policy
    expected_kem_group expected_curve hrr_expected len_prefix_expected = S2N_SUCCESS tt ->
  exists after_client_hello after_server_hello resources (n : nat),
    s2n_test_tls13_pq_handshake_checks lib client_sec_policy server_sec_policy
      expected_kem_group expected_curve hrr_expected len_prefix_expected
    = S2N_SUCCESS (after_client_hello, after_server_hello, resources)
    /\ (n = 32 \/ n = 48)%nat
    /\ let client := tls13 (secrets (client_conn after_server_hello)) in
       let server := tls13 (secrets (server_conn after_server_hello)) in
       (firstn n (extract_secret server) = firstn n (extract_secret client)
        /\ firstn n (client_handshake_secret server)
           = firstn n (client_handshake_secret client)
        /\ firstn n (server_handshake_secret server)
           = firstn n (server_handshake_secret client))
       /\ (firstn n (extract_secret client) <> repeat Byte.x00 n
           /\ firstn n (client_handshake_secret client) <> repeat Byte.x00 n
           /\ firstn n (server_handshake_secret client) <> repeat Byte.x00 n)
       /\ (n <= List.length (extract_secret client)
           /\ n <= List.length (client_handshake_secret client)
           /\ n <= List.length (server_handshake_secret client))%nat.
Proof.
  intros Hdriver.
  destruct (driver_success Hdriver) as (w1 & w2 & r & Hchecks).
  destruct (checks_success _ _ _ Hchecks) as (_ & _ & _ & _ & Hsecrets).
  unfold ensure_secrets in Hsecrets.
  apply POSIX_GUARD_success in Hsecrets. destruct Hsecrets as (server_info & _ & H).
  apply POSIX_GUARD_success in H. destruct H as (client_info & _ & H).
  apply POSIX_GUARD_success in H. destruct H as ([] & _ & H).
  apply POSIX_GUARD_success in H. destruct H as ([] & Hsize & H).
  cbv zeta in H.
  apply POSIX_GUARD_success in H. destruct H as ([] & _ & H).
  apply POSIX_GUARD_success in H. destruct H as ([] & _ & H).
  apply POSIX_GUARD_success in H. destruct H as ([] & Hz1 & H).
  apply POSIX_GUARD_success in H. destruct H as ([] & Hz2 & H).
  apply POSIX_GUARD_success in H. destruct H as ([] & Hz3 & H).
  apply POSIX_GUARD_success in H. destruct H as ([] & _ & H).
  apply POSIX_GUARD_success in H. destruct H as ([] & _ & H).
  apply POSIX_GUARD_success in H. destruct H as ([] & _ & H).
  apply POSIX_GUARD_success in H. destruct H as ([] & _ & H).
  apply POSIX_GUARD_success in H. destruct H as ([] & He1 & H).
  apply POSIX_GUARD_success in H. destruct H as ([] & He2 & He3).
  apply POSIX_ENSURE_NE_memcmp_zeros in Hz1, Hz2, Hz3.
  apply POSIX_ENSURE_EQ_memcmp_success in He1, He2, He3.
  exists w1, w2, r, (Z.to_nat (size server_info mod 256)).
  split; [exact Hchecks|]. split.
  - destruct (s2n_cipher_suite_eq_dec (cipher_suite (server_conn w2))
                s2n_tls13_aes_256_gcm_sha384);
      posix_inversion; rewrite Hx; [right | left]; reflexivity.
  - cbv zeta. intuition.
Qed.


End Driver.

(* ===================================================================== *)
(** * Exactly one key exchange *)
(* ===================================================================== *)






(* ===================================================================== *)
(** * The length-prefix flag *)
(* ===================================================================== *)




(* ===================================================================== *)
(** * Runs of the driver on the loopback library *)
(* ===================================================================== *)

(** The vector that pairs a draft-0 client with a draft-5 server. *)
Lemma loopback_draft0_client_succeeds :
  s2n_test_tls13_pq_handshake Loopback.library
    (Loopback.policy kyber_test_prefs_draft0) (Loopback.policy kyber_test_prefs_draft5)
    (Some s2n_x25519_kyber_512_r3) None false true = S2N_SUCCESS tt.
Proof. vm_compute. reflexivity. Qed.

(** With the flag the specification's rule predicts for a draft-0 client,
    the same run fails its length-prefix assertion. *)
Example loopback_draft0_client_not_prefixed_fails :
  s2n_test_tls13_pq_handshake Loopback.library
    (Loopback.policy kyber_test_prefs_draft0) (Loopback.policy kyber_test_prefs_draft5)
    (Some s2n_x25519_kyber_512_r3) None false (spec_len_prefixed kyber_test_prefs_draft0)
  = S2N_FAILURE S2N_ERR_SAFETY.
Proof. vm_compute. reflexivity. Qed.

(** The secrets after that run. *)
Lemma successful_handshake_secrets_agree_and_are_not_zero_witness :
  s2n_test_tls13_pq_handshake Loopback.library
    (Loopback.policy kyber_test_prefs_draft0) (Loopback.policy kyber_test_prefs_draft5)
    (Some s2n_x25519_kyber_512_r3) None false true = S2N_SUCCESS tt
  /\ exists after_client_hello after_server_hello resources (n : nat),
       s2n_test_tls13_pq_handshake_checks Loopback.library
         (Loopback.policy kyber_test_prefs_draft0) (Loopback.policy kyber_test_prefs_draft5)
         (Some s2n_x25519_kyber_512_r3) None false true
       = S2N_SUCCESS (after_client_hello, after_server_hello, resources)
       /\ (n = 32 \/ n = 48)%nat
       /\ let client := tls13 (secrets (client_conn after_server_hello)) in
          let server := tls13 (secrets (server_conn after_server_hello)) in
          (firstn n (extract_secret server) = firstn n (extract_secret client)
           /\ firstn n (client_handshake_secret server)
              = firstn n (client_handshake_secret client)
           /\ firstn n (server_handshake_secret server)
              = firstn n (server_handshake_secret client))
          /\ (firstn n (extract_secret client) <> repeat Byte.x00 n
              /\ firstn n (client_handshake_secret client) <> repeat Byte.x00 n
              /\ firstn n (server_handshake_secret client) <> repeat Byte.x00 n)
          /\ (n <= List.length (extract_secret client)
              /\ n <= List.length (client_handshake_secret client)
              /\ n <= List.length (server_handshake_secret client))%nat.
Proof.
  split; [vm_compute; reflexivity|].
  apply (successful_handshake_secrets_agree_and_are_not_zero Loopback.library).
  vm_compute. reflexivity.
Defined.



(* ===================================================================== *)
(** * The HelloRetryRequest flag *)
(* ===================================================================== *)

(** On the driver's side: right after [s2n_conn_set_handshake_type] the
    server's flag is what the vector expects, and in the retry round the
    client's handshake type carries the flag once it has read the
    HelloRetryRequest. *)
Lemma exchange_server_hello_flag (lib : libs2n) (hrr_expected : bool) (w w' : endpoints) :
  exchange_server_hello lib hrr_expected w = S2N_SUCCESS w' ->
  exists conn,
    s2n_conn_set_handshake_type lib (server_conn w) = S2N_SUCCESS conn
    /\ s2n_handshake_type_check_tls13_flag lib conn (HELLO_RETRY_REQUEST lib) = hrr_expected.
Proof.
  unfold exchange_server_hello. intros H.
  apply POSIX_GUARD_success in H. destruct H as (conn & Hset & H). cbv zeta in H.
  apply POSIX_GUARD_success in H. destruct H as ([] & Hflag & _).
  posix_inversion. exists conn. split; [exact Hset | now symmetry].
Qed.

Lemma hello_retry_round_flag (lib : libs2n) (w w' : endpoints) :
  hello_retry_round lib w = S2N_SUCCESS w' ->
  exists after_hrr conn,
    on_client (s2n_handshake_read_io lib) w = S2N_SUCCESS after_hrr
    /\ s2n_conn_set_handshake_type lib (client_conn after_hrr) = S2N_SUCCESS conn
    /\ Z.land (handshake_type conn) (HELLO_RETRY_REQUEST lib) <> 0.
Proof.
  unfold hello_retry_round. intros H.
  apply POSIX_GUARD_success in H. destruct H as ([] & _ & H).
  apply POSIX_GUARD_success in H. destruct H as (after_hrr & Hread & H).
  apply POSIX_GUARD_success in H. destruct H as (conn & Hset & H). cbv zeta in H.
  apply POSIX_GUARD_success in H. destruct H as ([] & Hflag & _).
  posix_inversion. exists after_hrr, conn.
  split; [exact Hread|]. split; [exact Hset|]. cbn in Hflag. congruence.
Qed.

Section HelloRetryRequestFlag.

Variable hrr : N.

#[local] Abbreviation step := (handshake_step hrr).
#[local] Abbreviation run := (handshake_run hrr).
#[local] Abbreviation retries := (hello_retry_count hrr).

Lemma flag_is_set_set_flag c bit :
  flag_is_set (set_flag c bit) hrr = (N.eqb bit hrr || flag_is_set c hrr).
Proof.
  unfold flag_is_set, set_flag. cbn.
  rewrite Z.setbit_eqb by lia.
  destruct (N.eqb_spec bit hrr) as [->|Hne].
  - now rewrite Z.eqb_refl.
  - destruct (Z.eqb_spec (Z.of_N bit) (Z.of_N hrr)) as [Heq|_]; [|reflexivity].
    apply N2Z.inj in Heq. contradiction.
Qed.

Lemma flag_is_set_goto c s : flag_is_set (goto c s) hrr = flag_is_set c hrr.
Proof. reflexivity. Qed.

(** No transition clears the flag. *)
Lemma step_keeps_flag c e :
  flag_is_set c hrr = true -> flag_is_set (step c e) hrr = true.
Proof.
  intros Hset. unfold handshake_step.
  destruct e as [| [] | | | | | | | bit |], c as [[] [] flags]; cbn [role state];
    rewrite ?flag_is_set_goto, ?flag_is_set_set_flag, ?Hset, ?orb_true_r;
    reflexivity.
Qed.

Lemma run_keeps_flag events c :
  flag_is_set c hrr = true -> flag_is_set (run c events) hrr = true.
Proof.
  revert c. induction events as [|e rest IH]; intros c Hset; [exact Hset|].
  cbn. apply IH, step_keeps_flag, Hset.
Qed.

Lemma step_retry_is_flagged c e :
  retry_is_flagged hrr c -> retry_is_flagged hrr (step c e).
Proof.
  unfold retry_is_flagged, handshake_step. intros Hinv.
  destruct e as [| [] | | | | | | | bit |], c as [[] [] flags]; cbn [role state] in *;
    intros Hrole Hstate; try discriminate;
    rewrite ?flag_is_set_goto, ?flag_is_set_set_flag, ?N.eqb_refl; auto;
    rewrite Hinv by reflexivity; apply orb_true_r.
Qed.

(** A HelloRetryRequest leaves the flag set. *)
Lemma retry_sets_flag c e :
  retry_is_flagged hrr c -> is_hello_retry c e = true ->
  flag_is_set (step c e) hrr = true.
Proof.
  unfold retry_is_flagged, is_hello_retry, handshake_step. intros Hinv.
  destruct e as [| [] | | | | | | | bit |], c as [[] [] flags]; cbn [role state] in *;
    try discriminate; intros _;
    rewrite ?flag_is_set_goto, ?flag_is_set_set_flag, ?N.eqb_refl; auto.
Qed.

Lemma retries_flagged events c :
  retry_is_flagged hrr c -> (1 <= retries c events)%nat ->
  flag_is_set (run c events) hrr = true.
Proof.
  revert c. induction events as [|e rest IH]; intros c Hinv; cbn; [lia|].
  destruct (is_hello_retry c e) eqn:Hretry.
  - intros _. apply run_keeps_flag, retry_sets_flag; assumption.
  - intros Hcount. apply IH; [apply step_retry_is_flagged, Hinv | exact Hcount].
Qed.

(** A HelloRetryRequest uses up the only retry; no step gives one back. *)
Lemma step_may_still_retry c e :
  (is_hello_retry c e = true -> may_still_retry c = true)
  /\ (is_hello_retry c e = true -> may_still_retry (step c e) = false)
  /\ (may_still_retry c = false -> may_still_retry (step c e) = false).
Proof.
  unfold is_hello_retry, may_still_retry, handshake_step.
  destruct e as [| [] | | | | | | | bit |], c as [[] [] flags]; cbn;
    repeat split; intros; congruence.
Qed.

Lemma retries_bounded events c :
  (retries c events <= if may_still_retry c then 1 else 0)%nat.
Proof.
  revert c. induction events as [|e rest IH]; intros c; cbn.
  - destruct (may_still_retry c); lia.
  - specialize (IH (step c e)).
    destruct (step_may_still_retry c e) as (Hbefore & Hafter & Hgone).
    destruct (is_hello_retry c e).
    + rewrite Hbefore, Hafter in * by reflexivity. lia.
    + destruct (may_still_retry c); [|rewrite Hgone in IH by reflexivity];
        destruct (may_still_retry (step c e)); lia.
Qed.

Lemma hello_retry_count_app c events more :
  retries c (events ++ more)
  = (retries c events + retries (run c events) more)%nat.
Proof.
  unfold handshake_run.
  revert c. induction events as [|e rest IH]; intros c; cbn; [reflexivity|].
  rewrite IH. lia.
Qed.

(** On either peer, once a run has seen a HelloRetryRequest the flag is
    set and stays set, and no run sees a second one. *)
Lemma run_flag_persists_and_retry_is_unique
    (r : Role) (events more : list handshake_event) :
  ((1 <= retries (initial_context r) events)%nat ->
   flag_is_set (run (run (initial_context r) events) more) hrr = true)
  /\ (retries (initial_context r) (events ++ more) <= 1)%nat
  /\ ((1 <= retries (initial_context r) events)%nat ->
      retries (run (initial_context r) events) more = 0%nat).
Proof.
  assert (Hinit : retry_is_flagged hrr (initial_context r)).
  { unfold retry_is_flagged. destruct r; cbn; discriminate. }
  assert (Hbound := retries_bounded (events ++ more) (initial_context r)).
  assert (Hone : (retries (initial_context r) (events ++ more) <= 1)%nat).
  { destruct (may_still_retry (initial_context r)); lia. }
  split; [|split].
  - intros Hseen. apply run_keeps_flag, retries_flagged; assumption.
  - exact Hone.
  - intros Hseen. rewrite hello_retry_count_app in Hone. lia.
Qed.

End HelloRetryRequestFlag.

(** In a passing exchange that expects a HelloRetryRequest, the flag is
    set on the server when it has set its handshake type, and on the client
    when it has read the HelloRetryRequest the server wrote. *)
Lemma exchange_server_hello_retry_flags (lib : libs2n) (w w' : endpoints) :
  exchange_server_hello lib true w = S2N_SUCCESS w' ->
  exists server_set sent_hrr sent_ccs after_hrr client_set,
    s2n_conn_set_handshake_type lib (server_conn w) = S2N_SUCCESS server_set
    /\ s2n_handshake_type_check_tls13_flag lib server_set (HELLO_RETRY_REQUEST lib) = true
    /\ on_server (s2n_handshake_write_io lib) (with_server_conn w server_set)
       = S2N_SUCCESS sent_hrr
    /\ on_server (s2n_handshake_write_io lib) sent_hrr = S2N_SUCCESS sent_ccs
    /\ on_client (s2n_handshake_read_io lib) sent_ccs = S2N_SUCCESS after_hrr
    /\ s2n_conn_set_handshake_type lib (client_conn after_hrr) = S2N_SUCCESS client_set
    /\ Z.land (handshake_type client_set) (HELLO_RETRY_REQUEST lib) <> 0.
Proof.
  intros H. destruct (exchange_server_hello_flag _ _ _ _ H) as (server_set & Hset & Hflag).
  unfold exchange_server_hello in H. rewrite Hset in H. cbn [POSIX_GUARD] in H.
  apply POSIX_GUARD_success in H. destruct H as ([] & _ & H).
  apply POSIX_GUARD_success in H. destruct H as (sent_hrr & Hhrr & H).
  apply POSIX_GUARD_success in H. destruct H as ([] & _ & H).
  apply POSIX_GUARD_success in H. destruct H as (sent_ccs & Hccs & H).
  apply POSIX_GUARD_success in H. destruct H as (after_round & Hround & _).
  destruct (hello_retry_round_flag _ _ _ Hround) as (after_hrr & client_set & Hread & Hcset & Hc).
  exists server_set, sent_hrr, sent_ccs, after_hrr, client_set. auto 10.
Qed.

(** C7. In a run of the driver that expects a HelloRetryRequest and
    passes, the [HELLO_RETRY_REQUEST] flag is set on the server once it has
    chosen to retry and on the client once it has read the retry request.
    In the state machine, on either peer, once a run has seen a
    HelloRetryRequest (the server sending it, the client accepting it) the
    flag is set and stays set whatever happens next, and no run sees more
    than one HelloRetryRequest. *)
Theorem hello_retry_request_flag_persists_and_is_unique
    (lib : libs2n) (client_sec_policy server_sec_policy : s2n_security_policy)
    (expected_kem_group : option s2n_kem_group)
    (expected_curve : option s2n_ecc_named_curve) (len_prefix_expected : bool)
    (hrr : N) (r : Role) (events more : list handshake_event) :
  (s2n_test_tls13_pq_handshake lib client_sec_policy server_sec_policy
     expected_kem_group expected_curve true len_prefix_expected = S2N_SUCCESS tt ->
   exists after_client_hello after_server_hello resources
          server_set sent_hrr sent_ccs after_hrr client_set,
     s2n_test_tls13_pq_handshake_checks lib client_sec_policy server_sec_policy
       expected_kem_group expected_curve true len_prefix_expected
     = S2N_SUCCESS (after_client_hello, after_server_hello, resources)
     /\ s2n_conn_set_handshake_type lib (server_conn after_client_hello)
        = S2N_SUCCESS server_set
     /\ s2n_handshake_type_check_tls13_flag lib server_set (HELLO_RETRY_REQUEST lib) = true
     /\ on_server (s2n_handshake_write_io lib) (with_server_conn after_client_hello server_set)
        = S2N_SUCCESS sent_hrr
     /\ on_server (s2n_handshake_write_io lib) sent_hrr = S2N_SUCCESS sent_ccs
     /\ on_client (s2n_handshake_read_io lib) sent_ccs = S2N_SUCCESS after_hrr
     /\ s2n_conn_set_handshake_type lib (client_conn after_hrr) = S2N_SUCCESS client_set
     /\ Z.land (handshake_type client_set) (HELLO_RETRY_REQUEST lib) <> 0)
  /\ ((1 <= hello_retry_count hrr (initial_context r) events)%nat ->
      flag_is_set
        (handshake_run hrr (handshake_run hrr (initial_context r) events) more) hrr = true)
  /\ (hello_retry_count hrr (initial_context r) (events ++ more) <= 1)%nat
  /\ ((1 <= hello_retry_count hrr (initial_context r) events)%nat ->
      hello_retry_count hrr (handshake_run hrr (initial_context r) events) more = 0%nat).
Proof.
  split; [|apply run_flag_persists_and_retry_is_unique].
  intros Hdriver.
  destruct (driver_success _ _ _ _ _ _ _ Hdriver) as (w1 & w2 & res & Hchecks).
  destruct (checks_success _ _ _ _ _ _ _ _ _ _ Hchecks) as (_ & _ & Hexchange & _).
  destruct (exchange_server_hello_retry_flags _ _ _ Hexchange)
    as (server_set & sent_hrr & sent_ccs & after_hrr & client_set & H).
  exists w1, w2, res, server_set, sent_hrr, sent_ccs, after_hrr, client_set.
  split; [exact Hchecks | exact H].
Qed.

(** A run with a HelloRetryRequest: the Kyber-1024 client against the
    Kyber-768 server, and the corresponding run of the state machine. *)
Lemma hello_retry_request_flag_persists_and_is_unique_witness :
  s2n_test_tls13_pq_handshake Loopback.library
    (Loopback.policy kyber1024_test_prefs) (Loopback.policy kyber768_test_prefs)
    (Some s2n_secp256r1_kyber_512_r3) None true false = S2N_SUCCESS tt
  /\ (1 <= hello_retry_count 4 (initial_context Server)
             [recv_client_hello; selected true; message_sent])%nat
  /\ flag_is_set
       (handshake_run 4
          (handshake_run 4 (initial_context Server)
             [recv_client_hello; selected true; message_sent])
          [recv_client_hello; selected false; message_sent; secrets_derived;
           handshake_finished]) 4 = true
  /\ (hello_retry_count 4 (initial_context Server)
        ([recv_client_hello; selected true; message_sent]
         ++ [recv_client_hello; selected false; message_sent; secrets_derived;
             handshake_finished]) <= 1)%nat
  /\ exists server_set client_set,
       s2n_handshake_type_check_tls13_flag Loopback.library server_set
         (HELLO_RETRY_REQUEST Loopback.library) = true
       /\ Z.land (handshake_type client_set) (HELLO_RETRY_REQUEST Loopback.library) <> 0.
Proof.
  assert (Hdriver :
    s2n_test_tls13_pq_handshake Loopback.library
      (Loopback.policy kyber1024_test_prefs) (Loopback.policy kyber768_test_prefs)
      (Some s2n_secp256r1_kyber_512_r3) None true false = S2N_SUCCESS tt)
    by (vm_compute; reflexivity).
  assert (Hseen : (1 <= hello_retry_count 4 (initial_context Server)
                          [recv_client_hello; selected true; message_sent])%nat)
    by (cbn; lia).
  destruct (hello_retry_request_flag_persists_and_is_unique Loopback.library
              (Loopback.policy kyber1024_test_prefs) (Loopback.policy kyber768_test_prefs)
              (Some s2n_secp256r1_kyber_512_r3) None false 4 Server
              [recv_client_hello; selected true; message_sent]
              [recv_client_hello; selected false; message_sent; secrets_derived;
               handshake_finished]) as (Hrun & Hflag & Hone & _).
  destruct (Hrun Hdriver)
    as (w1 & w2 & res & server_set & sent_hrr & sent_ccs & after_hrr & client_set
        & _ & _ & Hserver & _ & _ & _ & _ & Hclient).
  split; [exact Hdriver|]. split; [exact Hseen|].
  split; [exact (Hflag Hseen)|]. split; [exact Hone|].
  exists server_set, client_set. split; [exact Hserver | exact Hclient].
Defined.

(* ===================================================================== *)
(** * Further properties of the two predictions *)
(* ===================================================================== *)

(** ** Lists and identifiers *)

Lemma not_In_None_map_Some {A : Type} (l : list A) : ~ In None (map Some l).
Proof.
  induction l as [|a l IH]; cbn; [tauto|]. intros [H|H]; [discriminate | auto].
Qed.

Lemma available_groups_map_Some (is_available : s2n_kem_group -> bool) l :
  available_groups is_available (map Some l) = filter is_available l.
Proof.
  induction l as [|g l IH]; cbn; [reflexivity|]. now rewrite IH.
Qed.

Lemma find_pointwise {A : Type} (p q : A -> bool) (l : list A) :
  (forall x, p x = q x) -> find p l = find q l.
Proof.
  intros Hpq. induction l as [|a l IH]; cbn; [reflexivity|]. now rewrite Hpq, IH.
Qed.

Lemma existsb_Permutation {A : Type} (p : A -> bool) (l l' : list A) :
  Permutation l l' -> existsb p l = existsb p l'.
Proof.
  induction 1 as [|x l l' _ IH|x y l|l l' l'' _ IH1 _ IH2]; cbn.
  - reflexivity.
  - now rewrite IH.
  - now destruct (p x), (p y).
  - congruence.
Qed.

Lemma filter_Permutation {A : Type} (p : A -> bool) (l l' : list A) :
  Permutation l l' -> Permutation (filter p l) (filter p l').
Proof.
  induction 1 as [|x l l' _ IH|x y l|l l' l'' _ IH1 _ IH2]; cbn.
  - constructor.
  - destruct (p x); [now constructor | exact IH].
  - destruct (p x), (p y); try reflexivity. constructor.
  - now transitivity (filter p l').
Qed.

Lemma id_member_true {A : Type} (id : A -> Z) (x : A) (l : list A) :
  id_member id x l = true <-> exists y, In y l /\ id y = id x.
Proof.
  unfold id_member. rewrite existsb_exists.
  split; intros (y & Hin & Hid); exists y; (split; [exact Hin|]).
  - now apply Z.eqb_eq.
  - now apply Z.eqb_eq.
Qed.

Lemma id_member_false {A : Type} (id : A -> Z) (x : A) (l : list A) :
  id_member id x l = false <-> forall y, In y l -> id y <> id x.
Proof.
  split.
  - intros Hno y Hin Hid.
    assert (Hyes : id_member id x l = true) by (apply id_member_true; eauto).
    congruence.
  - intros Hno. destruct (id_member id x l) eqn:Hyes; [|reflexivity].
    apply id_member_true in Hyes. destruct Hyes as (y & Hin & Hid).
    now destruct (Hno y Hin).
Qed.

(** The second pair of loops answers with the identifier of the first
    entry of [S] that has a match. *)
Lemma server_order_choice_id {A : Type} (id : A -> Z) (rest S : list A) :
  option_map id (server_order_choice id rest S)
  = option_map id (find (fun s => id_member id s rest) S).
Proof.
  unfold server_order_choice.
  destruct (find (fun s => id_member id s rest) S) as [s|] eqn:Hs; [|reflexivity].
  apply find_some in Hs. destruct Hs as [_ Hs].
  destruct (existsb_find _ _ Hs) as [c Hc]. rewrite Hc.
  apply find_some in Hc. destruct Hc as [_ Hc]. apply Z.eqb_eq in Hc.
  cbn. now rewrite Hc.
Qed.

Lemma server_order_choice_None {A : Type} (id : A -> Z) (rest S : list A) :
  server_order_choice id rest S = None
  <-> forall c s, In c rest -> In s S -> id c <> id s.
Proof.
  unfold server_order_choice. split.
  - intros Hnone c s Hc Hs Hid.
    destruct (find (fun s => id_member id s rest) S) as [s'|] eqn:Hfind.
    + apply find_some in Hfind. destruct Hfind as [_ Hmember].
      destruct (existsb_find _ _ Hmember) as [c' Hc']. congruence.
    + apply (find_none _ _ Hfind) in Hs.
      apply (proj1 (id_member_false id s rest) Hs c Hc Hid).
  - intros Hno.
    destruct (find (fun s => id_member id s rest) S) as [s|] eqn:Hfind; [|reflexivity].
    apply find_some in Hfind. destruct Hfind as [Hs Hmember].
    apply id_member_true in Hmember. destruct Hmember as (c & Hc & Hid).
    now destruct (Hno c s Hc Hs).
Qed.

Lemma two_tier_rule_None {A : Type} (id : A -> Z) (C S : list A) :
  two_tier_rule id C S = None
  <-> forall c s, In c C -> In s S -> id c <> id s.
Proof.
  destruct C as [|c0 rest]; cbn; [tauto|].
  destruct (id_member id c0 S) eqn:Hfirst.
  - split; [discriminate|]. intros Hno.
    apply id_member_true in Hfirst. destruct Hfirst as (s & Hs & Hid).
    destruct (Hno c0 s (or_introl eq_refl) Hs). now symmetry.
  - rewrite server_order_choice_None. split.
    + intros Hno c s [<- | Hc] Hs Hid.
      * apply (proj1 (id_member_false id c0 S) Hfirst s Hs). now symmetry.
      * exact (Hno c s Hc Hs Hid).
    + intros Hno c s Hc. apply Hno. now right.
Qed.

(** ** The predicted KEM group on tables without [NULL] entries *)

(** Availability is checked inside the loops: the first loop needs the
    client's first group available, the second pair of loops runs over the
    available entries of both tables. *)
Lemma predicted_kem_group_on_lists
    (iana_id : s2n_kem_group -> Z) (is_available : s2n_kem_group -> bool)
    (r1 r2 : Z) (c0 : s2n_kem_group) (rest S : list s2n_kem_group) :
  s2n_get_predicted_negotiated_kem_group iana_id is_available
    (Some (kem_preferences_of r1 (c0 :: rest))) (Some (kem_preferences_of r2 S))
  = Returns
      (if is_available c0 && id_member iana_id c0 (filter is_available S)
       then Some c0
       else server_order_choice iana_id (filter is_available rest) (filter is_available S)).
Proof.
  unfold s2n_get_predicted_negotiated_kem_group, kem_preferences_of.
  cbn [tls13_kem_groups map first_entry skipn].
  rewrite (one_rtt_loop_unfiltered iana_id is_available c0 (map Some S)
             (not_In_None_map_Some S)), available_groups_map_Some.
  destruct (is_available c0 && id_member iana_id c0 (filter is_available S));
    [reflexivity|].
  rewrite (two_rtt_loop_unfiltered iana_id is_available (map Some rest) (map Some S)
             (not_In_None_map_Some rest) (not_In_None_map_Some S)).
  rewrite !available_groups_map_Some. unfold server_order_choice.
  destruct (find (fun s => id_member iana_id s (filter is_available rest))
              (filter is_available S)) as [s|]; [|reflexivity].
  now destruct (find (fun c => iana_id c =? iana_id s) (filter is_available rest)).
Qed.

(** X1. On tables without [NULL] entries and a client table that is not
    empty, [s2n_get_predicted_negotiated_kem_group] returns [NULL] exactly
    when no available group of the client carries the identifier of an
    available group of the server: together with the soundness of a
    returned group, the two loops miss no mutually available group.  (Of
    an empty client table the function reads entry 0 all the same.) *)
Theorem predicted_kem_group_is_null_iff
    (iana_id : s2n_kem_group -> Z) (is_available : s2n_kem_group -> bool)
    (r1 r2 : Z) (C S : list s2n_kem_group) :
  C <> [] ->
  (s2n_get_predicted_negotiated_kem_group iana_id is_available
     (Some (kem_preferences_of r1 C)) (Some (kem_preferences_of r2 S)) = Returns None
   <-> (forall c s, In c C -> In s S ->
                    is_available c = true -> is_available s = true ->
                    iana_id c <> iana_id s)).
Proof.
  intros Hnonempty. destruct C as [|c0 rest]; [now destruct Hnonempty|].
  rewrite predicted_kem_group_on_lists. split.
  - intros Hnone c s Hc Hs Hac Has Hid. injection Hnone as Hnone.
    assert (Hs' : In s (filter is_available S)) by (apply filter_In; auto).
    destruct Hc as [-> | Hc].
    + assert (Hm : id_member iana_id c (filter is_available S) = true)
        by (apply id_member_true; exists s; auto).
      rewrite Hac, Hm in Hnone. discriminate.
    + destruct (is_available c0 && id_member iana_id c0 (filter is_available S));
        [discriminate|].
      apply (proj1 (server_order_choice_None _ _ _) Hnone c s); auto.
      apply filter_In; auto.
  - intros Hno. f_equal.
    destruct (is_available c0 && id_member iana_id c0 (filter is_available S)) eqn:Hfirst.
    + exfalso. apply andb_true_iff in Hfirst. destruct Hfirst as [Hac Hm].
      apply id_member_true in Hm. destruct Hm as (s & Hs & Hid).
      apply filter_In in Hs. destruct Hs as [Hs Has].
      apply (Hno c0 s (or_introl eq_refl) Hs Hac Has). now symmetry.
    + apply server_order_choice_None. intros c s Hc Hs Hid.
      apply filter_In in Hc, Hs. destruct Hc as [Hc Hac], Hs as [Hs Has].
      exact (Hno c s (or_intror Hc) Hs Hac Has Hid).
Qed.

(** Two Kyber tables with no group in common. *)
Lemma predicted_kem_group_is_null_iff_witness :
  [s2n_secp384r1_kyber_768_r3; s2n_secp256r1_kyber_768_r3] <> []
  /\ s2n_get_predicted_negotiated_kem_group Loopback.iana_id (fun _ => true)
       (Some (kem_preferences_of 5 [s2n_secp384r1_kyber_768_r3; s2n_secp256r1_kyber_768_r3]))
       (Some (kem_preferences_of 5 [s2n_secp521r1_kyber_1024_r3])) = Returns None.
Proof.
  split; [discriminate|].
  apply (proj2 (predicted_kem_group_is_null_iff Loopback.iana_id (fun _ => true) 5 5
                  [s2n_secp384r1_kyber_768_r3; s2n_secp256r1_kyber_768_r3]
                  [s2n_secp521r1_kyber_1024_r3] ltac:(discriminate))).
  intros c s [<- | [<- | []]] [<- | []] _ _; vm_compute; discriminate.
Defined.

(** X2. [NULL] in, [NULL] out.  The prediction is [NULL] when a
    preference set is [NULL] and when entry 0 of the client's table is the
    [NULL] pointer.  When the server's table holds a [NULL] entry, the
    first loop never falls through to the second pair of loops: the
    prediction is the client's first group or [NULL], and it is [NULL] when
    no match of the client's first group comes before the first [NULL]
    entry, whatever follows it. *)
Theorem predicted_kem_group_null_entries
    (iana_id : s2n_kem_group -> Z) (is_available : s2n_kem_group -> bool) :
  (forall client_prefs server_prefs,
      client_prefs = None \/ server_prefs = None ->
      s2n_get_predicted_negotiated_kem_group iana_id is_available client_prefs server_prefs
      = Returns None)
  /\ (forall client_prefs server_prefs,
         first_entry (tls13_kem_groups client_prefs) = Some None ->
         s2n_get_predicted_negotiated_kem_group iana_id is_available
           (Some client_prefs) (Some server_prefs) = Returns None)
  /\ (forall client_prefs server_prefs c0,
         first_entry (tls13_kem_groups client_prefs) = Some (Some c0) ->
         In None (tls13_kem_groups server_prefs) ->
         s2n_get_predicted_negotiated_kem_group iana_id is_available
           (Some client_prefs) (Some server_prefs) = Returns (Some c0)
         \/ s2n_get_predicted_negotiated_kem_group iana_id is_available
              (Some client_prefs) (Some server_prefs) = Returns None)
  /\ (forall client_prefs server_prefs c0 before after,
         first_entry (tls13_kem_groups client_prefs) = Some (Some c0) ->
         tls13_kem_groups server_prefs = map Some before ++ None :: after ->
         (forall s, In s before ->
                    is_available c0 && is_available s && (iana_id c0 =? iana_id s) = false) ->
         s2n_get_predicted_negotiated_kem_group iana_id is_available
           (Some client_prefs) (Some server_prefs) = Returns None).
Proof.
  split; [|split; [|split]].
  - intros client_prefs server_prefs [-> | ->]; [reflexivity|]. now destruct client_prefs.
  - intros client_prefs server_prefs Hfirst.
    unfold s2n_get_predicted_negotiated_kem_group. now rewrite Hfirst.
  - intros client_prefs server_prefs c0 Hfirst Hnull.
    unfold s2n_get_predicted_negotiated_kem_group. rewrite Hfirst. clear Hfirst.
    assert (Hloop : kem_group_one_rtt_loop iana_id is_available c0
                      (tls13_kem_groups server_prefs) = Some (Some c0)
                    \/ kem_group_one_rtt_loop iana_id is_available c0
                         (tls13_kem_groups server_prefs) = Some None).
    { induction (tls13_kem_groups server_prefs) as [|[s|] table IH]; cbn.
      - contradiction.
      - destruct (is_available c0 && is_available s && (iana_id c0 =? iana_id s)
                  && is_available c0); [now left|].
        apply IH. destruct Hnull as [H | H]; [discriminate | exact H].
      - now right. }
    destruct Hloop as [-> | ->]; auto.
  - intros client_prefs server_prefs c0 before after Hfirst Hserver Hbefore.
    unfold s2n_get_predicted_negotiated_kem_group. rewrite Hfirst, Hserver.
    clear Hfirst Hserver.
    assert (Hloop : kem_group_one_rtt_loop iana_id is_available c0
                      (map Some before ++ None :: after) = Some None).
    { induction before as [|s before IH]; cbn; [reflexivity|].
      rewrite (Hbefore s (or_introl eq_refl)). cbn.
      apply IH. intros s' Hs'. apply Hbefore. now right. }
    now rewrite Hloop.
Qed.

(** A server table whose only match of the client's group lies behind a
    [NULL] entry. *)
Lemma predicted_kem_group_null_entries_witness :
  s2n_get_predicted_negotiated_kem_group Loopback.iana_id (fun _ => true)
    (Some {| tls13_kem_groups := [Some s2n_secp256r1_kyber_768_r3];
             tls13_pq_hybrid_draft_revision := 5 |})
    (Some {| tls13_kem_groups := [Some s2n_secp384r1_kyber_768_r3; None;
                                  Some s2n_secp256r1_kyber_768_r3];
             tls13_pq_hybrid_draft_revision := 5 |}) = Returns None.
Proof.
  destruct (predicted_kem_group_null_entries Loopback.iana_id (fun _ => true))
    as (_ & _ & _ & Hnull).
  apply (Hnull _ _ s2n_secp256r1_kyber_768_r3 [s2n_secp384r1_kyber_768_r3]
           [Some s2n_secp256r1_kyber_768_r3]).
  - reflexivity.
  - reflexivity.
  - intros s [<- | []]. vm_compute. reflexivity.
Defined.

(** X3. Self-talk: against its own preference set, a peer is predicted to
    negotiate its first group whenever that group is available, whatever
    else the table holds ([NULL] entries included): the first iteration of
    the first loop already returns. *)
Theorem predicted_kem_group_self_talk
    (iana_id : s2n_kem_group -> Z) (is_available : s2n_kem_group -> bool)
    (prefs : s2n_kem_preferences) (c0 : s2n_kem_group) :
  first_entry (tls13_kem_groups prefs) = Some (Some c0) ->
  is_available c0 = true ->
  s2n_get_predicted_negotiated_kem_group iana_id is_available (Some prefs) (Some prefs)
  = Returns (Some c0).
Proof.
  intros Hfirst Hav. unfold s2n_get_predicted_negotiated_kem_group. rewrite Hfirst.
  destruct (tls13_kem_groups prefs) as [|e table]; [discriminate|].
  cbn in Hfirst. injection Hfirst as ->. cbn. now rewrite Hav, Z.eqb_refl.
Qed.

(** The Kyber test preferences against themselves. *)
Lemma predicted_kem_group_self_talk_witness :
  first_entry (tls13_kem_groups kyber_test_prefs_draft5)
  = Some (Some s2n_x25519_kyber_512_r3)
  /\ s2n_get_predicted_negotiated_kem_group Loopback.iana_id
       (s2n_kem_group_is_available Loopback.full_provider)
       (Some kyber_test_prefs_draft5) (Some kyber_test_prefs_draft5)
     = Returns (Some s2n_x25519_kyber_512_r3).
Proof.
  split; [reflexivity|].
  apply (predicted_kem_group_self_talk Loopback.iana_id
           (s2n_kem_group_is_available Loopback.full_provider)
           kyber_test_prefs_draft5 s2n_x25519_kyber_512_r3); reflexivity.
Defined.

(** X4. Beyond its first entry the order of the client's table does not
    matter, nor does the draft revision of either side: on tables without
    [NULL] entries, permuting the client's entries from index 1 on leaves
    the identifier of the predicted group unchanged.  The second pair of
    loops follows the order of the server alone. *)
Theorem predicted_kem_group_ignores_client_order
    (iana_id : s2n_kem_group -> Z) (is_available : s2n_kem_group -> bool)
    (r1 r1' r2 r2' : Z) (c0 : s2n_kem_group) (rest rest' S : list s2n_kem_group) :
  Permutation rest rest' ->
  outcome_map iana_id
    (s2n_get_predicted_negotiated_kem_group iana_id is_available
       (Some (kem_preferences_of r1 (c0 :: rest))) (Some (kem_preferences_of r2 S)))
  = outcome_map iana_id
      (s2n_get_predicted_negotiated_kem_group iana_id is_available
         (Some (kem_preferences_of r1' (c0 :: rest'))) (Some (kem_preferences_of r2' S))).
Proof.
  intros Hperm. rewrite !predicted_kem_group_on_lists. cbn [outcome_map]. f_equal.
  destruct (is_available c0 && id_member iana_id c0 (filter is_available S));
    [reflexivity|].
  rewrite !server_order_choice_id. f_equal. apply find_pointwise.
  intros s. apply existsb_Permutation, filter_Permutation, Hperm.
Qed.

(** The client of the HelloRetryRequest vector with its last two groups
    exchanged. *)
Lemma predicted_kem_group_ignores_client_order_witness :
  Permutation [s2n_secp384r1_kyber_768_r3; s2n_secp256r1_kyber_512_r3]
              [s2n_secp256r1_kyber_512_r3; s2n_secp384r1_kyber_768_r3]
  /\ outcome_map Loopback.iana_id
       (s2n_get_predicted_negotiated_kem_group Loopback.iana_id (fun _ => true)
          (Some (kem_preferences_of 5
                   [s2n_secp521r1_kyber_1024_r3; s2n_secp384r1_kyber_768_r3;
                    s2n_secp256r1_kyber_512_r3]))
          (Some (kem_preferences_of 5
                   [s2n_secp256r1_kyber_512_r3; s2n_secp384r1_kyber_768_r3])))
     = outcome_map Loopback.iana_id
         (s2n_get_predicted_negotiated_kem_group Loopback.iana_id (fun _ => true)
            (Some (kem_preferences_of 0
                     [s2n_secp521r1_kyber_1024_r3; s2n_secp256r1_kyber_512_r3;
                      s2n_secp384r1_kyber_768_r3]))
            (Some (kem_preferences_of 0
                     [s2n_secp256r1_kyber_512_r3; s2n_secp384r1_kyber_768_r3]))).
Proof.
  split; [apply perm_swap|].
  apply (predicted_kem_group_ignores_client_order Loopback.iana_id (fun _ => true)).
  apply perm_swap.
Defined.

(** ** The predicted curve *)

(** X5. A curve [s2n_get_predicted_negotiated_ecdhe_curve] returns is an
    entry of the client's curve table, and an entry of the server's curve
    table carries its identifier, for arbitrary tables ([NULL] entries
    included) and any assignment of identifiers. *)
Theorem predicted_curve_is_listed_by_both
    (ecc_iana_id : s2n_ecc_named_curve -> Z)
    (client_sec_policy server_sec_policy : s2n_security_policy)
    (c : s2n_ecc_named_curve) :
  s2n_get_predicted_negotiated_ecdhe_curve ecc_iana_id
    (Some client_sec_policy) (Some server_sec_policy) = Returns (Some c) ->
  In (Some c) (ecc_curves (ecc_preferences client_sec_policy))
  /\ exists s, In (Some s) (ecc_curves (ecc_preferences server_sec_policy))
              /\ ecc_iana_id s = ecc_iana_id c.
Proof.
  apply predicted_curve_sound.
Qed.

(** X6. The 1-RTT tier of the curve prediction: when an entry of the
    server's table carries the identifier of the client's first curve and
    no [NULL] entry precedes it, the client's first curve is returned,
    wherever the server ranks it and whatever follows it in either
    table. *)
Theorem predicted_curve_prefers_client_default
    (ecc_iana_id : s2n_ecc_named_curve -> Z)
    (client_sec_policy server_sec_policy : s2n_security_policy)
    (c0 s : s2n_ecc_named_curve) (before : list s2n_ecc_named_curve)
    (after : list (option s2n_ecc_named_curve)) :
  first_entry (ecc_curves (ecc_preferences client_sec_policy)) = Some (Some c0) ->
  ecc_curves (ecc_preferences server_sec_policy) = map Some before ++ Some s :: after ->
  ecc_iana_id s = ecc_iana_id c0 ->
  s2n_get_predicted_negotiated_ecdhe_curve ecc_iana_id
    (Some client_sec_policy) (Some server_sec_policy) = Returns (Some c0).
Proof.
  intros Hfirst Hserver Hid. unfold s2n_get_predicted_negotiated_ecdhe_curve.
  rewrite Hfirst, Hserver. clear Hfirst Hserver.
  assert (Hloop : ecdhe_curve_one_rtt_loop ecc_iana_id c0 (map Some before ++ Some s :: after)
                  = Some (Some c0)).
  { induction before as [|b before IH]; cbn.
    - now rewrite Hid, Z.eqb_refl.
    - rewrite IH. now destruct (ecc_iana_id b =? ecc_iana_id c0). }
  now rewrite Hloop.
Qed.

(** A client that prefers x25519 against a server that prefers secp256r1
    and keeps a [NULL] entry at the end of its table. *)
Lemma predicted_curve_prefers_client_default_witness :
  let client :=
    {| minimum_protocol_version := 34; kem_preferences := None;
       ecc_preferences :=
         {| ecc_curves := [Some s2n_ecc_curve_x25519; Some s2n_ecc_curve_secp256r1] |} |} in
  let server :=
    {| minimum_protocol_version := 34; kem_preferences := None;
       ecc_preferences :=
         {| ecc_curves := [Some s2n_ecc_curve_secp256r1; Some s2n_ecc_curve_x25519;
                           None] |} |} in
  s2n_get_predicted_negotiated_ecdhe_curve Loopback.ecc_iana_id (Some client) (Some server)
  = Returns (Some s2n_ecc_curve_x25519).
Proof.
  intros client server.
  apply (predicted_curve_prefers_client_default Loopback.ecc_iana_id client server
           s2n_ecc_curve_x25519 s2n_ecc_curve_x25519 [s2n_ecc_curve_secp256r1] [None]);
    reflexivity.
Defined.

(** A client whose first curve the server does not list: the curve comes
    from the second pair of loops. *)
Lemma predicted_curve_is_listed_by_both_witness :
  let client :=
    {| minimum_protocol_version := 34; kem_preferences := None;
       ecc_preferences :=
         {| ecc_curves := [Some s2n_ecc_curve_x25519; Some s2n_ecc_curve_secp384r1;
                           Some s2n_ecc_curve_secp256r1] |} |} in
  let server :=
    {| minimum_protocol_version := 34; kem_preferences := None;
       ecc_preferences :=
         {| ecc_curves := [Some s2n_ecc_curve_secp256r1; Some s2n_ecc_curve_secp384r1] |} |} in
  s2n_get_predicted_negotiated_ecdhe_curve Loopback.ecc_iana_id (Some client) (Some server)
  = Returns (Some s2n_ecc_curve_secp256r1)
  /\ In (Some s2n_ecc_curve_secp256r1) (ecc_curves (ecc_preferences client))
  /\ exists s, In (Some s) (ecc_curves (ecc_preferences server))
              /\ Loopback.ecc_iana_id s = Loopback.ecc_iana_id s2n_ecc_curve_secp256r1.
Proof.
  intros client server. split; [reflexivity|].
  apply (predicted_curve_is_listed_by_both Loopback.ecc_iana_id client server).
  reflexivity.
Defined.

(** X7. On curve tables without [NULL] entries and a client table that
    is not empty (the loop over the test vectors checks the count before
    it calls), the curve prediction is [NULL] exactly when no curve of the
    client carries the identifier of a curve of the server. *)
Theorem predicted_curve_is_null_iff
    (ecc_iana_id : s2n_ecc_named_curve -> Z)
    (client_sec_policy server_sec_policy : s2n_security_policy)
    (C S : list s2n_ecc_named_curve) :
  ecc_curves (ecc_preferences client_sec_policy) = map Some C ->
  ecc_curves (ecc_preferences server_sec_policy) = map Some S ->
  (0 < count (ecc_preferences client_sec_policy))%nat ->
  (s2n_get_predicted_negotiated_ecdhe_curve ecc_iana_id
     (Some client_sec_policy) (Some server_sec_policy) = Returns None
   <-> forall c s, In c C -> In s S -> ecc_iana_id c <> ecc_iana_id s).
Proof.
  intros HC HS Hcount. rewrite (predicted_curve_listed ecc_iana_id _ _ C S HC HS).
  rewrite <- (two_tier_rule_None ecc_iana_id C S).
  unfold count in Hcount. rewrite HC in Hcount.
  destruct C as [|c0 rest]; [cbn in Hcount; lia|].
  cbn [two_tier_rule]. unfold server_order_choice.
  split; [now intros [= ->] | now intros ->].
Qed.

(** An x25519-only client against a server with the NIST curves. *)
Lemma predicted_curve_is_null_iff_witness :
  let client :=
    {| minimum_protocol_version := 34; kem_preferences := None;
       ecc_preferences := {| ecc_curves := [Some s2n_ecc_curve_x25519] |} |} in
  let server :=
    {| minimum_protocol_version := 34; kem_preferences := None;
       ecc_preferences :=
         {| ecc_curves := [Some s2n_ecc_curve_secp256r1; Some s2n_ecc_curve_secp384r1] |} |} in
  (0 < count (ecc_preferences client))%nat
  /\ s2n_get_predicted_negotiated_ecdhe_curve Loopback.ecc_iana_id (Some client) (Some server)
     = Returns None.
Proof.
  intros client server. split; [cbn; lia|].
  apply (proj2 (predicted_curve_is_null_iff Loopback.ecc_iana_id client server
                  [s2n_ecc_curve_x25519]
                  [s2n_ecc_curve_secp256r1; s2n_ecc_curve_secp384r1] eq_refl eq_refl
                  ltac:(cbn; lia))).
  intros c s [<- | []] [<- | [<- | []]]; vm_compute; discriminate.
Defined.

(** ** The two predictions side by side *)

Lemma id_member_map {A : Type} (id : A -> Z) (x : A) (l : list A) :
  id_member id x l = id_member (fun z => z) (id x) (map id l).
Proof.
  unfold id_member. induction l as [|a l IH]; cbn; [reflexivity|]. now rewrite IH.
Qed.

Lemma find_map_id {A : Type} (id : A -> Z) (p : Z -> bool) (l : list A) :
  option_map id (find (fun s => p (id s)) l) = find p (map id l).
Proof.
  induction l as [|a l IH]; cbn; [reflexivity|]. now destruct (p (id a)).
Qed.

(** The identifier of the outcome of the rule is the outcome of the rule
    on the identifiers. *)
Lemma two_tier_rule_ids {A : Type} (id : A -> Z) (C S : list A) :
  option_map id (two_tier_rule id C S) = two_tier_rule (fun z => z) (map id C) (map id S).
Proof.
  destruct C as [|c0 rest]; cbn; [reflexivity|].
  rewrite <- id_member_map. destruct (id_member id c0 S); [reflexivity|].
  rewrite server_order_choice_id.
  rewrite (find_pointwise _ (fun s => id_member (fun z => z) (id s) (map id rest)))
    by (intros s; apply id_member_map).
  rewrite (find_map_id id (fun z => id_member (fun z => z) z (map id rest))).
  pose proof (server_order_choice_id (fun z : Z => z) (map id rest) (map id S)) as Hid.
  destruct (server_order_choice (fun z => z) (map id rest) (map id S)) as [z|];
    destruct (find (fun s => id_member (fun z => z) s (map id rest)) (map id S)) as [z'|];
    cbn in Hid; congruence.
Qed.

(** X8. The curve prediction is the KEM-group prediction with every group
    available: on tables without [NULL] entries that carry the same
    identifiers in the same order, the two functions predict the same
    identifier, or both predict nothing. *)
Theorem predicted_curve_agrees_with_predicted_kem_group
    (iana_id : s2n_kem_group -> Z) (ecc_iana_id : s2n_ecc_named_curve -> Z)
    (r1 r2 : Z) (client_groups server_groups : list s2n_kem_group)
    (client_sec_policy server_sec_policy : s2n_security_policy)
    (client_curves server_curves : list s2n_ecc_named_curve) :
  ecc_curves (ecc_preferences client_sec_policy) = map Some client_curves ->
  ecc_curves (ecc_preferences server_sec_policy) = map Some server_curves ->
  map iana_id client_groups = map ecc_iana_id client_curves ->
  map iana_id server_groups = map ecc_iana_id server_curves ->
  outcome_map iana_id
    (s2n_get_predicted_negotiated_kem_group iana_id (fun _ => true)
       (Some (kem_preferences_of r1 client_groups))
       (Some (kem_preferences_of r2 server_groups)))
  = outcome_map ecc_iana_id
      (s2n_get_predicted_negotiated_ecdhe_curve ecc_iana_id
         (Some client_sec_policy) (Some server_sec_policy)).
Proof.
  intros HC HS Hclient Hserver.
  rewrite (predicted_filtered iana_id (fun _ => true) r1 r2 client_groups server_groups)
    by (apply Forall_forall; reflexivity).
  rewrite (predicted_curve_listed ecc_iana_id _ _ client_curves server_curves HC HS).
  pose proof (two_tier_rule_ids iana_id client_groups server_groups) as Hgroups.
  pose proof (two_tier_rule_ids ecc_iana_id client_curves server_curves) as Hcurves.
  rewrite Hclient, Hserver, <- Hcurves in Hgroups.
  destruct client_groups as [|g groups], client_curves as [|c curves];
    try discriminate Hclient; [reflexivity|].
  cbn [outcome_map]. f_equal. exact Hgroups.
Qed.

(** Groups identified by their curves, against the curves themselves: the
    client's first choice is the server's second. *)
Lemma predicted_curve_agrees_with_predicted_kem_group_witness :
  let id := fun g => Loopback.ecc_iana_id (curve g) in
  let client :=
    {| minimum_protocol_version := 34; kem_preferences := None;
       ecc_preferences :=
         {| ecc_curves := [Some s2n_ecc_curve_x25519; Some s2n_ecc_curve_secp256r1] |} |} in
  let server :=
    {| minimum_protocol_version := 34; kem_preferences := None;
       ecc_preferences :=
         {| ecc_curves := [Some s2n_ecc_curve_secp256r1; Some s2n_ecc_curve_x25519] |} |} in
  map id [s2n_x25519_kyber_512_r3; s2n_secp256r1_kyber_512_r3]
  = map Loopback.ecc_iana_id [s2n_ecc_curve_x25519; s2n_ecc_curve_secp256r1]
  /\ outcome_map id
       (s2n_get_predicted_negotiated_kem_group id (fun _ => true)
          (Some (kem_preferences_of 5 [s2n_x25519_kyber_512_r3; s2n_secp256r1_kyber_512_r3]))
          (Some (kem_preferences_of 5 [s2n_secp256r1_kyber_512_r3; s2n_x25519_kyber_512_r3])))
     = outcome_map Loopback.ecc_iana_id
         (s2n_get_predicted_negotiated_ecdhe_curve Loopback.ecc_iana_id
            (Some client) (Some server)).
Proof.
  intros id client server. split; [reflexivity|].
  apply (predicted_curve_agrees_with_predicted_kem_group id Loopback.ecc_iana_id 5 5
           [s2n_x25519_kyber_512_r3; s2n_secp256r1_kyber_512_r3]
           [s2n_secp256r1_kyber_512_r3; s2n_x25519_kyber_512_r3]
           client server
           [s2n_ecc_curve_x25519; s2n_ecc_curve_secp256r1]
           [s2n_ecc_curve_secp256r1; s2n_ecc_curve_x25519]); reflexivity.
Defined.

(* ===================================================================== *)
(** * Further properties of the loop over the test vectors *)
(* ===================================================================== *)

(** X9. The group the loop over the vectors hands to the driver is
    mutually supported: when the check of the predicted group leaves a
    group [g], both policies have KEM preferences, [g] is available, an
    available entry of the client's table and an available entry of the
    server's table carry the identifier of [g].  An expected group that is
    [NULL] or not available is dropped without consulting the prediction. *)
Theorem checked_kem_group_is_mutually_supported
    (iana_id : s2n_kem_group -> Z) (is_available : s2n_kem_group -> bool)
    (client_policy server_policy : s2n_security_policy)
    (kem_group : option s2n_kem_group) :
  (forall g,
      ensure_predicted_kem_group iana_id is_available client_policy server_policy kem_group
      = S2N_SUCCESS (Some g) ->
      kem_group = Some g
      /\ is_available g = true
      /\ (exists c, In (Some c) (policy_kem_groups client_policy)
                    /\ is_available c = true /\ iana_id c = iana_id g)
      /\ (exists s, In (Some s) (policy_kem_groups server_policy)
                    /\ is_available s = true /\ iana_id s = iana_id g))
  /\ (null_if_unavailable is_available kem_group = None ->
      ensure_predicted_kem_group iana_id is_available client_policy server_policy kem_group
      = S2N_SUCCESS None).
Proof.
  split.
  - intros g Hcheck.
    destruct (ensure_predicted_kem_group_success _ _ _ _ _ _ Hcheck)
      as (Hgroup & Hav & p & Hp & Hid).
    unfold policy_kem_groups.
    destruct (kem_preferences client_policy) as [client_prefs|]; [|discriminate].
    destruct (kem_preferences server_policy) as [server_prefs|]; [|discriminate].
    destruct (predicted_sound _ _ _ _ _ Hp) as (Hin & Hpav & s & Hs & Hsav & Hsid).
    repeat split; try assumption.
    + exists p. auto.
    + exists s. repeat split; [exact Hs | exact Hsav | congruence].
  - unfold ensure_predicted_kem_group. now intros ->.
Qed.

(** The HelloRetryRequest vector of the Kyber-1024 client and the
    Kyber-768 server, and a vector whose group an older provider lacks. *)
Lemma checked_kem_group_is_mutually_supported_witness :
  ensure_predicted_kem_group Loopback.iana_id
    (s2n_kem_group_is_available Loopback.full_provider)
    (Loopback.policy kyber1024_test_prefs) (Loopback.policy kyber768_test_prefs)
    (Some s2n_secp256r1_kyber_512_r3) = S2N_SUCCESS (Some s2n_secp256r1_kyber_512_r3)
  /\ (exists s, In (Some s) (policy_kem_groups (Loopback.policy kyber768_test_prefs))
                /\ s2n_kem_group_is_available Loopback.full_provider s = true
                /\ Loopback.iana_id s = Loopback.iana_id s2n_secp256r1_kyber_512_r3)
  /\ ensure_predicted_kem_group Loopback.iana_id
       (s2n_kem_group_is_available Loopback.older_provider)
       (Loopback.policy kyber_test_prefs_draft5) (Loopback.policy kyber_test_prefs_draft5)
       (Some s2n_x25519_kyber_512_r3) = S2N_SUCCESS None.
Proof.
  split; [vm_compute; reflexivity|]. split.
  - destruct (checked_kem_group_is_mutually_supported Loopback.iana_id
                (s2n_kem_group_is_available Loopback.full_provider)
                (Loopback.policy kyber1024_test_prefs) (Loopback.policy kyber768_test_prefs)
                (Some s2n_secp256r1_kyber_512_r3)) as [Hchecked _].
    destruct (Hchecked s2n_secp256r1_kyber_512_r3) as (_ & _ & _ & Hserver);
      [vm_compute; reflexivity | exact Hserver].
  - destruct (checked_kem_group_is_mutually_supported Loopback.iana_id
                (s2n_kem_group_is_available Loopback.older_provider)
                (Loopback.policy kyber_test_prefs_draft5)
                (Loopback.policy kyber_test_prefs_draft5)
                (Some s2n_x25519_kyber_512_r3)) as [_ Hdropped].
    apply Hdropped. reflexivity.
Defined.

(** X10. With PQ disabled, the curve the loop over the vectors hands to
    the driver is never [NULL]: it is [secp256r1], the client's first
    curve or the curve of the vector, it carries the identifier of the
    predicted curve, and so an entry of the client's table and an entry of
    the server's table carry its identifier. *)
Theorem checked_curve_is_listed_by_both
    (ecc_iana_id : s2n_ecc_named_curve -> Z)
    (s2n_ecc_preferences_includes_curve : s2n_ecc_preferences -> Z -> bool)
    (s2n_security_policy_supports_tls13 : s2n_security_policy -> bool)
    (lc : libcrypto) (client_policy server_policy : s2n_security_policy)
    (curve handed : option s2n_ecc_named_curve) :
  s2n_pq_is_enabled lc = false ->
  ensure_predicted_curve ecc_iana_id s2n_ecc_preferences_includes_curve
    s2n_security_policy_supports_tls13 lc client_policy server_policy curve
  = S2N_SUCCESS handed ->
  exists c predicted,
    handed = Some c
    /\ (c = s2n_ecc_curve_secp256r1
        \/ first_entry (ecc_curves (ecc_preferences client_policy)) = Some (Some c)
        \/ curve = Some c)
    /\ s2n_get_predicted_negotiated_ecdhe_curve ecc_iana_id
         (Some client_policy) (Some server_policy) = Returns (Some predicted)
    /\ ecc_iana_id c = ecc_iana_id predicted
    /\ In (Some predicted) (ecc_curves (ecc_preferences client_policy))
    /\ exists s, In (Some s) (ecc_curves (ecc_preferences server_policy))
                /\ ecc_iana_id s = ecc_iana_id c.
Proof.
  intros Hpq. unfold ensure_predicted_curve. rewrite Hpq. intros H.
  apply POSIX_GUARD_success in H. destruct H as ([] & _ & H).
  apply POSIX_GUARD_success in H. destruct H as (client_default & Hdefault & H).
  apply POSIX_GUARD_success in H. destruct H as (predicted_curve & Hpredicted & H).
  apply POSIX_GUARD_success in H. destruct H as (fallback & Hfallback & H).
  apply POSIX_GUARD_success in H. destruct H as (chosen & Hchosen & H).
  apply POSIX_GUARD_success in H. destruct H as (c & Hc & H).
  apply POSIX_GUARD_success in H. destruct H as (p & Hp & H).
  apply POSIX_GUARD_success in H. destruct H as ([] & Hid & H).
  injection H as <-.
  apply POSIX_ENSURE_REF_success in Hc, Hp. subst predicted_curve.
  apply POSIX_ENSURE_success, Z.eqb_eq in Hid.
  assert (Hfirst : first_entry (ecc_curves (ecc_preferences client_policy))
                   = Some client_default).
  { destruct (first_entry (ecc_curves (ecc_preferences client_policy)));
      [now injection Hdefault as -> | discriminate]. }
  assert (Hreturned : s2n_get_predicted_negotiated_ecdhe_curve ecc_iana_id
                        (Some client_policy) (Some server_policy) = Returns (Some p)).
  { destruct (s2n_get_predicted_negotiated_ecdhe_curve ecc_iana_id
                (Some client_policy) (Some server_policy));
      [now injection Hpredicted as -> | discriminate]. }
  clear Hdefault Hpredicted.
  destruct (predicted_curve_sound _ _ _ _ Hreturned) as (Hin & s & Hs & Hsid).
  exists c, p. split; [exact Hc|]. split.
  - assert (Hfb : fallback = Some s2n_ecc_curve_secp256r1 \/ fallback = curve).
    { destruct (negb _ || negb _) in Hfallback.
      - posix_inversion. injection Hfallback as <-. now left.
      - injection Hfallback as <-. now right. }
    assert (Hch : chosen = client_default \/ chosen = fallback).
    { destruct (s2n_security_policy_supports_tls13 client_policy
                && s2n_security_policy_supports_tls13 server_policy) in Hchosen.
      - apply POSIX_GUARD_success in Hchosen. destruct Hchosen as (d & _ & Hchosen).
        destruct (s2n_ecc_preferences_includes_curve _ _) in Hchosen;
          injection Hchosen as <-; auto.
      - injection Hchosen as <-. now right. }
    destruct Hch as [Hch | Hch]; [right; left; congruence|].
    destruct Hfb as [Hfb | Hfb]; [left | right; right]; congruence.
  - repeat split; try assumption. exists s. split; [exact Hs | congruence].
Qed.

(** A vector that expects a hybrid group, run with PQ disabled: both
    policies list x25519 and support TLS 1.3, so the client's first curve
    is handed to the driver. *)
Lemma checked_curve_is_listed_by_both_witness :
  let includes := fun prefs id =>
    existsb (fun entry => match entry with
                          | Some c => Loopback.ecc_iana_id c =? id
                          | None => false
                          end) (ecc_curves prefs) in
  let no_pq :=
    {| s2n_libcrypto_supports_evp_kem := false; s2n_is_evp_apis_supported := true;
       s2n_libcrypto_supports_mlkem := false; s2n_pq_is_enabled := false |} in
  let client :=
    {| minimum_protocol_version := 34; kem_preferences := Some kyber_test_prefs_draft5;
       ecc_preferences :=
         {| ecc_curves := [Some s2n_ecc_curve_x25519; Some s2n_ecc_curve_secp256r1] |} |} in
  let server :=
    {| minimum_protocol_version := 34; kem_preferences := Some kyber_test_prefs_draft5;
       ecc_preferences :=
         {| ecc_curves := [Some s2n_ecc_curve_secp256r1; Some s2n_ecc_curve_x25519] |} |} in
  s2n_pq_is_enabled no_pq = false
  /\ ensure_predicted_curve Loopback.ecc_iana_id includes (fun _ => true) no_pq
       client server None = S2N_SUCCESS (Some s2n_ecc_curve_x25519)
  /\ exists c predicted,
       Some s2n_ecc_curve_x25519 = Some c
       /\ s2n_get_predicted_negotiated_ecdhe_curve Loopback.ecc_iana_id
            (Some client) (Some server) = Returns (Some predicted)
       /\ Loopback.ecc_iana_id c = Loopback.ecc_iana_id predicted.
Proof.
  intros includes no_pq client server.
  split; [reflexivity|]. split; [vm_compute; reflexivity|].
  destruct (checked_curve_is_listed_by_both Loopback.ecc_iana_id includes (fun _ => true)
              no_pq client server None (Some s2n_ecc_curve_x25519))
    as (c & predicted & Hc & _ & Hp & Hid & _).
  - reflexivity.
  - vm_compute. reflexivity.
  - exists c, predicted. auto.
Defined.

(* ===================================================================== *)
(** * Further properties of the driver *)
(* ===================================================================== *)

(** X11. The driver wants exactly one expectation.  Called with both an
    expected group and an expected curve, or with neither, it fails with
    [S2N_ERR_SAFETY] for every library and every policy: the check comes
    before the first call into the library. *)
Theorem driver_rejects_both_or_neither
    (lib : libs2n) (client_sec_policy server_sec_policy : s2n_security_policy)
    (expected_kem_group : option s2n_kem_group)
    (expected_curve : option s2n_ecc_named_curve)
    (hrr_expected len_prefix_expected : bool) :
  is_null expected_kem_group = is_null expected_curve ->
  s2n_test_tls13_pq_handshake lib client_sec_policy server_sec_policy
    expected_kem_group expected_curve hrr_expected len_prefix_expected
  = S2N_FAILURE S2N_ERR_SAFETY.
Proof.
  intros Hboth.
  unfold s2n_test_tls13_pq_handshake, s2n_test_tls13_pq_handshake_checks.
  rewrite Hboth, Bool.eqb_reflx. reflexivity.
Qed.

(** A vector with both expectations, on the loopback library. *)
Lemma driver_rejects_both_or_neither_witness :
  s2n_test_tls13_pq_handshake Loopback.library
    (Loopback.policy kyber_test_prefs_draft5) (Loopback.policy kyber_test_prefs_draft5)
    (Some s2n_x25519_kyber_512_r3) (Some s2n_ecc_curve_x25519) false false
  = S2N_FAILURE S2N_ERR_SAFETY.
Proof.
  apply (driver_rejects_both_or_neither Loopback.library). reflexivity.
Defined.

(** What [ensure_server_choice] has compared on the server's connection,
    by the kind of expectation. *)
Lemma ensure_server_choice_pointers
    (lib : libs2n) (client_sec_policy : s2n_security_policy)
    (expected_kem_group : option s2n_kem_group)
    (expected_curve : option s2n_ecc_named_curve) (len_prefix_expected : bool)
    (w : endpoints) :
  ensure_server_choice lib client_sec_policy expected_kem_group expected_curve
    len_prefix_expected w = S2N_SUCCESS tt ->
  match expected_kem_group with
  | Some g => ensure_negotiated_kem_group g (server_conn w) = S2N_SUCCESS tt
  | None => ensure_negotiated_curve expected_curve (server_conn w) = S2N_SUCCESS tt
  end.
Proof.
  unfold ensure_server_choice. destruct expected_kem_group as [g|]; [|auto].
  intros H.
  apply POSIX_GUARD_success in H. destruct H as ([] & _ & H).
  apply POSIX_GUARD_success in H. destruct H as ([] & _ & H).
  apply POSIX_GUARD_success in H. destruct H as ([] & _ & H). exact H.
Qed.

Lemma ensure_negotiated_pointers
    (lib : libs2n) (expected_kem_group : option s2n_kem_group)
    (expected_curve : option s2n_ecc_named_curve) (w : endpoints) :
  ensure_negotiated lib expected_kem_group expected_curve w = S2N_SUCCESS tt ->
  match expected_kem_group with
  | Some g =>
      ensure_negotiated_kem_group g (client_conn w) = S2N_SUCCESS tt
      /\ ensure_negotiated_kem_group g (server_conn w) = S2N_SUCCESS tt
  | None =>
      ensure_negotiated_curve expected_curve (client_conn w) = S2N_SUCCESS tt
      /\ ensure_negotiated_curve expected_curve (server_conn w) = S2N_SUCCESS tt
  end.
Proof.
  unfold ensure_negotiated. destruct expected_kem_group as [g|]; intros H;
    apply POSIX_GUARD_success in H; destruct H as ([] & Hclient & H);
    apply POSIX_GUARD_success in H; destruct H as ([] & Hserver & _); auto.
Qed.

Lemma ensure_negotiated_kem_group_pointers (g : s2n_kem_group) (conn : s2n_connection) :
  ensure_negotiated_kem_group g conn = S2N_SUCCESS tt ->
  negotiated_pointers conn = (Some g, Some (kem g), Some (curve g), None).
Proof.
  intros H. apply ensure_negotiated_kem_group_success in H.
  destruct H as (H1 & H2 & H3 & H4). unfold negotiated_pointers. congruence.
Qed.

Lemma ensure_negotiated_curve_pointers
    (c : option s2n_ecc_named_curve) (conn : s2n_connection) :
  ensure_negotiated_curve c conn = S2N_SUCCESS tt ->
  negotiated_pointers conn = (None, None, None, c).
Proof.
  intros H. apply ensure_negotiated_curve_success in H.
  destruct H as (H1 & H2 & H3 & H4). unfold negotiated_pointers. congruence.
Qed.

(** X13. The server's choice is final.  In a run the driver reports
    successful, what the server has recorded of the key exchange when it
    has read the first ClientHello (group, KEM and curve of a hybrid
    exchange, or the curve of a classical one) is what it holds at the
    end, and what the client holds at the end, with or without a
    HelloRetryRequest in between. *)
Theorem server_choice_is_final
    (lib : libs2n) (client_sec_policy server_sec_policy : s2n_security_policy)
    (expected_kem_group : option s2n_kem_group)
    (expected_curve : option s2n_ecc_named_curve)
    (hrr_expected len_prefix_expected : bool) :
  s2n_test_tls13_pq_handshake lib client_sec_policy server_sec_policy
    expected_kem_group expected_curve hrr_expected len_prefix_expected = S2N_SUCCESS tt ->
  exists after_client_hello after_server_hello resources,
    s2n_test_tls13_pq_handshake_checks lib client_sec_policy server_sec_policy
      expected_kem_group expected_curve hrr_expected len_prefix_expected
    = S2N_SUCCESS (after_client_hello, after_server_hello, resources)
    /\ negotiated_pointers (server_conn after_server_hello)
       = negotiated_pointers (server_conn after_client_hello)
    /\ negotiated_pointers (client_conn after_server_hello)
       = negotiated_pointers (server_conn after_client_hello)
    /\ negotiated_pointers (server_conn after_client_hello)
       = match expected_kem_group with
         | Some g => (Some g, Some (kem g), Some (curve g), None)
         | None => (None, None, None, expected_curve)
         end.
Proof.
  intros Hdriver.
  destruct (driver_success _ _ _ _ _ _ _ Hdriver) as (w1 & w2 & r & Hchecks).
  destruct (checks_success _ _ _ _ _ _ _ _ _ _ Hchecks) as (_ & Hchoice & _ & Hnegotiated & _).
  apply ensure_server_choice_pointers in Hchoice.
  apply ensure_negotiated_pointers in Hnegotiated.
  exists w1, w2, r. split; [exact Hchecks|].
  destruct expected_kem_group as [g|]; destruct Hnegotiated as [Hclient Hserver].
  - apply ensure_negotiated_kem_group_pointers in Hchoice, Hclient, Hserver.
    rewrite Hchoice, Hclient, Hserver. auto.
  - apply ensure_negotiated_curve_pointers in Hchoice, Hclient, Hserver.
    rewrite Hchoice, Hclient, Hserver. auto.
Qed.

(** The run with a HelloRetryRequest: the Kyber-1024 client against the
    Kyber-768 server. *)
Lemma server_choice_is_final_witness :
  s2n_test_tls13_pq_handshake Loopback.library
    (Loopback.policy kyber1024_test_prefs) (Loopback.policy kyber768_test_prefs)
    (Some s2n_secp256r1_kyber_512_r3) None true false = S2N_SUCCESS tt
  /\ exists after_client_hello after_server_hello resources,
       s2n_test_tls13_pq_handshake_checks Loopback.library
         (Loopback.policy kyber1024_test_prefs) (Loopback.policy kyber768_test_prefs)
         (Some s2n_secp256r1_kyber_512_r3) None true false
       = S2N_SUCCESS (after_client_hello, after_server_hello, resources)
       /\ negotiated_pointers (server_conn after_server_hello)
          = negotiated_pointers (server_conn after_client_hello)
       /\ negotiated_pointers (client_conn after_server_hello)
          = negotiated_pointers (server_conn after_client_hello)
       /\ negotiated_pointers (server_conn after_client_hello)
          = (Some s2n_secp256r1_kyber_512_r3, Some (kem s2n_secp256r1_kyber_512_r3),
             Some (curve s2n_secp256r1_kyber_512_r3), None).
Proof.
  split; [vm_compute; reflexivity|].
  apply (server_choice_is_final Loopback.library
           (Loopback.policy kyber1024_test_prefs) (Loopback.policy kyber768_test_prefs)
           (Some s2n_secp256r1_kyber_512_r3) None true false).
  vm_compute. reflexivity.
Defined.

(** X14. The three accessors agree with the expectation and with each
    other.  In a run the driver reports successful that expects the hybrid
    group [g], [s2n_connection_get_kem_group_name] and
    [s2n_connection_get_key_exchange_group] answer the name of [g] on both
    connections; in one that expects a classical curve,
    [s2n_connection_get_curve] and [s2n_connection_get_key_exchange_group]
    answer the name of that curve on both connections. *)
Theorem successful_handshake_reports_expected_name
    (lib : libs2n) (client_sec_policy server_sec_policy : s2n_security_policy)
    (expected_kem_group : option s2n_kem_group)
    (expected_curve : option s2n_ecc_named_curve)
    (hrr_expected len_prefix_expected : bool) :
  s2n_test_tls13_pq_handshake lib client_sec_policy server_sec_policy
    expected_kem_group expected_curve hrr_expected len_prefix_expected = S2N_SUCCESS tt ->
  exists after_client_hello after_server_hello resources,
    s2n_test_tls13_pq_handshake_checks lib client_sec_policy server_sec_policy
      expected_kem_group expected_curve hrr_expected len_prefix_expected
    = S2N_SUCCESS (after_client_hello, after_server_hello, resources)
    /\ Forall
         (fun conn =>
            match expected_kem_group with
            | Some g =>
                expected_curve = None
                /\ s2n_connection_get_kem_group_name lib conn = name lib g
                /\ s2n_connection_get_key_exchange_group lib conn = S2N_SUCCESS (name lib g)
            | None =>
                exists c,
                  expected_curve = Some c
                  /\ s2n_connection_get_curve lib conn = ecc_name lib c
                  /\ s2n_connection_get_key_exchange_group lib conn
                     = S2N_SUCCESS (ecc_name lib c)
            end)
         [server_conn after_server_hello; client_conn after_server_hello].
Proof.
  intros Hdriver.
  destruct (driver_success _ _ _ _ _ _ _ Hdriver) as (w1 & w2 & r & Hchecks).
  destruct (checks_success _ _ _ _ _ _ _ _ _ _ Hchecks) as (Hxor & _ & _ & H & _).
  exists w1, w2, r. split; [exact Hchecks|].
  unfold ensure_negotiated in H. destruct expected_kem_group as [g|].
  - assert (Hcurve : expected_curve = None)
      by (destruct expected_curve; [now destruct Hxor | reflexivity]).
    apply POSIX_GUARD_success in H. destruct H as ([] & _ & H).
    apply POSIX_GUARD_success in H. destruct H as ([] & _ & H).
    apply POSIX_GUARD_success in H. destruct H as ([] & Hs & H).
    apply POSIX_GUARD_success in H. destruct H as ([] & Hc & H).
    apply POSIX_GUARD_success in H. destruct H as (server_name & Hsg & H).
    apply POSIX_GUARD_success in H. destruct H as (client_name & Hcg & H).
    apply POSIX_GUARD_success in H. destruct H as ([] & Hsn & Hcn).
    apply ensure_same_name_success in Hs, Hc, Hsn, Hcn. subst server_name client_name.
    repeat constructor; assumption.
  - apply POSIX_GUARD_success in H. destruct H as ([] & _ & H).
    apply POSIX_GUARD_success in H. destruct H as ([] & _ & H).
    apply POSIX_GUARD_success in H. destruct H as (c & Hcurve & H).
    apply POSIX_ENSURE_REF_success in Hcurve.
    apply POSIX_GUARD_success in H. destruct H as ([] & Hs & H).
    apply POSIX_GUARD_success in H. destruct H as ([] & Hc & H).
    apply POSIX_GUARD_success in H. destruct H as (server_name & Hsg & H).
    apply POSIX_GUARD_success in H. destruct H as (client_name & Hcg & H).
    apply POSIX_GUARD_success in H. destruct H as ([] & Hsn & Hcn).
    apply ensure_same_name_success in Hs, Hc, Hsn, Hcn. subst server_name client_name.
    repeat constructor; exists c; auto.
Qed.

(** The names after the run of the draft-5 client against the draft-0
    server. *)
Lemma successful_handshake_reports_expected_name_witness :
  s2n_test_tls13_pq_handshake Loopback.library
    (Loopback.policy kyber_test_prefs_draft5) (Loopback.policy kyber_test_prefs_draft0)
    (Some s2n_x25519_kyber_512_r3) None false false = S2N_SUCCESS tt
  /\ exists after_client_hello after_server_hello resources,
       s2n_test_tls13_pq_handshake_checks Loopback.library
         (Loopback.policy kyber_test_prefs_draft5) (Loopback.policy kyber_test_prefs_draft0)
         (Some s2n_x25519_kyber_512_r3) None false false
       = S2N_SUCCESS (after_client_hello, after_server_hello, resources)
       /\ Forall
            (fun conn =>
               (None : option s2n_ecc_named_curve) = None
               /\ s2n_connection_get_kem_group_name Loopback.library conn
                  = name Loopback.library s2n_x25519_kyber_512_r3
               /\ s2n_connection_get_key_exchange_group Loopback.library conn
                  = S2N_SUCCESS (name Loopback.library s2n_x25519_kyber_512_r3))
            [server_conn after_server_hello; client_conn after_server_hello].
Proof.
  split; [vm_compute; reflexivity|].
  apply (successful_handshake_reports_expected_name Loopback.library
           (Loopback.policy kyber_test_prefs_draft5) (Loopback.policy kyber_test_prefs_draft0)
           (Some s2n_x25519_kyber_512_r3) None false false).
  vm_compute. reflexivity.
Defined.

(** X15. The size of a secret follows the cipher suite.  In a run the
    driver reports successful both connections hold the same cipher suite,
    [s2n_tls13_connection_keys] reports the same secret size for both, the
    size is 48 exactly when the suite is [s2n_tls13_aes_256_gcm_sha384] and
    32 otherwise, and both connections have extracted the handshake
    secret. *)
Theorem successful_handshake_secret_size_follows_cipher_suite
    (lib : libs2n) (client_sec_policy server_sec_policy : s2n_security_policy)
    (expected_kem_group : option s2n_kem_group)
    (expected_curve : option s2n_ecc_named_curve)
    (hrr_expected len_prefix_expected : bool) :
  s2n_test_tls13_pq_handshake lib client_sec_policy server_sec_policy
    expected_kem_group expected_curve hrr_expected len_prefix_expected = S2N_SUCCESS tt ->
  exists after_client_hello after_server_hello resources server_keys client_keys,
    s2n_test_tls13_pq_handshake_checks lib client_sec_policy server_sec_policy
      expected_kem_group expected_curve hrr_expected len_prefix_expected
    = S2N_SUCCESS (after_client_hello, after_server_hello, resources)
    /\ s2n_tls13_connection_keys lib (server_conn after_server_hello)
       = S2N_SUCCESS server_keys
    /\ s2n_tls13_connection_keys lib (client_conn after_server_hello)
       = S2N_SUCCESS client_keys
    /\ cipher_suite (server_conn after_server_hello)
       = cipher_suite (client_conn after_server_hello)
    /\ size server_keys = size client_keys
    /\ (size server_keys = 48
        <-> cipher_suite (server_conn after_server_hello) = s2n_tls13_aes_256_gcm_sha384)
    /\ (size server_keys = 32
        <-> cipher_suite (server_conn after_server_hello) <> s2n_tls13_aes_256_gcm_sha384)
    /\ extract_secret_type (secrets (client_conn after_server_hello))
       = S2N_HANDSHAKE_SECRET lib
    /\ extract_secret_type (secrets (server_conn after_server_hello))
       = S2N_HANDSHAKE_SECRET lib.
Proof.
  intros Hdriver.
  destruct (driver_success _ _ _ _ _ _ _ Hdriver) as (w1 & w2 & r & Hchecks).
  destruct (checks_success _ _ _ _ _ _ _ _ _ _ Hchecks) as (_ & _ & _ & _ & H).
  unfold ensure_secrets in H.
  apply POSIX_GUARD_success in H. destruct H as (server_keys & Hsk & H).
  apply POSIX_GUARD_success in H. destruct H as (client_keys & Hck & H).
  apply POSIX_GUARD_success in H. destruct H as ([] & Hsuite & H).
  apply POSIX_GUARD_success in H. destruct H as ([] & Hsize & H).
  cbv zeta in H.
  apply POSIX_GUARD_success in H. destruct H as ([] & Hsame & H).
  apply POSIX_GUARD_success in H. destruct H as ([] & Hclient & H).
  apply POSIX_GUARD_success in H. destruct H as ([] & _ & H).
  apply POSIX_GUARD_success in H. destruct H as ([] & _ & H).
  apply POSIX_GUARD_success in H. destruct H as ([] & _ & H).
  apply POSIX_GUARD_success in H. destruct H as ([] & Hserver & _).
  exists w1, w2, r, server_keys, client_keys.
  unfold POSIX_ENSURE_EQ_cipher_suite in Hsuite. apply POSIX_ENSURE_success in Hsuite.
  destruct (s2n_cipher_suite_eq_dec (cipher_suite (server_conn w2))
              (cipher_suite (client_conn w2))) as [Hcs|]; [|discriminate].
  posix_inversion.
  repeat split; try assumption;
    destruct (s2n_cipher_suite_eq_dec (cipher_suite (server_conn w2))
                s2n_tls13_aes_256_gcm_sha384);
    posix_inversion; try lia; try congruence.
Qed.

(** The sizes after the run of the draft-5 client against the draft-0
    server. *)
Lemma successful_handshake_secret_size_follows_cipher_suite_witness :
  s2n_test_tls13_pq_handshake Loopback.library
    (Loopback.policy kyber_test_prefs_draft5) (Loopback.policy kyber_test_prefs_draft0)
    (Some s2n_x25519_kyber_512_r3) None false false = S2N_SUCCESS tt
  /\ exists after_client_hello after_server_hello resources server_keys client_keys,
       s2n_test_tls13_pq_handshake_checks Loopback.library
         (Loopback.policy kyber_test_prefs_draft5) (Loopback.policy kyber_test_prefs_draft0)
         (Some s2n_x25519_kyber_512_r3) None false false
       = S2N_SUCCESS (after_client_hello, after_server_hello, resources)
       /\ s2n_tls13_connection_keys Loopback.library (server_conn after_server_hello)
          = S2N_SUCCESS server_keys
       /\ s2n_tls13_connection_keys Loopback.library (client_conn after_server_hello)
          = S2N_SUCCESS client_keys
       /\ cipher_suite (server_conn after_server_hello)
          = cipher_suite (client_conn after_server_hello)
       /\ size server_keys = size client_keys.
Proof.
  split; [vm_compute; reflexivity|].
  destruct (successful_handshake_secret_size_follows_cipher_suite Loopback.library
              (Loopback.policy kyber_test_prefs_draft5)
              (Loopback.policy kyber_test_prefs_draft0)
              (Some s2n_x25519_kyber_512_r3) None false false)
    as (w1 & w2 & r & server_keys & client_keys & H1 & H2 & H3 & H4 & H5 & _).
  - vm_compute. reflexivity.
  - exists w1, w2, r, server_keys, client_keys. auto.
Defined.

(* ===================================================================== *)
(** * Further properties of the KEM preferences test *)
(* ===================================================================== *)

(** X16. What the availability assertions of the KEM preferences test
    decide.  Two availability functions that pass them agree on every
    group, except on the three ML-KEM groups when the provider has the
    generic KEM interface but no ML-KEM; there the test asserts nothing,
    and a function that reports an ML-KEM group available passes as well
    as one that does not. *)
Theorem kem_preferences_test_decides_availability (lc : libcrypto) :
  (forall avail avail' g,
      kem_preferences_test_availability lc avail = true ->
      kem_preferences_test_availability lc avail' = true ->
      (s2n_libcrypto_supports_evp_kem lc = true ->
       s2n_libcrypto_supports_mlkem lc = false ->
       ~ In g [s2n_secp256r1_mlkem_768; s2n_x25519_mlkem_768; s2n_secp384r1_mlkem_1024]) ->
      avail g = avail' g)
  /\ (s2n_libcrypto_supports_evp_kem lc = true ->
      s2n_libcrypto_supports_mlkem lc = false ->
      forall g,
        In g [s2n_secp256r1_mlkem_768; s2n_x25519_mlkem_768; s2n_secp384r1_mlkem_1024] ->
        exists avail avail',
          kem_preferences_test_availability lc avail = true
          /\ kem_preferences_test_availability lc avail' = true
          /\ avail g = true /\ avail' g = false).
Proof.
  split.
  - intros avail avail' g H H' Hcorner.
    assert (Hc : is_mlkem (kem g) && s2n_libcrypto_supports_evp_kem lc
                 && negb (s2n_libcrypto_supports_mlkem lc) = false).
    { destruct (s2n_libcrypto_supports_evp_kem lc), (s2n_libcrypto_supports_mlkem lc);
        rewrite ?andb_false_r; try reflexivity.
      destruct g; try reflexivity;
        exfalso; apply (Hcorner eq_refl eq_refl); cbn; auto. }
    rewrite (kem_preferences_test_availability_determines lc avail g H Hc).
    now rewrite (kem_preferences_test_availability_determines lc avail' g H' Hc).
  - intros Hkem Hmlkem g Hg.
    exists (fun u => if s2n_kem_group_eq_dec u g then true
                     else s2n_kem_group_is_available lc u),
           (fun u => if s2n_kem_group_eq_dec u g then false
                     else s2n_kem_group_is_available lc u).
    destruct lc as [[] [] [] ?]; try discriminate;
      destruct Hg as [<- | [<- | [<- | []]]]; repeat split;
      try reflexivity.
Qed.

(** A provider with the KEM interface but without ML-KEM: the modelled
    predicate and a function that reports [s2n_x25519_mlkem_768] available
    both pass, and they agree on [s2n_x25519_kyber_512_r3]. *)
Lemma kem_preferences_test_decides_availability_witness :
  let avail := s2n_kem_group_is_available Loopback.older_provider in
  let avail' := fun g => if s2n_kem_group_eq_dec g s2n_x25519_mlkem_768 then true
                         else s2n_kem_group_is_available Loopback.older_provider g in
  kem_preferences_test_availability Loopback.older_provider avail = true
  /\ kem_preferences_test_availability Loopback.older_provider avail' = true
  /\ avail s2n_x25519_kyber_512_r3 = avail' s2n_x25519_kyber_512_r3.
Proof.
  intros avail avail'.
  split; [reflexivity|]. split; [reflexivity|].
  destruct (kem_preferences_test_decides_availability Loopback.older_provider)
    as [Hdecides _].
  apply Hdecides.
  - reflexivity.
  - reflexivity.
  - intros _ _ [H | [H | [H | []]]]; discriminate.
Defined.
